(** * The Ninja writer for C-family binary targets

    A shallow embedding of [gn/ninja_c_binary_target_writer.cc]: the
    functions of [NinjaCBinaryTargetWriter] become functions of a small
    writer monad that records what is appended to [out_] and threads the
    state of the global scheduler ([g_scheduler]).

    The functions and data defined in other files of the repository
    (targets, toolchains, substitution and path writers) are parameters:
    the record [Externals] and the fields of [Target] and [Toolchain].

    Release-build semantics are modelled: [DCHECK], [DCHECK_NE] and
    [NOTREACHED] compile to nothing, the [#ifndef NDEBUG] block of [Run] is
    absent.  [CHECK] is the fatal assertion of [base/logging.h]: a false
    condition terminates the process.  Dereferencing a null tool pointer and
    a string operation out of range also terminate the process in the
    model; indexing an empty vector with the unchecked [operator[]] is
    undefined behaviour, kept apart from termination. *)

From Stdlib Require Import List String Ascii Bool Arith ZArith Lia.
Import ListNotations.
Open Scope string_scope.
Open Scope list_scope.

(** ** Data model *)

(** [OutputFile] is a wrapper around the path string; [OutputFile::value()]
    is the identity here. *)
Definition OutputFile := string.

(** [SourceFile::Type], with the members the writer asks for. *)
Inductive SourceFileType : Type :=
| SOURCE_UNKNOWN | SOURCE_ASM | SOURCE_C | SOURCE_CPP | SOURCE_H
| SOURCE_M | SOURCE_MM | SOURCE_MODULEMAP | SOURCE_S | SOURCE_RC
| SOURCE_O | SOURCE_DEF | SOURCE_RS | SOURCE_GO | SOURCE_SWIFT.

Definition SourceFileType_eqb (a b : SourceFileType) : bool :=
  match a, b with
  | SOURCE_UNKNOWN, SOURCE_UNKNOWN | SOURCE_ASM, SOURCE_ASM
  | SOURCE_C, SOURCE_C | SOURCE_CPP, SOURCE_CPP | SOURCE_H, SOURCE_H
  | SOURCE_M, SOURCE_M | SOURCE_MM, SOURCE_MM
  | SOURCE_MODULEMAP, SOURCE_MODULEMAP | SOURCE_S, SOURCE_S
  | SOURCE_RC, SOURCE_RC | SOURCE_O, SOURCE_O | SOURCE_DEF, SOURCE_DEF
  | SOURCE_RS, SOURCE_RS | SOURCE_GO, SOURCE_GO
  | SOURCE_SWIFT, SOURCE_SWIFT => true
  | _, _ => false
  end.

(** A source file: its path and the type its constructor computed. *)
Record SourceFile : Type := mkSourceFile {
  value : string;
  GetType : SourceFileType
}.

Definition IsModuleMapType (sf : SourceFile) : bool :=
  SourceFileType_eqb (GetType sf) SOURCE_MODULEMAP.
Definition IsDefType (sf : SourceFile) : bool :=
  SourceFileType_eqb (GetType sf) SOURCE_DEF.
Definition IsSwiftType (sf : SourceFile) : bool :=
  SourceFileType_eqb (GetType sf) SOURCE_SWIFT.
Definition IsObjectType (sf : SourceFile) : bool :=
  SourceFileType_eqb (GetType sf) SOURCE_O.

(** [SourceFile::TypeSet]: one flag per source type. *)
Definition TypeSet := SourceFileType -> bool.
Definition Get (s : TypeSet) (t : SourceFileType) : bool := s t.
Definition SwiftSourceUsed (s : TypeSet) : bool := Get s SOURCE_SWIFT.

(** Tool names are [const char*] constants compared by address; the
    constants the writer names are constructors, every other tool name the
    collaborators may hand back is [kOtherTool]. *)
Inductive ToolName : Type :=
| kToolNone
| kCToolCc | kCToolCxx | kCToolObjC | kCToolObjCxx
| kGeneralToolStamp
| kOtherTool (name : string).

Definition ToolName_eqb (a b : ToolName) : bool :=
  match a, b with
  | kToolNone, kToolNone | kCToolCc, kCToolCc | kCToolCxx, kCToolCxx
  | kCToolObjC, kCToolObjC | kCToolObjCxx, kCToolObjCxx
  | kGeneralToolStamp, kGeneralToolStamp => true
  | kOtherTool x, kOtherTool y => String.eqb x y
  | _, _ => false
  end.

(** [CTool::PrecompiledHeaderType]. *)
Inductive PrecompiledHeaderType : Type := PCH_NONE | PCH_GCC | PCH_MSVC.

(** A substitution pattern list is kept opaque: a list of pattern strings. *)
Definition SubstitutionList := list string.

(** The part of [Tool] / [CTool] the writer reads. *)
Record Tool : Type := mkTool {
  name : ToolName;
  outputs : SubstitutionList;
  partial_outputs : SubstitutionList;
  precompiled_header_type : PrecompiledHeaderType
}.

(** The substitutions the writer names. *)
Inductive Substitution : Type :=
| CSubstitutionModuleDeps | CSubstitutionModuleDepsNoSelf
| CSubstitutionCFlagsC | CSubstitutionCFlagsCc
| CSubstitutionCFlagsObjC | CSubstitutionCFlagsObjCc
| SubstitutionLabelNoToolchain
| SubstitutionOutputExtension | SubstitutionOutputDir.

(** The toolchain: its tools, and [substitution_bits().used] as a
    membership test. *)
Record Toolchain : Type := mkToolchain {
  GetToolAsC : ToolName -> option Tool;
  GetToolForSourceType : SourceFileType -> option Tool;
  used : Substitution -> bool
}.

Inductive OutputType : Type :=
| UNKNOWN | GROUP | EXECUTABLE | SHARED_LIBRARY | LOADABLE_MODULE
| STATIC_LIBRARY | SOURCE_SET | COPY_FILES | ACTION | ACTION_FOREACH
| BUNDLE_DATA | CREATE_BUNDLE | GENERATED_FILE
| RUST_LIBRARY | RUST_PROC_MACRO.

(** The members of [ConfigValues] read directly by the writer. *)
Record ConfigValues : Type := mkConfigValues {
  has_precompiled_headers : bool;
  precompiled_header : string;
  precompiled_source : SourceFile
}.

(** The string-list members of [ConfigValues] handed to
    [RecursiveTargetConfigStringsToStream]. *)
Inductive ConfigField : Type :=
| cflags_c | cflags_cc | cflags_objc | cflags_objcc | arflags.

Inductive LibFile : Type :=
| LibSource (source_file : SourceFile)
| LibName (lib : string).

Definition ParseNode := nat.

(** A resolved target, with the accessors the writer calls. *)
#[local] Set Warnings "-register-all".
Inductive Target : Type := mkTarget {
  label : string;               (* label().GetUserVisibleName(false) *)
  defined_from : ParseNode;
  output_type : OutputType;
  sources : list SourceFile;
  source_types_used : TypeSet;
  config_values : ConfigValues;
  toolchain : Toolchain;
  linked_deps : list Target;    (* GetDeps(Target::DEPS_LINKED) *)
  dependency_output_file : OutputFile;
  link_output_file : OutputFile;
  module_output_file : OutputFile;   (* swift_values().module_output_file() *)
  modules : list Target;             (* swift_values().modules() *)
  builds_swift_module : bool;
  all_libs : list LibFile;
  inherited_libraries : list Target; (* inherited_libraries().GetOrdered() *)
  IsFinal : bool
}.
#[local] Set Warnings "register-all".

(** [NinjaBinaryTargetWriter::ClassifiedDeps]. *)
Record ClassifiedDeps : Type := mkClassifiedDeps {
  extra_object_files : list OutputFile;
  linkable_deps : list Target;
  non_linkable_deps : list Target;
  framework_deps : list Target;
  swiftmodule_deps : list Target
}.

(** The collaborators of the writer whose code lives in other files of the
    repository: they are parameters of the development. *)
Record Externals : Type := mkExternals {
  (* Target::GetOutputFilesForSource: the returned flag, the tool type and
     the outputs it stores through its two out-parameters. *)
  GetOutputFilesForSource :
    Target -> SourceFile -> bool * ToolName * list OutputFile;
  (* SubstitutionWriter::GetTargetSubstitution; None when it returns
     false. *)
  GetTargetSubstitution : Target -> Substitution -> option string;
  GetPCHOutputFiles : Target -> ToolName -> list OutputFile;
  (* FindExtensionOffset; None is std::string::npos. *)
  FindExtensionOffset : string -> option nat;
  GetWindowsPCHObjectExtension : ToolName -> string -> string;
  GetGCCPCHOutputExtension : ToolName -> string;
  (* The vectors returned by WriteInputsStampAndGetDep and
     WriteInputDepsStampAndGetDep. *)
  InputsStampDep : Target -> nat -> list OutputFile;
  InputDepsStampDep : Target -> list Target -> nat -> list OutputFile;
  ApplyListToLinkerAsOutputFile :
    Target -> Tool -> SubstitutionList -> list OutputFile;
  ApplyListToCompilerAsOutputFile :
    Target -> SourceFile -> SubstitutionList -> list OutputFile;
  GetLinkerSubstitution : Target -> Tool -> Substitution -> string;
  (* toolchain()->GetToolForTargetFinalOutputAsC(target); None is null. *)
  GetToolForTargetFinalOutputAsC : Target -> option Tool;
  GetToolTypeForTargetFinalOutput : Target -> ToolName;
  GetClassifiedDeps : Target -> ClassifiedDeps;
  (* OutputFile(build_settings, source_file) and OutputFile::AsSourceFile. *)
  OutputFileOfSource : SourceFile -> OutputFile;
  AsSourceFile : OutputFile -> SourceFile;
  ninja_name : Substitution -> string;
  rule_prefix_ : Target -> string
}.

(** ** The output stream

    [out_] is append-only.  What is written is recorded as a list of items:
    literal text, and the calls of the path and rule writers defined in
    other files, kept with their arguments. *)
Inductive Item : Type :=
| Text (s : string)                   (* out_ << s *)
| Endl                                (* out_ << std::endl *)
| ToolText (t : ToolName)             (* out_ << tool name *)
| Escaped (s : string)   (* EscapeStringToStream, ESCAPE_NINJA_COMMAND *)
| File (f : OutputFile)               (* path_output_.WriteFile *)
| Files (fs : list OutputFile)        (* path_output_.WriteFiles *)
| CommandFiles (fs : list OutputFile)
    (* WriteFiles of the ESCAPE_NINJA_COMMAND PathOutput of WriteLibsList *)
| CompilerBuildLine (srcs : list SourceFile)
                    (extra_deps order_only_deps : list OutputFile)
                    (tool_name : ToolName) (outs : list OutputFile)
                    (can_write_source_info : option bool)
    (* WriteCompilerBuildLine; None when the last argument is defaulted *)
| CCompilerVars                  (* WriteCCompilerVars(subst, false, true) *)
| SharedVars                          (* WriteSharedVars(subst) *)
| InputsStamp (num_stamp_uses : nat)  (* WriteInputsStampAndGetDep *)
| InputDepsStamp (num_stamp_uses : nat)
| ConfigStrings (f : ConfigField)
    (* RecursiveTargetConfigStringsToStream, keeping duplicates *)
| Pool                                (* WritePool(out_) *)
| LinkerFlags (optional_def_file : option SourceFile)
| Libs
| Frameworks
| SwiftModules (swiftmodules : list OutputFile)
| SourceSetStamp (object_files : list OutputFile).

(** ** The scheduler *)

Record Err : Type := mkErr {
  err_location : ParseNode;
  err_title : string;
  err_message : string
}.

Record Scheduler : Type := mkScheduler {
  is_failed : bool;
  reported : list Err
}.

(** Modelled from the spec: [Scheduler::FailWithError] is only declared in
    [scheduler.h].  The error channel marks the build as failed and records
    every failure, the first one first. *)
Definition FailWithError (err : Err) (s : Scheduler) : Scheduler :=
  {| is_failed := true; reported := reported s ++ [err] |}.

(** ** The writer monad *)

(** Why a run stops before it returns: the process was terminated
    (failed [CHECK], null tool, [std::out_of_range] thrown by a string
    operation), or the behaviour is undefined (the unchecked [operator[]]
    of an empty vector) and nothing is said of what follows. *)
Inductive Stop : Type :=
| Terminated
| UndefinedBehaviour.

Inductive Result (A : Type) : Type :=
| Value (a : A)
| Stopped (why : Stop).
Arguments Value {A} a.
Arguments Stopped {A} why.

(** [Fatal]: the process was terminated. *)
Abbreviation Fatal := (Stopped Terminated).
(** [Undefined]: the behaviour is undefined from here on. *)
Abbreviation Undefined := (Stopped UndefinedBehaviour).

Record Outcome (A : Type) : Type := mkOutcome {
  result : Result A;
  written : list Item;
  sched : Scheduler
}.
Arguments mkOutcome {A} _ _ _.
Arguments result {A} _.
Arguments written {A} _.
Arguments sched {A} _.

Definition Writer (A : Type) : Type := Scheduler -> Outcome A.

Definition ret {A} (a : A) : Writer A :=
  fun s => mkOutcome (Value a) [] s.

Definition bind {A B} (m : Writer A) (f : A -> Writer B) : Writer B :=
  fun s =>
    let o := m s in
    match result o with
    | Value a =>
        let o' := f a (sched o) in
        mkOutcome (result o') (written o ++ written o') (sched o')
    | Stopped why => mkOutcome (Stopped why) (written o) (sched o)
    end.

Definition emit (items : list Item) : Writer unit :=
  fun s => mkOutcome (Value tt) items s.

Definition fatal {A} : Writer A :=
  fun s => mkOutcome Fatal [] s.

Definition undefined {A} : Writer A :=
  fun s => mkOutcome Undefined [] s.

Definition lift {A} (r : Result A) : Writer A :=
  fun s => mkOutcome r [] s.

Definition fail_with_error (err : Err) : Writer unit :=
  fun s => mkOutcome (Value tt) [] (FailWithError err s).

Notation "x <- m ;; k" := (bind m (fun x => k))
  (at level 61, m at next level, right associativity).
Notation "' p <- m ;; k" := (bind m (fun x => match x with p => k end))
  (at level 61, p pattern, m at next level, right associativity).
Notation "m ;;; k" := (bind m (fun _ => k))
  (at level 61, right associativity).

(** A loop over a vector whose body may write and may carry state. *)
Fixpoint for_each {A S} (body : S -> A -> Writer S) (l : list A) (st : S)
  : Writer S :=
  match l with
  | [] => ret st
  | x :: rest => st' <- body st x ;; for_each body rest st'
  end.

(** ** The writer *)

(** The newline character. *)
Definition nl : string := String (Ascii.ascii_of_nat 10) EmptyString.

Record ModuleDep : Type := mkModuleDep {
  modulemap : SourceFile;   (* The input module.modulemap source file. *)
  module_name : string;     (* The target's label. *)
  pcm : OutputFile;         (* The compiled version of the module. *)
  is_self : bool            (* Is this the module for the current target. *)
}.

(** Returns the language-specific lang recognized by gcc's -x flag for
    precompiled header files. *)
Definition GetPCHLangForToolType (name : ToolName) : string :=
  match name with
  | kCToolCc => "c-header"
  | kCToolCxx => "c++-header"
  | kCToolObjC => "objective-c-header"
  | kCToolObjCxx => "objective-c++-header"
  | _ => ""
  end.

Definition GetModuleMapFromTargetSources (target : Target)
  : option SourceFile :=
  find IsModuleMapType (sources target).

Section Writer.

Variable E : Externals.

(** The lambda [add] of [GetModuleDepsInformation]; each [CHECK] is fatal. *)
Definition add (ret_ : list ModuleDep) (t : Target) (is_self : bool)
  : Result (list ModuleDep) :=
  match GetModuleMapFromTargetSources t with
  | None => Fatal
  | Some modulemap =>
      match GetTargetSubstitution E t SubstitutionLabelNoToolchain with
      | None => Fatal
      | Some label =>
          let '(ok, _, modulemap_outputs) :=
            GetOutputFilesForSource E t modulemap in
          if ok then
            (* Must be only one .pcm from .modulemap. *)
            match modulemap_outputs with
            | [out] =>
                Value (ret_ ++ [mkModuleDep modulemap label out is_self])
            | _ => Fatal
            end
          else Fatal
      end
  end.

Fixpoint add_linked (ret_ : list ModuleDep) (deps : list Target)
  : Result (list ModuleDep) :=
  match deps with
  | [] => Value ret_
  | dep :: rest =>
      (* Having a .modulemap source means that the dependency is
         modularized. *)
      if Get (source_types_used dep) SOURCE_MODULEMAP then
        match add ret_ dep false with
        | Value ret' => add_linked ret' rest
        | Stopped why => Stopped why
        end
      else add_linked ret_ rest
  end.

Definition GetModuleDepsInformation (target : Target)
  : Result (list ModuleDep) :=
  if Get (source_types_used target) SOURCE_MODULEMAP then
    match add [] target true with
    | Value ret_ => add_linked ret_ (linked_deps target)
    | Stopped why => Stopped why
    end
  else add_linked [] (linked_deps target).

Variable target_ : Target.

(** The records [WriteModuleDepsSubstitution] selects. *)
Definition selected (include_self : bool) (module_dep : ModuleDep) : bool :=
  negb (is_self module_dep) || include_self.

Definition WriteModuleDepsSubstitution (substitution : Substitution)
    (module_dep_info : list ModuleDep) (include_self : bool) : Writer unit :=
  if used (toolchain target_) substitution then
    emit ([Text (ninja_name E substitution); Text " = -Xclang ";
           Escaped "-fmodules-embed-all-files"]
          ++ flat_map (fun module_dep =>
                         [Text " "; Escaped "-fmodule-file=";
                          File (pcm module_dep)])
                      (filter (selected include_self) module_dep_info)
          ++ [Endl])
  else ret tt.

Definition WriteCompilerVars (module_dep_info : list ModuleDep)
  : Writer unit :=
  emit [CCompilerVars] ;;;
  (match module_dep_info with
   | [] => ret tt
   | _ :: _ =>
       (* Currently clang modules only working for C++. *)
       if Get (source_types_used target_) SOURCE_CPP
          || Get (source_types_used target_) SOURCE_MODULEMAP
       then
         WriteModuleDepsSubstitution CSubstitutionModuleDeps
                                     module_dep_info true ;;;
         WriteModuleDepsSubstitution CSubstitutionModuleDepsNoSelf
                                     module_dep_info false
       else ret tt
   end) ;;;
  emit [SharedVars].

Definition WriteInputsStampAndGetDep (num_stamp_uses : nat)
  : Writer (list OutputFile) :=
  emit [InputsStamp num_stamp_uses] ;;;
  ret (InputsStampDep E target_ num_stamp_uses).

Definition WriteInputDepsStampAndGetDep (additional : list Target)
    (num_stamp_uses : nat) : Writer (list OutputFile) :=
  emit [InputDepsStamp num_stamp_uses] ;;;
  ret (InputDepsStampDep E target_ additional num_stamp_uses).

(** The per-language flags written under a GCC PCH build line. *)
Definition gcc_pch_flags (tool_name : ToolName) : list Item :=
  match tool_name with
  | kCToolCc => [ConfigStrings cflags_c]
  | kCToolCxx => [ConfigStrings cflags_cc]
  | kCToolObjC => [ConfigStrings cflags_objc]
  | kCToolObjCxx => [ConfigStrings cflags_objcc]
  | _ => []
  end.

Definition WriteGCCPCHCommand (flag_type : Substitution)
    (tool_name : ToolName) (input_deps order_only_deps : list OutputFile)
    (gch_files : list OutputFile) : Writer (list OutputFile) :=
  (* Compute the pch output file (it will be language-specific). *)
  let outputs := GetPCHOutputFiles E target_ tool_name in
  match outputs with
  | [] => ret gch_files
  | _ :: _ =>
      let extra_deps := input_deps in
      (* Build line to compile the file. *)
      emit [CompilerBuildLine [precompiled_source (config_values target_)]
                              extra_deps order_only_deps tool_name outputs
                              None] ;;;
      emit ([Text "  "; Text (ninja_name E flag_type); Text " ="]
            ++ gcc_pch_flags tool_name
            (* Append the command to specify the language of the .gch
               file. *)
            ++ [Text " -x "; Text (GetPCHLangForToolType tool_name);
                Endl; Endl]) ;;;
      ret (gch_files ++ outputs)
  end.

Definition WriteWindowsPCHCommand (flag_type : Substitution)
    (tool_name : ToolName) (input_deps order_only_deps : list OutputFile)
    (object_files : list OutputFile) : Writer (list OutputFile) :=
  (* Compute the pch output file (it will be language-specific). *)
  let outputs := GetPCHOutputFiles E target_ tool_name in
  match outputs with
  | [] => ret object_files
  | _ :: _ =>
      let extra_deps := input_deps in
      (* Build line to compile the file. *)
      emit [CompilerBuildLine [precompiled_source (config_values target_)]
                              extra_deps order_only_deps tool_name outputs
                              None] ;;;
      emit [Text "  "; Text (ninja_name E flag_type); Text " =";
            (* Append the command to generate the .pch file. *)
            Text " ${"; Text (ninja_name E flag_type); Text "}";
            Text " /Yc"; Text (precompiled_header (config_values target_));
            Endl; Endl] ;;;
      ret (object_files ++ outputs)
  end.

(** The two vectors behind the out-parameters [object_files] and
    [other_files] are passed in and returned. *)
Definition WritePCHCommand (flag_type : Substitution) (tool_name : ToolName)
    (header_type : PrecompiledHeaderType)
    (input_deps order_only_deps : list OutputFile)
    (files : list OutputFile * list OutputFile)
  : Writer (list OutputFile * list OutputFile) :=
  let '(object_files, other_files) := files in
  match header_type with
  | PCH_MSVC =>
      object_files' <- WriteWindowsPCHCommand flag_type tool_name input_deps
                         order_only_deps object_files ;;
      ret (object_files', other_files)
  | PCH_GCC =>
      other_files' <- WriteGCCPCHCommand flag_type tool_name input_deps
                        order_only_deps other_files ;;
      ret (object_files, other_files')
  | PCH_NONE => ret files
  end.

Definition is_none (t : PrecompiledHeaderType) : bool :=
  match t with PCH_NONE => true | _ => false end.
Definition is_gcc (t : PrecompiledHeaderType) : bool :=
  match t with PCH_GCC => true | _ => false end.
Definition is_msvc (t : PrecompiledHeaderType) : bool :=
  match t with PCH_MSVC => true | _ => false end.

(** One of the four blocks of [WritePCHCommands]: the tool is looked up,
    [accepts] is the test on its precompiled header type. *)
Definition pch_block (flag_type : Substitution) (tool_name : ToolName)
    (accepts : PrecompiledHeaderType -> bool) (source_type : SourceFileType)
    (input_deps order_only_deps : list OutputFile)
    (files : list OutputFile * list OutputFile)
  : Writer (list OutputFile * list OutputFile) :=
  match GetToolAsC (toolchain target_) tool_name with
  | Some tool =>
      if accepts (precompiled_header_type tool)
         && Get (source_types_used target_) source_type
      then WritePCHCommand flag_type tool_name (precompiled_header_type tool)
                           input_deps order_only_deps files
      else ret files
  | None => ret files
  end.

Definition WritePCHCommands (input_deps order_only_deps : list OutputFile)
    (files : list OutputFile * list OutputFile)
  : Writer (list OutputFile * list OutputFile) :=
  if negb (has_precompiled_headers (config_values target_)) then ret files
  else
    files <- pch_block CSubstitutionCFlagsC kCToolCc
               (fun t => negb (is_none t)) SOURCE_C
               input_deps order_only_deps files ;;
    files <- pch_block CSubstitutionCFlagsCc kCToolCxx
               (fun t => negb (is_none t)) SOURCE_CPP
               input_deps order_only_deps files ;;
    files <- pch_block CSubstitutionCFlagsObjC kCToolObjC
               is_gcc SOURCE_M
               input_deps order_only_deps files ;;
    pch_block CSubstitutionCFlagsObjCc kCToolObjCxx
              is_gcc SOURCE_MM
              input_deps order_only_deps files.

(** *** The source block *)

Definition rbind {A B} (r : Result A) (f : A -> Result B) : Result B :=
  match r with
  | Value a => f a
  | Stopped why => Stopped why
  end.

Fixpoint fold_result {A S} (body : S -> A -> Result S) (l : list A) (st : S)
  : Result S :=
  match l with
  | [] => Value st
  | x :: rest => rbind (body st x) (fold_result body rest)
  end.

(** [output_value.substr(extension_offset - 1)]: the position is computed
    on [size_t], and [substr] throws when it is past the end. *)
Definition substr_before (output_value : string) (extension_offset : nat)
  : Result string :=
  match extension_offset with
  | 0 => Fatal
  | S pos =>
      if Nat.leb pos (String.length output_value)
      then Value (substring pos (String.length output_value - pos)
                            output_value)
      else Fatal
  end.

(** [output_value.compare(output_value.size() - output_extension.size(),
    output_extension.size(), output_extension) == 0]: the position wraps
    around when the extension is the longer string, and [compare] throws. *)
Definition compare_tail (output_value output_extension : string)
  : Result bool :=
  if Nat.leb (String.length output_extension) (String.length output_value)
  then Value (String.eqb
                (substring
                   (String.length output_value
                    - String.length output_extension)
                   (String.length output_extension) output_value)
                output_extension)
  else Fatal.

(** Body of the loop over [pch_deps]. *)
Definition pch_dep_step (tool : Tool) (tool_name : ToolName)
    (deps : list OutputFile) (dep : OutputFile) : Result (list OutputFile) :=
  let output_value := dep in
  match FindExtensionOffset E output_value with
  | None => Value deps
  | Some extension_offset =>
      rbind
        (match precompiled_header_type tool with
         | PCH_MSVC =>
             rbind (substr_before output_value extension_offset)
                   (fun s => Value (GetWindowsPCHObjectExtension E tool_name s))
         | PCH_GCC => Value (GetGCCPCHOutputExtension E tool_name)
         | PCH_NONE => Value EmptyString
         end)
        (fun output_extension =>
           rbind (compare_tail output_value output_extension)
                 (fun same => Value (if same then deps ++ [dep] else deps)))
  end.

(** Body of the loop over [module_dep_info]; [tool_outputs[0]] is read at
    every iteration, with the unchecked [operator[]]: on an empty vector
    the behaviour is undefined. *)
Definition module_dep_step (tool_outputs : list OutputFile)
    (deps : list OutputFile) (module_dep : ModuleDep)
  : Result (list OutputFile) :=
  match tool_outputs with
  | [] => Undefined
  | first :: _ =>
      Value (if negb (String.eqb first (pcm module_dep))
             then deps ++ [pcm module_dep] else deps)
  end.

(** Body of the loop of [WriteSources] over the sources of the target. *)
Definition WriteSources_source (pch_deps input_deps order_only_deps
                                : list OutputFile)
    (module_dep_info : list ModuleDep)
    (files : list OutputFile * list SourceFile) (source : SourceFile)
  : Writer (list OutputFile * list SourceFile) :=
  let '(object_files, other_files) := files in
  let '(ok, tool_name, tool_outputs) :=
    GetOutputFilesForSource E target_ source in
  if negb ok then
    (* No output for this source. *)
    ret (object_files,
         if IsDefType source then other_files ++ [source] else other_files)
  else
    let deps := input_deps in
    (if negb (ToolName_eqb tool_name kToolNone) then
       match GetToolAsC (toolchain target_) tool_name with
       | None => fatal
       | Some tool =>
           (* Only include PCH deps that correspond to the tool type. *)
           deps <- lift
                     (if negb (is_none (precompiled_header_type tool))
                      then fold_result (pch_dep_step tool tool_name)
                                       pch_deps deps
                      else Value deps) ;;
           deps <- lift (fold_result (module_dep_step tool_outputs)
                                     module_dep_info deps) ;;
           emit [CompilerBuildLine [source] deps order_only_deps tool_name
                                   tool_outputs None;
                 Pool]
       end
     else ret tt) ;;;
    (* It's theoretically possible for a compiler to produce more than one
       output, but we'll only link to the first output.  [tool_outputs[0]]
       is unchecked: undefined behaviour on an empty vector. *)
    if negb (IsModuleMapType source) then
      match tool_outputs with
      | [] => undefined
      | first :: _ => ret (object_files ++ [first], other_files)
      end
    else ret files.

Definition WriteSources (pch_deps input_deps order_only_deps
                         : list OutputFile)
    (module_dep_info : list ModuleDep)
    (files : list OutputFile * list SourceFile)
  : Writer (list OutputFile * list SourceFile) :=
  files <- for_each (WriteSources_source pch_deps input_deps order_only_deps
                                         module_dep_info)
                    (sources target_) files ;;
  emit [Endl] ;;;
  ret files.

(** [UniqueVector<OutputFile>::push_back] and [Append]. *)
Definition push_back_unique (v : list OutputFile) (x : OutputFile)
  : list OutputFile :=
  if existsb (String.eqb x) v then v else v ++ [x].

Definition Append (v : list OutputFile) (l : list OutputFile)
  : list OutputFile :=
  fold_left push_back_unique l v.

(** The outputs that are object files once turned into source files. *)
Definition object_outputs (outs : list OutputFile) : list OutputFile :=
  filter (fun output => IsObjectType (AsSourceFile E output)) outs.

Definition WriteSwiftSources (input_deps order_only_deps : list OutputFile)
    (object_files : list OutputFile) : Writer (list OutputFile) :=
  (* If the target contains .swift source files, they needs to be compiled
     as a single unit but still can produce more than one object file (if
     the whole module optimization is disabled). *)
  if SwiftSourceUsed (source_types_used target_) then
    match GetToolForSourceType (toolchain target_) SOURCE_SWIFT with
    | None => fatal
    | Some tool =>
        let swiftmodule_output_file := module_output_file target_ in
        let additional_outputs :=
          ApplyListToLinkerAsOutputFile E target_ tool (outputs tool) in
        let additional_outputs :=
          filter (fun output => negb (String.eqb output
                                                 swiftmodule_output_file))
                 additional_outputs in
        let object_files :=
          object_files ++ object_outputs additional_outputs in
        let partial_outputs_subst := partial_outputs tool in
        let partial :=
          match partial_outputs_subst with
          | [] => []
          | _ :: _ =>
              flat_map
                (fun source =>
                   if IsSwiftType source
                   then ApplyListToCompilerAsOutputFile
                          E target_ source partial_outputs_subst
                   else [])
                (sources target_)
          end in
        let additional_outputs := additional_outputs ++ partial in
        let object_files := object_files ++ object_outputs partial in
        let swift_order_only_deps :=
          fold_left push_back_unique
                    (map dependency_output_file (modules target_))
                    (Append [] order_only_deps) in
        emit [CompilerBuildLine (sources target_) input_deps
                                swift_order_only_deps (name tool)
                                [swiftmodule_output_file] (Some false)] ;;;
        (match additional_outputs with
         | [] => ret tt
         | _ :: _ =>
             emit [Endl;
                   CompilerBuildLine
                     [AsSourceFile E swiftmodule_output_file]
                     input_deps swift_order_only_deps kGeneralToolStamp
                     additional_outputs (Some false)]
         end) ;;;
        emit [Endl] ;;;
        ret object_files
    end
  else
    emit [Endl] ;;;
    ret object_files.

(** *** The terminal block *)

Definition is_rust_library (t : Target) : bool :=
  match output_type t with
  | RUST_LIBRARY => true
  | _ => false
  end.

Definition is_rust_proc_macro (t : Target) : bool :=
  match output_type t with
  | RUST_PROC_MACRO => true
  | _ => false
  end.

(** Body of the loop over [classified_deps.linkable_deps]: what it writes
    to [out_], and the vectors [implicit_deps] and [solibs]. *)
Definition linkable_dep_step
    (st : list Item * list OutputFile * list OutputFile) (cur : Target)
  : list Item * list OutputFile * list OutputFile :=
  let '(out, implicit_deps, solibs) := st in
  if is_rust_library cur || is_rust_proc_macro cur then st
  else if negb (String.eqb (dependency_output_file cur)
                           (link_output_file cur))
  then
    (* This is a shared library with separate link and deps files. Save for
       later. *)
    (out, implicit_deps ++ [dependency_output_file cur],
     solibs ++ [link_output_file cur])
  else
    (* Normal case, just link to this target. *)
    (out ++ [Text " "; File (link_output_file cur)], implicit_deps, solibs).

Definition linkable_deps_loop (deps : list Target)
  : list Item * list OutputFile * list OutputFile :=
  fold_left linkable_dep_step deps ([], [], []).

(** Libraries specified by paths. *)
Definition lib_source_files (libs : list LibFile) : list OutputFile :=
  flat_map (fun lib => match lib with
                       | LibSource source_file =>
                           [OutputFileOfSource E source_file]
                       | LibName _ => []
                       end) libs.

(** The [dependency_output_file] of the inherited Rust libraries. *)
Definition rust_libraries (deps : list Target) : list OutputFile :=
  map dependency_output_file (filter is_rust_library deps).

Definition WriteOrderOnlyDependencies (non_linkable_deps : list Target)
  : Writer unit :=
  match non_linkable_deps with
  | [] => ret tt
  | _ :: _ =>
      emit (Text " ||"
            :: flat_map (fun non_linkable_dep =>
                           [Text " ";
                            File (dependency_output_file non_linkable_dep)])
                        non_linkable_deps)
  end.

Definition WriteOutputSubstitutions (tool_ : Tool) : Writer unit :=
  emit [Text "  output_extension = ";
        Text (GetLinkerSubstitution E target_ tool_
                                    SubstitutionOutputExtension);
        Endl;
        Text "  output_dir = ";
        Text (GetLinkerSubstitution E target_ tool_ SubstitutionOutputDir);
        Endl].

Definition WriteLibsList (label : string) (libs : list OutputFile)
  : Writer unit :=
  match libs with
  | [] => ret tt
  | _ :: _ => emit [Text "  "; Text label; Text " ="; CommandFiles libs; Endl]
  end.

(** The vector [implicit_deps] of [WriteLinkerStuff] when it is written. *)
Definition link_implicit_deps (other_files : list SourceFile)
    (input_deps : list OutputFile) : list OutputFile :=
  let classified_deps := GetClassifiedDeps E target_ in
  let '(_, implicit_deps, _) :=
    linkable_deps_loop (linkable_deps classified_deps) in
  implicit_deps
  ++ match find IsDefType other_files with
     | Some src_file => [OutputFileOfSource E src_file]
     | None => []
     end
  ++ lib_source_files (all_libs target_)
  ++ map dependency_output_file (framework_deps classified_deps)
  ++ input_deps
  ++ (if IsFinal target_
      then rust_libraries (inherited_libraries target_) else [])
  ++ (if IsFinal target_
      then map module_output_file (swiftmodule_deps classified_deps)
           ++ (if builds_swift_module target_
               then [module_output_file target_] else [])
      else []).

(** The vector [solibs] of [WriteLinkerStuff]. *)
Definition link_solibs : list OutputFile :=
  let '(_, _, solibs) :=
    linkable_deps_loop (linkable_deps (GetClassifiedDeps E target_)) in
  solibs.

(** What the loop over the linkable deps writes after the object files. *)
Definition link_direct_inputs : list Item :=
  let '(out, _, _) :=
    linkable_deps_loop (linkable_deps (GetClassifiedDeps E target_)) in
  out.

Definition WriteLinkerStuff (object_files : list OutputFile)
    (other_files : list SourceFile) (input_deps : list OutputFile)
  : Writer unit :=
  match GetToolForTargetFinalOutputAsC E target_ with
  | None => fatal
  | Some tool_ =>
      let output_files :=
        ApplyListToLinkerAsOutputFile E target_ tool_ (outputs tool_) in
      emit [Text "build"; Files output_files; Text ": ";
            Text (rule_prefix_ E target_);
            ToolText (GetToolTypeForTargetFinalOutput E target_)] ;;;
      let classified_deps := GetClassifiedDeps E target_ in
      (* Object files. *)
      emit [Files object_files;
            Files (extra_object_files classified_deps)] ;;;
      (* Dependencies. *)
      emit link_direct_inputs ;;;
      let solibs := link_solibs in
      let optional_def_file := find IsDefType other_files in
      let implicit_deps := link_implicit_deps other_files input_deps in
      let transitive_rustlibs :=
        if IsFinal target_
        then rust_libraries (inherited_libraries target_) else [] in
      let swiftmodules :=
        if IsFinal target_
        then map module_output_file (swiftmodule_deps classified_deps)
             ++ (if builds_swift_module target_
                 then [module_output_file target_] else [])
        else [] in
      (* Append implicit dependencies collected above. *)
      (match implicit_deps with
       | [] => ret tt
       | _ :: _ => emit [Text " |"; Files implicit_deps]
       end) ;;;
      (* Append data dependencies as order-only dependencies. *)
      WriteOrderOnlyDependencies (non_linkable_deps classified_deps) ;;;
      (* End of the link "build" line. *)
      emit [Endl] ;;;
      (* The remaining things go in the inner scope of the link line. *)
      (match output_type target_ with
       | EXECUTABLE | SHARED_LIBRARY | LOADABLE_MODULE =>
           emit [Text "  ldflags ="; LinkerFlags optional_def_file; Endl;
                 Text "  libs ="; Libs; Endl;
                 Text "  frameworks ="; Frameworks; Endl;
                 Text "  swiftmodules ="; SwiftModules swiftmodules; Endl]
       | STATIC_LIBRARY =>
           emit [Text "  arflags ="; ConfigStrings arflags; Endl]
       | _ => ret tt
       end) ;;;
      WriteOutputSubstitutions tool_ ;;;
      WriteLibsList "solibs" solibs ;;;
      WriteLibsList "rlibs" transitive_rustlibs ;;;
      emit [Pool]
  end.

(** *** The duplicate-object check *)

Definition duplicate_object_message (file : string) : string :=
  ("The target " ++ label target_ ++ nl
   ++ "generates two object files with the same name:" ++ nl
   ++ "  " ++ file ++ nl
   ++ nl
   ++ "It could be you accidentally have a file listed twice in the" ++ nl
   ++ "sources. Or, depending on how your toolchain maps sources to" ++ nl
   ++ "object files, two source files with the same name in different" ++ nl
   ++ "directories could map to the same object file." ++ nl
   ++ nl
   ++ "In the latter case, either rename one of the files or move one of"
   ++ nl
   ++ "the sources to a separate source_set to avoid them both being in"
   ++ nl
   ++ "the same target.")%string.

Definition duplicate_object_error (file : string) : Err :=
  mkErr (defined_from target_) "Duplicate object file"
        (duplicate_object_message file).

(** The loop of [CheckForDuplicateObjectFiles]; [set] is the [std::set] of
    the paths inserted so far. *)
Fixpoint check_files (set : list string) (files : list OutputFile)
  : Writer bool :=
  match files with
  | [] => ret true
  | file :: rest =>
      if existsb (String.eqb file) set then
        fail_with_error (duplicate_object_error file) ;;;
        ret false
      else check_files (file :: set) rest
  end.

Definition CheckForDuplicateObjectFiles (files : list OutputFile)
  : Writer bool :=
  check_files [] files.

(** *** The orchestrator *)

Definition WriteSourceSetStamp (object_files : list OutputFile)
  : Writer unit :=
  emit [SourceSetStamp object_files].

(** What [Run] has computed when it reaches the duplicate check. *)
Record Compiled : Type := mkCompiled {
  obj_files : list OutputFile;
  other_files : list SourceFile;
  input_deps : list OutputFile;
  pch_obj_files : list OutputFile;
  pch_other_files : list OutputFile
}.

(** The source block chosen by [Run]. *)
Definition source_block (pch_files input_deps order_only_deps
                         : list OutputFile)
    (module_dep_info : list ModuleDep)
  : Writer (list OutputFile * list SourceFile) :=
  if negb (SwiftSourceUsed (source_types_used target_)) then
    WriteSources pch_files input_deps order_only_deps module_dep_info
                 ([], [])
  else
    obj_files <- WriteSwiftSources input_deps order_only_deps [] ;;
    ret (obj_files, []).

(** [Run] up to the statement that appends the MSVC pch objects. *)
Definition Run_compile : Writer Compiled :=
  module_dep_info <- lift (GetModuleDepsInformation target_) ;;
  WriteCompilerVars module_dep_info ;;;
  let num_stamp_uses := List.length (sources target_) in
  input_deps <- WriteInputsStampAndGetDep num_stamp_uses ;;
  order_only_deps <- WriteInputDepsStampAndGetDep [] num_stamp_uses ;;
  (* The .gch output files are placed in pch_other_files. This is to
     prevent linking against them. *)
  ' (pch_obj_files, pch_other_files) <-
      WritePCHCommands input_deps order_only_deps ([], []) ;;
  let pch_files :=
    match pch_obj_files with
    | _ :: _ => pch_obj_files
    | [] => pch_other_files
    end in
  ' (obj_files, other_files) <-
      source_block pch_files input_deps order_only_deps module_dep_info ;;
  (* Link all MSVC pch object files. The vector will be empty on GCC
     toolchains. *)
  ret (mkCompiled (obj_files ++ pch_obj_files) other_files input_deps
                  pch_obj_files pch_other_files).

(** [Run] from the duplicate check on. *)
Definition Run_finish (c : Compiled) : Writer unit :=
  ok <- CheckForDuplicateObjectFiles (obj_files c) ;;
  if negb ok then ret tt
  else
    match output_type target_ with
    | SOURCE_SET => WriteSourceSetStamp (obj_files c)
    | _ => WriteLinkerStuff (obj_files c) (other_files c) (input_deps c)
    end.

Definition Run : Writer unit :=
  c <- Run_compile ;;
  Run_finish c.

End Writer.

(** ** Rendering the output

    The bytes of the stream, for given renderings of the escaping function,
    of the path writer and of the rule writers defined in other files. *)
Record Renderer : Type := mkRenderer {
  EscapeString : string -> string;
  WriteFile : OutputFile -> string;
  WriteFiles : list OutputFile -> string;
  WriteCommandFiles : list OutputFile -> string;
  tool_text : ToolName -> string;
  opaque_text : Item -> string
}.

Definition render_item (R : Renderer) (i : Item) : string :=
  match i with
  | Text s => s
  | Endl => nl
  | ToolText t => tool_text R t
  | Escaped s => EscapeString R s
  | File f => WriteFile R f
  | Files fs => WriteFiles R fs
  | CommandFiles fs => WriteCommandFiles R fs
  | other => opaque_text R other
  end.

Definition render (R : Renderer) (items : list Item) : string :=
  fold_right (fun i rest => (render_item R i ++ rest)%string) EmptyString
             items.

(** ** Vocabulary of the properties *)

(** The target exports a module map. *)
Definition exports_modulemap (t : Target) : Prop :=
  Get (source_types_used t) SOURCE_MODULEMAP = true.

(** The toolchain yields zero or more than one output for the module map of
    [t]. *)
Definition bad_modulemap_outputs (E : Externals) (t : Target) : Prop :=
  exists modulemap ok tool_type outs,
    GetModuleMapFromTargetSources t = Some modulemap /\
    GetOutputFilesForSource E t modulemap = (ok, tool_type, outs) /\
    (ok = false \/ List.length outs <> 1).

(** The reading of the error-handling design for module maps: the emitter
    returns normally after reporting an error. *)
Definition modulemap_error_is_reported (E : Externals) (t : Target)
    (s : Scheduler) : Prop :=
  exports_modulemap t -> bad_modulemap_outputs E t ->
  result (Run E t s) = Value tt /\
  reported (sched (Run E t s)) <> reported s.

(** The object file the C-family source block pushes for a source: the
    first output, unless the source has no output or is a module map. *)
Definition source_object (E : Externals) (t : Target) (source : SourceFile)
  : list OutputFile :=
  let '(ok, _, tool_outputs) := GetOutputFilesForSource E t source in
  if ok && negb (IsModuleMapType source) then firstn 1 tool_outputs else [].

(** Two sources of the target yield the same object-file path. *)
Definition two_sources_same_object (E : Externals) (t : Target) : Prop :=
  exists i j s1 s2 o,
    i <> j /\
    nth_error (sources t) i = Some s1 /\ nth_error (sources t) j = Some s2 /\
    source_object E t s1 = [o] /\ source_object E t s2 = [o].

(** The items that open a build edge: a compiler build line, the [build]
    keyword of the link line, the stamp of a source set. *)
Definition is_build_edge (i : Item) : bool :=
  match i with
  | CompilerBuildLine _ _ _ _ _ _ => true
  | Text s => String.eqb s "build"
  | SourceSetStamp _ => true
  | _ => false
  end.

(** [part] occurs in [msg]. *)
Definition mentions (msg part : string) : Prop :=
  exists before after, msg = (before ++ part ++ after)%string.

(** The terminal block of [Run]: the stamp of a source set, or the link
    line. *)
Definition terminal_block (E : Externals) (t : Target) (c : Compiled)
  : Writer unit :=
  match output_type t with
  | SOURCE_SET => WriteSourceSetStamp (obj_files c)
  | _ => WriteLinkerStuff E t (obj_files c) (other_files c) (input_deps c)
  end.

(** The reading of the duplicate-object scenario: an error is reported and
    no build edge is emitted for the target. *)
Definition duplicate_leaves_no_edge (E : Externals) (t : Target)
    (s : Scheduler) : Prop :=
  two_sources_same_object E t ->
  (exists err, In err (reported (sched (Run E t s)))) /\
  forallb (fun i => negb (is_build_edge i)) (written (Run E t s)) = true.

(** The module-dep part of the implicit inputs of a compile edge: the
    [.pcm] of the records that differ from the first output. *)
Definition module_inputs (tool_outputs : list OutputFile)
    (module_dep_info : list ModuleDep) : list OutputFile :=
  match tool_outputs with
  | [] => []
  | first :: _ =>
      filter (fun p => negb (String.eqb first p)) (map pcm module_dep_info)
  end.

(** [edge] is the compile edge the C-family source block writes for
    [source]: the rule is the tool reported for the source, the single
    input is the source, the implicit inputs are the input deps, then some
    of the pch deps, then the module inputs. *)
Definition source_edge (E : Externals) (t : Target)
    (pch_deps input_deps order_only_deps : list OutputFile)
    (module_dep_info : list ModuleDep) (source : SourceFile) (edge : Item)
  : Prop :=
  exists tool_name tool_outputs tool pch_part,
    GetOutputFilesForSource E t source = (true, tool_name, tool_outputs) /\
    tool_name <> kToolNone /\
    GetToolAsC (toolchain t) tool_name = Some tool /\
    incl pch_part pch_deps /\
    (module_dep_info <> [] -> tool_outputs <> []) /\
    edge = CompilerBuildLine
             [source]
             (input_deps ++ pch_part
              ++ module_inputs tool_outputs module_dep_info)
             order_only_deps tool_name tool_outputs None.

(** The four languages of [WritePCHCommands], with the tool, the source
    type and the test on the precompiled header type of their block. *)
Inductive PCHLanguage : Type := LangC | LangCxx | LangObjC | LangObjCxx.

Definition pch_tool_name (l : PCHLanguage) : ToolName :=
  match l with
  | LangC => kCToolCc
  | LangCxx => kCToolCxx
  | LangObjC => kCToolObjC
  | LangObjCxx => kCToolObjCxx
  end.

Definition pch_source_type (l : PCHLanguage) : SourceFileType :=
  match l with
  | LangC => SOURCE_C
  | LangCxx => SOURCE_CPP
  | LangObjC => SOURCE_M
  | LangObjCxx => SOURCE_MM
  end.

Definition pch_accepts (l : PCHLanguage) (t : PrecompiledHeaderType)
  : bool :=
  match l with
  | LangC | LangCxx => negb (is_none t)
  | LangObjC | LangObjCxx => is_gcc t
  end.

(** The dialect of the PCH edge of a block, [PCH_NONE] when the block
    writes no edge: the tool must exist and pass the test of the block, the
    source type must be used and the tool must have PCH outputs. *)
Definition block_dialect (E : Externals) (t : Target) (tool_name : ToolName)
    (accepts : PrecompiledHeaderType -> bool) (source_type : SourceFileType)
  : PrecompiledHeaderType :=
  match GetToolAsC (toolchain t) tool_name with
  | Some tool =>
      if accepts (precompiled_header_type tool)
         && Get (source_types_used t) source_type
         && match GetPCHOutputFiles E t tool_name with
            | [] => false
            | _ :: _ => true
            end
      then precompiled_header_type tool
      else PCH_NONE
  | None => PCH_NONE
  end.

(** The dialect of the PCH edge written for a language, [PCH_NONE] when
    none is written. *)
Definition pch_dialect (E : Externals) (t : Target) (l : PCHLanguage)
  : PrecompiledHeaderType :=
  if has_precompiled_headers (config_values t)
  then block_dialect E t (pch_tool_name l) (pch_accepts l)
                     (pch_source_type l)
  else PCH_NONE.

(** The outputs of the PCH edges of the selected dialect, in the order of
    the four blocks. *)
Definition pch_outputs_of (E : Externals) (t : Target)
    (select : PrecompiledHeaderType -> bool) : list OutputFile :=
  flat_map (fun l => if select (pch_dialect E t l)
                     then GetPCHOutputFiles E t (pch_tool_name l)
                     else [])
           [LangC; LangCxx; LangObjC; LangObjCxx].

(** The compiler build lines whose rule is [tool_name]. *)
Definition has_rule (tool_name : ToolName) (i : Item) : bool :=
  match i with
  | CompilerBuildLine _ _ _ tool_name' _ _ => ToolName_eqb tool_name' tool_name
  | _ => false
  end.

Definition edges_with_rule (tool_name : ToolName) (items : list Item)
  : list Item :=
  filter (has_rule tool_name) items.

(** The PCH edge of a language. *)
Definition pch_edge (E : Externals) (t : Target)
    (input_deps order_only_deps : list OutputFile) (tool_name : ToolName)
  : Item :=
  CompilerBuildLine [precompiled_source (config_values t)]
                    input_deps order_only_deps tool_name
                    (GetPCHOutputFiles E t tool_name) None.

(** The reading of the PCH writer: one edge for every language whose tool
    declares a dialect other than none and whose sources the target has. *)
Definition one_pch_edge_per_dialect (E : Externals) (t : Target)
    (l : PCHLanguage) (input_deps order_only_deps : list OutputFile)
    (s : Scheduler) : Prop :=
  (exists tool,
      GetToolAsC (toolchain t) (pch_tool_name l) = Some tool /\
      precompiled_header_type tool <> PCH_NONE) ->
  Get (source_types_used t) (pch_source_type l) = true ->
  List.length
    (edges_with_rule (pch_tool_name l)
       (written (WritePCHCommands E t input_deps order_only_deps
                                  ([], []) s))) = 1.

(** The linkable deps the link loop skips, saves for the implicit inputs
    and [solibs], or writes directly. *)
Definition is_skipped (cur : Target) : bool :=
  is_rust_library cur || is_rust_proc_macro cur.

Definition is_shared (cur : Target) : bool :=
  negb (is_skipped cur)
  && negb (String.eqb (dependency_output_file cur) (link_output_file cur)).

Definition is_direct (cur : Target) : bool :=
  negb (is_skipped cur)
  && String.eqb (dependency_output_file cur) (link_output_file cur).

(** The [|] section of a build line. *)
Definition implicit_section (implicit_deps : list OutputFile) : list Item :=
  match implicit_deps with
  | [] => []
  | _ :: _ => [Text " |"; Files implicit_deps]
  end.

(** A tail variable written by [WriteLibsList]. *)
Definition libs_list (label : string) (libs : list OutputFile) : list Item :=
  match libs with
  | [] => []
  | _ :: _ => [Text "  "; Text label; Text " ="; CommandFiles libs; Endl]
  end.

(** The start of the link line, up to the object files of the target and
    of its source-set deps. *)
Definition link_line_start (E : Externals) (t : Target) (tool_ : Tool)
    (object_files : list OutputFile) : list Item :=
  [Text "build";
   Files (ApplyListToLinkerAsOutputFile E t tool_ (outputs tool_));
   Text ": "; Text (rule_prefix_ E t);
   ToolText (GetToolTypeForTargetFinalOutput E t);
   Files object_files;
   Files (extra_object_files (GetClassifiedDeps E t))].

(** Items that are explicit inputs written one by one: a separator or a
    file. *)
Definition is_input_item (i : Item) : bool :=
  match i with
  | Text s => String.eqb s " "
  | File _ => true
  | _ => false
  end.

(** The [||] section of the link line. *)
Definition order_only_section (non_linkable_deps : list Target)
  : list Item :=
  match non_linkable_deps with
  | [] => []
  | _ :: _ =>
      Text " ||"
      :: flat_map (fun non_linkable_dep =>
                     [Text " ";
                      File (dependency_output_file non_linkable_dep)])
                  non_linkable_deps
  end.

(** The variables written under the link line before [solibs]. *)
Definition link_tail_vars (E : Externals) (t : Target) (tool_ : Tool)
    (other_files : list SourceFile) : list Item :=
  match output_type t with
  | EXECUTABLE | SHARED_LIBRARY | LOADABLE_MODULE =>
      [Text "  ldflags ="; LinkerFlags (find IsDefType other_files); Endl;
       Text "  libs ="; Libs; Endl;
       Text "  frameworks ="; Frameworks; Endl;
       Text "  swiftmodules =";
       SwiftModules
         (if IsFinal t
          then map module_output_file
                   (swiftmodule_deps (GetClassifiedDeps E t))
               ++ (if builds_swift_module t
                   then [module_output_file t] else [])
          else []);
       Endl]
  | STATIC_LIBRARY => [Text "  arflags ="; ConfigStrings arflags; Endl]
  | _ => []
  end
  ++ [Text "  output_extension = ";
      Text (GetLinkerSubstitution E t tool_ SubstitutionOutputExtension);
      Endl;
      Text "  output_dir = ";
      Text (GetLinkerSubstitution E t tool_ SubstitutionOutputDir);
      Endl].

(** A module-file substitution variable: its name, the two fixed flags,
    and one [-fmodule-file=] argument per record. *)
Definition module_variable (E : Externals) (substitution : Substitution)
    (records : list ModuleDep) : list Item :=
  [Text (ninja_name E substitution); Text " = -Xclang ";
   Escaped "-fmodules-embed-all-files"]
  ++ flat_map (fun r => [Text " "; Escaped "-fmodule-file="; File (pcm r)])
              records
  ++ [Endl].

Definition not_self (r : ModuleDep) : bool := negb (is_self r).

(** The reading of the variable block: both module-file variables are
    written as soon as there are module records and C++ or module-map
    sources. *)
Definition both_module_variables_written (E : Externals) (t : Target)
    (module_dep_info : list ModuleDep) (s : Scheduler) : Prop :=
  module_dep_info <> [] ->
  Get (source_types_used t) SOURCE_CPP
  || Get (source_types_used t) SOURCE_MODULEMAP = true ->
  written (WriteCompilerVars E t module_dep_info s)
  = [CCompilerVars]
    ++ module_variable E CSubstitutionModuleDeps module_dep_info
    ++ module_variable E CSubstitutionModuleDepsNoSelf
                       (filter not_self module_dep_info)
    ++ [SharedVars].


(** The rules of the PCH edges and of the stamp edge. *)
Definition pch_or_stamp_rule (tool_name : ToolName) : bool :=
  match tool_name with
  | kCToolCc | kCToolCxx | kCToolObjC | kCToolObjCxx
  | kGeneralToolStamp => true
  | _ => false
  end.

(** The rule of the edge [Run] writes for a source in the C-family
    block. *)
Definition source_rule (E : Externals) (t : Target) (source : SourceFile)
  : ToolName :=
  snd (fst (GetOutputFilesForSource E t source)).

(** The scheduler after the errors [errs] were reported in order. *)
Definition report_all (errs : list Err) (s : Scheduler) : Scheduler :=
  fold_left (fun s err => FailWithError err s) errs s.

(** A computation is [uniform] when what it returns, what it writes and
    what it reports do not depend on the state of the scheduler it starts
    from. *)
Definition uniform {A} (m : Writer A) : Prop :=
  exists r w errs, forall s, m s = mkOutcome r w (report_all errs s).

(** A computation is [silent] when, moreover, it reports nothing. *)
Definition silent {A} (m : Writer A) : Prop :=
  exists r w, forall s, m s = mkOutcome r w s.

(** ** Example toolchains and targets *)

Module Examples.

Fixpoint has_slash (s : string) : bool :=
  match s with
  | EmptyString => false
  | String c r => Ascii.eqb c "/"%char || has_slash r
  end.

(** The file part of a path: what follows the last slash. *)
Fixpoint file_part (s : string) : string :=
  match s with
  | EmptyString => EmptyString
  | String c r =>
      if has_slash r then file_part r
      else if Ascii.eqb c "/"%char then r else s
  end.

(** The path without its extension: what precedes the last dot. *)
Fixpoint has_dot (s : string) : bool :=
  match s with
  | EmptyString => false
  | String c r => Ascii.eqb c "."%char || has_dot r
  end.

Fixpoint strip_extension (s : string) : string :=
  match s with
  | EmptyString => EmptyString
  | String c r =>
      if has_dot r then String c (strip_extension r)
      else if Ascii.eqb c "."%char then EmptyString else s
  end.

(** Offset of the extension: the position after the last dot. *)
Fixpoint extension_offset (s : string) : option nat :=
  match s with
  | EmptyString => None
  | String c r =>
      match extension_offset r with
      | Some n => Some (S n)
      | None => if Ascii.eqb c "."%char then Some 1 else None
      end
  end.

Definition types_of (srcs : list SourceFile) : TypeSet :=
  fun ty => existsb (fun s => SourceFileType_eqb (GetType s) ty) srcs.

(** A toolchain that strips directories: [a/x.cc] and [b/x.cc] both map to
    [x.o]. *)
Definition outputs_for (t : Target) (src : SourceFile)
  : bool * ToolName * list OutputFile :=
  let stem := strip_extension (file_part (value src)) in
  match GetType src with
  | SOURCE_C => (true, kCToolCc, [(stem ++ ".o")%string])
  | SOURCE_CPP => (true, kCToolCxx, [(stem ++ ".o")%string])
  | SOURCE_M => (true, kCToolObjC, [(stem ++ ".o")%string])
  | SOURCE_MM => (true, kCToolObjCxx, [(stem ++ ".o")%string])
  | SOURCE_MODULEMAP =>
      (true, kOtherTool "cxx_module", [(stem ++ ".pcm")%string])
  | SOURCE_O => (true, kToolNone, [value src])
  | _ => (false, kToolNone, [])
  end.

(** A toolchain whose module tool declares two outputs. *)
Definition outputs_two_pcm (t : Target) (src : SourceFile)
  : bool * ToolName * list OutputFile :=
  match GetType src with
  | SOURCE_MODULEMAP =>
      (true, kOtherTool "cxx_module",
       [(strip_extension (file_part (value src)) ++ ".pcm")%string;
        (strip_extension (file_part (value src)) ++ ".pcm.d")%string])
  | _ => outputs_for t src
  end.

Definition pch_outputs (dialect : PrecompiledHeaderType) (t : Target)
    (tool_name : ToolName) : list OutputFile :=
  match dialect, tool_name with
  | PCH_GCC, kCToolCc => ["pch.h-c.gch"]
  | PCH_GCC, kCToolCxx => ["pch.h-cc.gch"]
  | PCH_GCC, kCToolObjC => ["pch.h-m.gch"]
  | PCH_GCC, kCToolObjCxx => ["pch.h-mm.gch"]
  | PCH_MSVC, kCToolCc => ["pch.c.obj"]
  | PCH_MSVC, kCToolCxx => ["pch.cc.obj"]
  | PCH_MSVC, kCToolObjC => ["pch.m.obj"]
  | PCH_MSVC, kCToolObjCxx => ["pch.mm.obj"]
  | _, _ => []
  end.

Definition gcc_extension (tool_name : ToolName) : string :=
  match tool_name with
  | kCToolCc => ".h-c.gch"
  | kCToolCxx => ".h-cc.gch"
  | kCToolObjC => ".h-m.gch"
  | kCToolObjCxx => ".h-mm.gch"
  | _ => ".gch"
  end.

Definition windows_extension (tool_name : ToolName) (obj_extension : string)
  : string :=
  match tool_name with
  | kCToolCc => (".c" ++ obj_extension)%string
  | kCToolCxx => (".cc" ++ obj_extension)%string
  | kCToolObjC => (".m" ++ obj_extension)%string
  | kCToolObjCxx => (".mm" ++ obj_extension)%string
  | _ => obj_extension
  end.

Definition final_tool_name (t : Target) : ToolName :=
  match output_type t with
  | EXECUTABLE => kOtherTool "link"
  | SHARED_LIBRARY => kOtherTool "solink"
  | LOADABLE_MODULE => kOtherTool "solink_module"
  | STATIC_LIBRARY => kOtherTool "alink"
  | _ => kGeneralToolStamp
  end.

Definition final_tool (t : Target) : option Tool :=
  match output_type t with
  | EXECUTABLE | SHARED_LIBRARY | LOADABLE_MODULE | STATIC_LIBRARY =>
      Some (mkTool (final_tool_name t) ["{{target_output_name}}"] []
                   PCH_NONE)
  | _ => None
  end.

Definition object_type_of (output : OutputFile) : SourceFile :=
  mkSourceFile output
    (match extension_offset output with
     | Some n =>
         if String.eqb (substring n (String.length output - n) output) "o"
         then SOURCE_O else SOURCE_UNKNOWN
     | None => SOURCE_UNKNOWN
     end).

Definition externals
    (outputs_of : Target -> SourceFile -> bool * ToolName * list OutputFile)
    (dialect : PrecompiledHeaderType) (input_deps : list OutputFile)
    (classified : Target -> ClassifiedDeps) : Externals :=
  {| GetOutputFilesForSource := outputs_of;
     GetTargetSubstitution := fun t _ => Some (label t);
     GetPCHOutputFiles := pch_outputs dialect;
     FindExtensionOffset := extension_offset;
     GetWindowsPCHObjectExtension := windows_extension;
     GetGCCPCHOutputExtension := gcc_extension;
     InputsStampDep := fun _ _ => input_deps;
     InputDepsStampDep := fun _ _ _ => [];
     ApplyListToLinkerAsOutputFile :=
       fun t tool _ =>
         match name tool with
         | kOtherTool "swift" => [module_output_file t]
         | _ => [link_output_file t]
         end;
     ApplyListToCompilerAsOutputFile :=
       fun _ src _ =>
         [(strip_extension (file_part (value src)) ++ ".o")%string];
     GetLinkerSubstitution := fun _ _ _ => EmptyString;
     GetToolForTargetFinalOutputAsC := final_tool;
     GetToolTypeForTargetFinalOutput := final_tool_name;
     GetClassifiedDeps := classified;
     OutputFileOfSource := value;
     AsSourceFile := object_type_of;
     ninja_name :=
       fun sub =>
         match sub with
         | CSubstitutionModuleDeps => "module_deps"
         | CSubstitutionModuleDepsNoSelf => "module_deps_no_self"
         | CSubstitutionCFlagsC => "cflags_c"
         | CSubstitutionCFlagsCc => "cflags_cc"
         | CSubstitutionCFlagsObjC => "cflags_objc"
         | CSubstitutionCFlagsObjCc => "cflags_objcc"
         | SubstitutionLabelNoToolchain => "label_no_toolchain"
         | SubstitutionOutputExtension => "output_extension"
         | SubstitutionOutputDir => "output_dir"
         end;
     rule_prefix_ := fun _ => EmptyString |}.

Definition no_deps (t : Target) : ClassifiedDeps :=
  mkClassifiedDeps [] [] [] [] [].

(** A toolchain whose four C-family compilers have the given dialect. *)
Definition toolchain_with (dialect : PrecompiledHeaderType)
    (uses : Substitution -> bool) : Toolchain :=
  {| GetToolAsC :=
       fun tool_name =>
         match tool_name with
         | kCToolCc | kCToolCxx | kCToolObjC | kCToolObjCxx =>
             Some (mkTool tool_name ["{{source_name_part}}.o"] [] dialect)
         | kOtherTool _ =>
             Some (mkTool tool_name ["{{source_name_part}}.o"] [] PCH_NONE)
         | _ => None
         end;
     GetToolForSourceType :=
       fun ty =>
         match ty with
         | SOURCE_SWIFT =>
             Some (mkTool (kOtherTool "swift")
                          ["{{target_out_dir}}/{{module_name}}.swiftmodule"]
                          ["{{source_name_part}}.o"] PCH_NONE)
         | _ => None
         end;
     used := uses |}.

Definition target (name_ : string) (type : OutputType)
    (srcs : list SourceFile) (pch : bool) (tc : Toolchain)
    (deps : list Target) (out : OutputFile) (dep_out : OutputFile) : Target :=
  {| label := name_;
     defined_from := 0;
     output_type := type;
     sources := srcs;
     source_types_used := types_of srcs;
     config_values := mkConfigValues pch "pch.h"
                                     (mkSourceFile "pch.cc" SOURCE_CPP);
     toolchain := tc;
     linked_deps := deps;
     dependency_output_file := dep_out;
     link_output_file := out;
     module_output_file := "Mod.swiftmodule";
     modules := [];
     builds_swift_module := false;
     all_libs := [];
     inherited_libraries := [];
     IsFinal := match type with
                | EXECUTABLE | SHARED_LIBRARY | LOADABLE_MODULE => true
                | _ => false
                end |}.

Definition cc (path : string) : SourceFile := mkSourceFile path SOURCE_CPP.
Definition all_used (_ : Substitution) : bool := true.
Definition none_used (_ : Substitution) : bool := false.
Definition idle : Scheduler := mkScheduler false [].

End Examples.

Module ModuleMaps.
Import Examples.

(** A target with a module map, under a toolchain whose module tool
    declares two outputs. *)
Definition two_pcm : Externals :=
  externals outputs_two_pcm PCH_NONE [] no_deps.

Definition modular : Target :=
  target "//mod:a" STATIC_LIBRARY
         [mkSourceFile "a.modulemap" SOURCE_MODULEMAP; cc "a.cc"]
         false (toolchain_with PCH_NONE all_used) [] "liba.a" "liba.a".

End ModuleMaps.

Module StaticLibraries.
Import Examples.

Definition plain : Externals := externals outputs_for PCH_NONE [] no_deps.

(** Scenario 6: sources [a/x.cc] and [b/x.cc] under a toolchain that
    strips directory prefixes. *)
Definition dup : Target :=
  target "//foo:dup" STATIC_LIBRARY [cc "a/x.cc"; cc "b/x.cc"] false
         (toolchain_with PCH_NONE all_used) [] "libdup.a" "libdup.a".

(** Scenario 1: a static library with two sources. *)
Definition bar : Target :=
  target "//foo:bar" STATIC_LIBRARY [cc "a.cc"; cc "b.cc"] false
         (toolchain_with PCH_NONE all_used) [] "libbar.a" "libbar.a".

End StaticLibraries.

Module Duplicates.
Import Examples StaticLibraries.

(** What [Run] has written and computed for [dup] when it reaches the
    duplicate check. *)
Definition dup_written : list Item :=
  Eval vm_compute in written (Run_compile plain dup idle).

Definition dup_compiled : Compiled :=
  Eval vm_compute in
    match result (Run_compile plain dup idle) with
    | Value c => c
    | Stopped _ => mkCompiled [] [] [] [] []
    end.

End Duplicates.

Module MsvcObjC.
Import Examples.

Definition msvc : Externals := externals outputs_for PCH_MSVC [] no_deps.

(** An Objective-C target with precompiled headers under a toolchain whose
    compilers all declare the MSVC dialect. *)
Definition objc : Target :=
  target "//app:objc" EXECUTABLE
         [mkSourceFile "a.m" SOURCE_M; mkSourceFile "b.c" SOURCE_C] true
         (toolchain_with PCH_MSVC all_used) [] "app" "app".

End MsvcObjC.

Module GccPch.
Import Examples.

Definition gcc : Externals := externals outputs_for PCH_GCC [] no_deps.

(** Scenario 3: a C++ target with a precompiled header under a GCC
    toolchain. *)
Definition app : Target :=
  target "//app:x" EXECUTABLE [cc "a.cc"; cc "b.cc"] true
         (toolchain_with PCH_GCC all_used) [] "x" "x".

Definition app_written : list Item :=
  Eval vm_compute in written (Run_compile gcc app idle).

Definition app_compiled : Compiled :=
  Eval vm_compute in
    match result (Run_compile gcc app idle) with
    | Value c => c
    | Stopped _ => mkCompiled [] [] [] [] []
    end.

End GccPch.

Module ModuleEdges.
Import Examples StaticLibraries ModuleMaps.

(** Scenario 4: the module record of [modular], which has [a.modulemap]
    and [a.cc]; the compile edge of [a.cc]. *)
Definition self_record : ModuleDep :=
  mkModuleDep (mkSourceFile "a.modulemap" SOURCE_MODULEMAP) "//mod:a"
              "a.pcm" true.

Definition cc_edge : Item :=
  CompilerBuildLine [cc "a.cc"] ["a.pcm"] [] kCToolCxx ["a.o"] None.

End ModuleEdges.

Module SharedLibrary.
Import Examples.

(** Scenario 2: an executable that links a shared library whose dependency
    output is a table of contents. *)
Definition lib_s : Target :=
  target "//lib:s" SHARED_LIBRARY [cc "s.cc"] false
         (toolchain_with PCH_NONE all_used) [] "./libs.so" "libs.so.TOC".

Definition shared_deps (t : Target) : ClassifiedDeps :=
  mkClassifiedDeps [] [lib_s] [] [] [].

Definition linking : Externals :=
  externals outputs_for PCH_NONE [] shared_deps.

Definition app : Target :=
  target "//app:x" EXECUTABLE [cc "main.cc"] false
         (toolchain_with PCH_NONE all_used) [lib_s] "x" "x".

End SharedLibrary.

Module PrebuiltObject.
Import Examples StaticLibraries.

(** A static library with a prebuilt object file among its sources. *)
Definition prebuilt : SourceFile := mkSourceFile "pre/built.o" SOURCE_O.

Definition with_object : Target :=
  target "//foo:obj" STATIC_LIBRARY [cc "a.cc"; prebuilt] false
         (toolchain_with PCH_NONE all_used) [] "libobj.a" "libobj.a".

Definition with_object_written : list Item :=
  Eval vm_compute in written (Run_compile plain with_object idle).

Definition with_object_compiled : Compiled :=
  Eval vm_compute in
    match result (Run_compile plain with_object idle) with
    | Value c => c
    | Stopped _ => mkCompiled [] [] [] [] []
    end.

End PrebuiltObject.

Module Rendering.
Import Examples StaticLibraries ModuleMaps.

(** The toolchain of [modular], without the module substitutions. *)
Definition unused : Target :=
  target "//mod:a" STATIC_LIBRARY
         [mkSourceFile "a.modulemap" SOURCE_MODULEMAP; cc "a.cc"]
         false (toolchain_with PCH_NONE none_used) [] "liba.a" "liba.a".

(** Escaping for Ninja commands: a dollar sign is doubled, a space gets a
    dollar sign. *)
Fixpoint escape (s : string) : string :=
  match s with
  | EmptyString => EmptyString
  | String c r =>
      if Ascii.eqb c "$"%char then String "$"%char (String "$"%char (escape r))
      else if Ascii.eqb c " "%char
           then String "$"%char (String " "%char (escape r))
           else String c (escape r)
  end.

Definition space_separated (fs : list string) : string :=
  fold_right (fun f rest => (" " ++ f ++ rest)%string) EmptyString fs.

Definition ninja : Renderer :=
  {| EscapeString := escape;
     WriteFile := escape;
     WriteFiles := fun fs => space_separated (map escape fs);
     WriteCommandFiles := fun fs => space_separated (map escape fs);
     tool_text := fun t => match t with
                           | kToolNone => EmptyString
                           | kCToolCc => "cc"
                           | kCToolCxx => "cxx"
                           | kCToolObjC => "objc"
                           | kCToolObjCxx => "objcxx"
                           | kGeneralToolStamp => "stamp"
                           | kOtherTool n => n
                           end;
     opaque_text := fun _ => EmptyString |}.

End Rendering.

Module Swift.
Import Examples StaticLibraries.

Definition swift (path : string) : SourceFile :=
  mkSourceFile path SOURCE_SWIFT.

(** A target with a Swift source and a C++ source. *)
Definition mixed : Target :=
  target "//app:mixed" EXECUTABLE [swift "a.swift"; cc "b.cc"] false
         (toolchain_with PCH_NONE all_used) [] "mixed" "mixed".

(** Scenario 5: two Swift sources with partial outputs. *)
Definition two_swift : Target :=
  target "//app:swift" EXECUTABLE [swift "a.swift"; swift "b.swift"] false
         (toolchain_with PCH_NONE all_used) [] "app" "app".

Definition two_swift_written : list Item :=
  Eval vm_compute in written (Run_compile plain two_swift idle).

Definition two_swift_compiled : Compiled :=
  Eval vm_compute in
    match result (Run_compile plain two_swift idle) with
    | Value c => c
    | Stopped _ => mkCompiled [] [] [] [] []
    end.

End Swift.

(** ** Further vocabulary *)

(** The target has a module-map source, as [GetModuleDepsInformation] tests
    it. *)
Definition uses_modulemap (t : Target) : bool :=
  Get (source_types_used t) SOURCE_MODULEMAP.

(** [r] is the module record of the target [d]: its first module-map
    source, its label, and the single output reported for that source. *)
Definition record_of (E : Externals) (d : Target) (self : bool)
    (r : ModuleDep) : Prop :=
  is_self r = self /\
  GetModuleMapFromTargetSources d = Some (modulemap r) /\
  GetTargetSubstitution E d SubstitutionLabelNoToolchain
  = Some (module_name r) /\
  exists tool_type,
    GetOutputFilesForSource E d (modulemap r) = (true, tool_type, [pcm r]).

(** A def file for which the target reports no output. *)
Definition def_without_output (E : Externals) (t : Target)
    (source : SourceFile) : bool :=
  let '(ok, _, _) := GetOutputFilesForSource E t source in
  negb ok && IsDefType source.

(** The target reports outputs and a compile tool for the source. *)
Definition has_compile_tool (E : Externals) (t : Target)
    (source : SourceFile) : bool :=
  let '(ok, tool_name, _) := GetOutputFilesForSource E t source in
  ok && negb (ToolName_eqb tool_name kToolNone).

(** The outputs reported for a source. *)
Definition source_outputs (E : Externals) (t : Target) (source : SourceFile)
  : list OutputFile :=
  snd (GetOutputFilesForSource E t source).

(** Sources, rule and outputs of a build line. *)
Definition edge_summary (i : Item)
  : list (list SourceFile * ToolName * list OutputFile) :=
  match i with
  | CompilerBuildLine srcs _ _ tool_name outs _ => [(srcs, tool_name, outs)]
  | _ => []
  end.

(** The test of the loop over [pch_deps]: [Value true] when the dep is
    kept, [Fatal] when a string operation is out of range. *)
Definition pch_dep_matches (E : Externals) (tool : Tool)
    (tool_name : ToolName) (dep : OutputFile) : Result bool :=
  match FindExtensionOffset E dep with
  | None => Value false
  | Some extension_offset =>
      rbind
        (match precompiled_header_type tool with
         | PCH_MSVC =>
             rbind (substr_before dep extension_offset)
                   (fun s => Value (GetWindowsPCHObjectExtension E tool_name s))
         | PCH_GCC => Value (GetGCCPCHOutputExtension E tool_name)
         | PCH_NONE => Value EmptyString
         end)
        (fun output_extension => compare_tail dep output_extension)
  end.

Definition pch_dep_kept (E : Externals) (tool : Tool) (tool_name : ToolName)
    (dep : OutputFile) : bool :=
  match pch_dep_matches E tool tool_name dep with
  | Value true => true
  | _ => false
  end.

(** The pch deps of the compile edges of a tool. *)
Definition pch_inputs (E : Externals) (tool : Tool) (tool_name : ToolName)
    (pch_deps : list OutputFile) : list OutputFile :=
  if is_none (precompiled_header_type tool) then []
  else filter (pch_dep_kept E tool tool_name) pch_deps.

(** [edge] is the compile edge of [source], with its pch deps spelled
    out. *)
Definition exact_source_edge (E : Externals) (t : Target)
    (pch_deps input_deps order_only_deps : list OutputFile)
    (module_dep_info : list ModuleDep) (source : SourceFile) (edge : Item)
  : Prop :=
  exists tool_name tool_outputs tool,
    GetOutputFilesForSource E t source = (true, tool_name, tool_outputs) /\
    tool_name <> kToolNone /\
    GetToolAsC (toolchain t) tool_name = Some tool /\
    edge = CompilerBuildLine
             [source]
             (input_deps ++ pch_inputs E tool tool_name pch_deps
              ++ module_inputs tool_outputs module_dep_info)
             order_only_deps tool_name tool_outputs None.

(** [s] ends with [suffix]. *)
Definition ends_with (s suffix : string) : Prop :=
  exists before, s = (before ++ suffix)%string.

(** The externals with the Rust libraries and proc-macros taken out of
    the linkable deps. *)
Definition without_rust_linkable (E : Externals) : Externals :=
  {| GetOutputFilesForSource := GetOutputFilesForSource E;
     GetTargetSubstitution := GetTargetSubstitution E;
     GetPCHOutputFiles := GetPCHOutputFiles E;
     FindExtensionOffset := FindExtensionOffset E;
     GetWindowsPCHObjectExtension := GetWindowsPCHObjectExtension E;
     GetGCCPCHOutputExtension := GetGCCPCHOutputExtension E;
     InputsStampDep := InputsStampDep E;
     InputDepsStampDep := InputDepsStampDep E;
     ApplyListToLinkerAsOutputFile := ApplyListToLinkerAsOutputFile E;
     ApplyListToCompilerAsOutputFile := ApplyListToCompilerAsOutputFile E;
     GetLinkerSubstitution := GetLinkerSubstitution E;
     GetToolForTargetFinalOutputAsC := GetToolForTargetFinalOutputAsC E;
     GetToolTypeForTargetFinalOutput := GetToolTypeForTargetFinalOutput E;
     GetClassifiedDeps :=
       fun t =>
         let c := GetClassifiedDeps E t in
         mkClassifiedDeps (extra_object_files c)
                          (filter (fun d => negb (is_skipped d))
                                  (linkable_deps c))
                          (non_linkable_deps c) (framework_deps c)
                          (swiftmodule_deps c);
     OutputFileOfSource := OutputFileOfSource E;
     AsSourceFile := AsSourceFile E;
     ninja_name := ninja_name E;
     rule_prefix_ := rule_prefix_ E |}.

(** The [rlibs] of the link line. *)
Definition link_rlibs (t : Target) : list OutputFile :=
  if IsFinal t then rust_libraries (inherited_libraries t) else [].

(** ** Source file types ([tools/gn/source_file_type.cc]) *)

Module SourceFileTypes.

(** [GetSourceFileType], on the extension [FindExtension] finds. *)
Definition GetSourceFileType (FindExtension : string -> string)
    (file : string) : SourceFileType :=
  let extension := FindExtension file in
  if String.eqb extension "cc" || String.eqb extension "cpp"
     || String.eqb extension "cxx" then SOURCE_CPP
  else if String.eqb extension "h" || String.eqb extension "hpp"
          || String.eqb extension "hxx" || String.eqb extension "hh"
  then SOURCE_H
  else if String.eqb extension "c" then SOURCE_C
  else if String.eqb extension "m" then SOURCE_M
  else if String.eqb extension "mm" then SOURCE_MM
  else if String.eqb extension "rc" then SOURCE_RC
  else if String.eqb extension "S" || String.eqb extension "s"
          || String.eqb extension "asm" then SOURCE_S
  else if String.eqb extension "o" || String.eqb extension "obj"
  then SOURCE_O
  else if String.eqb extension "def" then SOURCE_DEF
  else if String.eqb extension "rs" then SOURCE_RS
  else if String.eqb extension "go" then SOURCE_GO
  else SOURCE_UNKNOWN.

(** [SourceFileTypeSet]: the flag [empty_] and the array [flags_]. *)
Record SourceFileTypeSet : Type := mkSourceFileTypeSet {
  empty_ : bool;
  flags_ : SourceFileType -> bool
}.

(** The constructor: [empty_(true)] and all flags cleared. *)
Definition new : SourceFileTypeSet :=
  mkSourceFileTypeSet true (fun _ => false).

Definition Get (s : SourceFileTypeSet) (type : SourceFileType) : bool :=
  flags_ s type.

Definition CSourceUsed (s : SourceFileTypeSet) : bool :=
  empty_ s || Get s SOURCE_CPP || Get s SOURCE_H || Get s SOURCE_C
  || Get s SOURCE_M || Get s SOURCE_MM || Get s SOURCE_RC || Get s SOURCE_S
  || Get s SOURCE_O || Get s SOURCE_DEF.

Definition RustSourceUsed (s : SourceFileTypeSet) : bool :=
  Get s SOURCE_RS.

Definition GoSourceUsed (s : SourceFileTypeSet) : bool :=
  Get s SOURCE_GO.

(** A [bool] promoted to [int]. *)
Definition to_int (b : bool) : Z :=
  if b then 1%Z else 0%Z.

(** [(1 << CSourceUsed() << RustSourceUsed() << GoSourceUsed()) > 2]. *)
Definition MixedSourceUsed (s : SourceFileTypeSet) : bool :=
  Z.gtb
    (Z.shiftl (Z.shiftl (Z.shiftl 1 (to_int (CSourceUsed s)))
                        (to_int (RustSourceUsed s)))
              (to_int (GoSourceUsed s)))
    2.

End SourceFileTypes.

Module PchFilter.
Import Examples.

(** A C++ compile of [GccPch.app] offered a C++ and a C [.gch]. *)
Definition offered : list OutputFile :=
  ["pch.h-cc.gch"; "pch.h-c.gch"; "noextension"]%string.

Definition cxx_tool (dialect : PrecompiledHeaderType) : Tool :=
  mkTool kCToolCxx ["{{source_name_part}}.o"%string] [] dialect.

Definition gcc_edge : Item :=
  CompilerBuildLine [cc "a.cc"] ["pch.h-cc.gch"%string] [] kCToolCxx
                    ["a.o"%string] None.

(** The same target under a toolchain without precompiled headers, and
    under an MSVC toolchain. *)
Definition app_none : Target :=
  target "//app:x" EXECUTABLE [cc "a.cc"; cc "b.cc"] true
         (toolchain_with PCH_NONE all_used) [] "x" "x".

Definition plain_edge : Item :=
  CompilerBuildLine [cc "a.cc"] [] [] kCToolCxx ["a.o"%string] None.

Definition app_msvc : Target :=
  target "//app:x" EXECUTABLE [cc "a.cc"; cc "b.cc"] true
         (toolchain_with PCH_MSVC all_used) [] "x" "x".

Definition offered_msvc : list OutputFile :=
  ["pch.cc.obj"; "pch.c.obj"]%string.

Definition msvc_edge : Item :=
  CompilerBuildLine [cc "a.cc"] ["pch.cc.obj"%string] [] kCToolCxx
                    ["a.o"%string] None.

End PchFilter.

Module DefFiles.
Import Examples.

(** A shared library with two def files and a source. *)
Definition def (path : string) : SourceFile := mkSourceFile path SOURCE_DEF.

Definition with_defs : Target :=
  target "//lib:d" SHARED_LIBRARY [def "one.def"; cc "a.cc"; def "two.def"]
         false (toolchain_with PCH_NONE all_used) [] "libd.so" "libd.so".

Definition with_defs_written : list Item :=
  Eval vm_compute in written (Run_compile StaticLibraries.plain with_defs
                                          idle).

Definition with_defs_compiled : Compiled :=
  Eval vm_compute in
    match result (Run_compile StaticLibraries.plain with_defs idle) with
    | Value c => c
    | Stopped _ => mkCompiled [] [] [] [] []
    end.

End DefFiles.

(** ** Object files of the source block *)

(** The outputs of the Swift block besides the [.swiftmodule]: those of the
    Swift tool without the [.swiftmodule], then the partial outputs of the
    Swift sources when the tool has partial outputs. *)
Definition swift_additional_outputs (E : Externals) (t : Target)
    (tool : Tool) : list OutputFile :=
  filter (fun output => negb (String.eqb output (module_output_file t)))
         (ApplyListToLinkerAsOutputFile E t tool (outputs tool))
  ++ match partial_outputs tool with
     | [] => []
     | _ :: _ =>
         flat_map
           (fun source =>
              if IsSwiftType source
              then ApplyListToCompilerAsOutputFile E t source
                                                   (partial_outputs tool)
              else [])
           (sources t)
     end.


(** The def file of the link edge, as the sources determine it. *)
Definition link_def_file (E : Externals) (t : Target) : option SourceFile :=
  if SwiftSourceUsed (source_types_used t) then None
  else find (def_without_output E t) (sources t).

(** The implicit inputs of the link edge that follow the def file. *)
Definition implicit_after_def (E : Externals) (t : Target)
    (input_deps : list OutputFile) : list OutputFile :=
  lib_source_files E (all_libs t)
  ++ map dependency_output_file (framework_deps (GetClassifiedDeps E t))
  ++ input_deps
  ++ link_rlibs t
  ++ (if IsFinal t
      then map module_output_file (swiftmodule_deps (GetClassifiedDeps E t))
           ++ (if builds_swift_module t then [module_output_file t] else [])
      else []).

(** ** Where a run stops *)

Definition stop_of {A} (r : Result A) : option Stop :=
  match r with
  | Value _ => None
  | Stopped why => Some why
  end.

Definition is_empty {A} (l : list A) : bool :=
  match l with
  | [] => true
  | _ :: _ => false
  end.

(** A pch dep on which a string operation of the loop over [pch_deps]
    throws: it has an extension and, with the MSVC dialect, the extension
    is at offset 0 or past the end, or, with either dialect, the path is
    shorter than the extension it is compared with. *)
Definition pch_dep_crashes (E : Externals) (tool : Tool)
    (tool_name : ToolName) (dep : OutputFile) : bool :=
  match FindExtensionOffset E dep with
  | None => false
  | Some extension_offset =>
      match precompiled_header_type tool with
      | PCH_MSVC =>
          match extension_offset with
          | 0 => true
          | S pos =>
              Nat.ltb (String.length dep) pos
              || Nat.ltb (String.length dep)
                         (String.length
                            (GetWindowsPCHObjectExtension
                               E tool_name
                               (substring pos (String.length dep - pos)
                                          dep)))
          end
      | PCH_GCC =>
          Nat.ltb (String.length dep)
                  (String.length (GetGCCPCHOutputExtension E tool_name))
      | PCH_NONE => false
      end
  end.

(** Where the loop of [WriteSources] stops on a source, if it does.  The
    target reports outputs for it and, in the order of the statements:
    the named tool is missing, or it has a pch dialect and a pch dep is out
    of range (terminated); there are module records, or the source is no
    module map, and the first output of an empty list is read (undefined
    behaviour). *)
Definition source_stop (E : Externals) (t : Target)
    (pch_deps : list OutputFile) (module_dep_info : list ModuleDep)
    (source : SourceFile) : option Stop :=
  let '(ok, tool_name, tool_outputs) := GetOutputFilesForSource E t source in
  let first_read :=
    if negb (IsModuleMapType source) && is_empty tool_outputs
    then Some UndefinedBehaviour else None in
  if negb ok then None
  else if ToolName_eqb tool_name kToolNone then first_read
  else
    match GetToolAsC (toolchain t) tool_name with
    | None => Some Terminated
    | Some tool =>
        if negb (is_none (precompiled_header_type tool))
           && existsb (pch_dep_crashes E tool tool_name) pch_deps
        then Some Terminated
        else if negb (is_empty module_dep_info) && is_empty tool_outputs
        then Some UndefinedBehaviour
        else first_read
    end.

(** The first stop met along a list. *)
Fixpoint first_stop {A} (stop : A -> option Stop) (l : list A)
  : option Stop :=
  match l with
  | [] => None
  | x :: rest =>
      match stop x with
      | Some why => Some why
      | None => first_stop stop rest
      end
  end.

(** One of the [CHECK]s of the lambda [add] fails on [d]: no module-map
    source, no label, no outputs for the module map, or a number of
    outputs other than one. *)
Definition record_fails (E : Externals) (d : Target) : bool :=
  match GetModuleMapFromTargetSources d with
  | None => true
  | Some modulemap =>
      match GetTargetSubstitution E d SubstitutionLabelNoToolchain with
      | None => true
      | Some _ =>
          let '(ok, _, modulemap_outputs) :=
            GetOutputFilesForSource E d modulemap in
          negb ok || negb (Nat.eqb (List.length modulemap_outputs) 1)
      end
  end.

(** A [CHECK] fails on the target or on one of its linked deps, among
    those that have a module map. *)
Definition module_records_fail (E : Externals) (t : Target) : bool :=
  (uses_modulemap t && record_fails E t)
  || existsb (fun d => uses_modulemap d && record_fails E d) (linked_deps t).

(** The pch files [Run] offers to the source block: the outputs of the
    MSVC-dialect PCH edges if there are any, otherwise those of the
    GCC-dialect PCH edges. *)
Definition pch_files_of (E : Externals) (t : Target) : list OutputFile :=
  match pch_outputs_of E t is_msvc with
  | _ :: _ => pch_outputs_of E t is_msvc
  | [] => pch_outputs_of E t is_gcc
  end.

(** Where [Run] stops before it reaches the duplicate check, if it does. *)
Definition compile_stop (E : Externals) (t : Target) : option Stop :=
  match GetModuleDepsInformation E t with
  | Stopped why => Some why
  | Value module_dep_info =>
      if SwiftSourceUsed (source_types_used t) then
        match GetToolForSourceType (toolchain t) SOURCE_SWIFT with
        | None => Some Terminated
        | Some _ => None
        end
      else
        first_stop (source_stop E t (pch_files_of E t) module_dep_info)
                   (sources t)
  end.

Module Stops.
Import Examples.

(** [GccPch.app] offered a pch file shorter than the GCC pch extension. *)
Definition short_pch : list OutputFile := ["a.gch"%string].

(** A toolchain that reports outputs for every source, but no output file
    for [empty.cc]. *)
Definition outputs_but_empty (t : Target) (source : SourceFile)
  : bool * ToolName * list OutputFile :=
  if String.eqb (value source) "empty.cc" then (true, kCToolCxx, [])
  else outputs_for t source.

Definition hollow : Externals :=
  externals outputs_but_empty PCH_NONE [] no_deps.

Definition with_empty : Target :=
  target "//foo:hollow" STATIC_LIBRARY [cc "a.cc"; cc "empty.cc"] false
         (toolchain_with PCH_NONE all_used) [] "libh.a" "libh.a".

End Stops.

Module RustLibraries.
Import Examples.

(** An executable that inherits a Rust library and a static library. *)
Definition rlib : Target :=
  target "//rust:r" RUST_LIBRARY [] false
         (toolchain_with PCH_NONE all_used) [] "libr.rlib" "libr.rlib".

Definition app : Target :=
  {| label := "//app:rusty";
     defined_from := 0;
     output_type := EXECUTABLE;
     sources := [cc "main.cc"];
     source_types_used := types_of [cc "main.cc"];
     config_values := mkConfigValues false "pch.h"
                                     (mkSourceFile "pch.cc" SOURCE_CPP);
     toolchain := toolchain_with PCH_NONE all_used;
     linked_deps := [rlib];
     dependency_output_file := "rusty";
     link_output_file := "rusty";
     module_output_file := "Mod.swiftmodule";
     modules := [];
     builds_swift_module := false;
     all_libs := [];
     inherited_libraries := [rlib; StaticLibraries.bar];
     IsFinal := true |}.

End RustLibraries.

Module SwiftOutputs.
Import Examples.

(** A toolchain whose Swift tool yields, besides the [.swiftmodule], an
    object file and a generated header. *)
Definition whole_module : Externals :=
  let E := StaticLibraries.plain in
  {| GetOutputFilesForSource := GetOutputFilesForSource E;
     GetTargetSubstitution := GetTargetSubstitution E;
     GetPCHOutputFiles := GetPCHOutputFiles E;
     FindExtensionOffset := FindExtensionOffset E;
     GetWindowsPCHObjectExtension := GetWindowsPCHObjectExtension E;
     GetGCCPCHOutputExtension := GetGCCPCHOutputExtension E;
     InputsStampDep := InputsStampDep E;
     InputDepsStampDep := InputDepsStampDep E;
     ApplyListToLinkerAsOutputFile :=
       fun t tool _ =>
         match name tool with
         | kOtherTool "swift" =>
             [module_output_file t; "Mod.o"; "Mod-Swift.h"]%string
         | _ => [link_output_file t]
         end;
     ApplyListToCompilerAsOutputFile := ApplyListToCompilerAsOutputFile E;
     GetLinkerSubstitution := GetLinkerSubstitution E;
     GetToolForTargetFinalOutputAsC := GetToolForTargetFinalOutputAsC E;
     GetToolTypeForTargetFinalOutput := GetToolTypeForTargetFinalOutput E;
     GetClassifiedDeps := GetClassifiedDeps E;
     OutputFileOfSource := OutputFileOfSource E;
     AsSourceFile := AsSourceFile E;
     ninja_name := ninja_name E;
     rule_prefix_ := rule_prefix_ E |}.

End SwiftOutputs.

(** * Properties *)

(** ** Tool names *)

Lemma ToolName_eqb_eq (a b : ToolName) : ToolName_eqb a b = true <-> a = b.
Proof.
  destruct a, b; simpl; split; intro H; try discriminate; try reflexivity.
  - apply String.eqb_eq in H. now subst.
  - inversion H. apply String.eqb_refl.
Qed.

Lemma ToolName_eqb_refl (a : ToolName) : ToolName_eqb a a = true.
Proof. now apply ToolName_eqb_eq. Qed.

(** ** The writer monad *)

Lemma bind_value {A B} (m : Writer A) (f : A -> Writer B) s a w s1 :
  m s = mkOutcome (Value a) w s1 ->
  bind m f s = mkOutcome (result (f a s1)) (w ++ written (f a s1))
                         (sched (f a s1)).
Proof. intro H. unfold bind. now rewrite H. Qed.

Lemma bind_fatal {A B} (m : Writer A) (f : A -> Writer B) s why w s1 :
  m s = mkOutcome (Stopped why) w s1 ->
  bind m f s = mkOutcome (Stopped why) w s1.
Proof. intro H. unfold bind. now rewrite H. Qed.

Lemma outcome_eta {A} (o : Outcome A) :
  o = mkOutcome (result o) (written o) (sched o).
Proof. now destruct o. Qed.

Lemma silent_uniform {A} (m : Writer A) : silent m -> uniform m.
Proof. intros (r & w & H). now exists r, w, []. Qed.

Lemma silent_ret {A} (a : A) : silent (ret a).
Proof. now exists (Value a), []. Qed.

Lemma silent_emit items : silent (emit items).
Proof. now exists (Value tt), items. Qed.

Lemma silent_fatal {A} : silent (@fatal A).
Proof. now exists Fatal, []. Qed.

Lemma silent_undefined {A} : silent (@undefined A).
Proof. now exists Undefined, []. Qed.

Lemma silent_lift {A} (r : Result A) : silent (lift r).
Proof. now exists r, []. Qed.

Lemma silent_bind {A B} (m : Writer A) (f : A -> Writer B) :
  silent m -> (forall a, silent (f a)) -> silent (bind m f).
Proof.
  intros (r & w & Hm) Hf. destruct r as [a|why].
  - destruct (Hf a) as (r' & w' & Hfa).
    exists r', (w ++ w'). intro s.
    rewrite (bind_value _ _ _ _ _ _ (Hm s)). now rewrite Hfa.
  - exists (Stopped why), w. intro s. now apply bind_fatal.
Qed.

Lemma silent_for_each {A S} (body : S -> A -> Writer S) l :
  (forall st x, silent (body st x)) -> forall st, silent (for_each body l st).
Proof.
  intro Hb. induction l as [|x l IH]; intro st; simpl.
  - apply silent_ret.
  - apply silent_bind; [apply Hb | exact IH].
Qed.

Lemma uniform_bind {A B} (m : Writer A) (f : A -> Writer B) :
  uniform m -> (forall a, uniform (f a)) -> uniform (bind m f).
Proof.
  intros (r & w & errs & Hm) Hf. destruct r as [a|why].
  - destruct (Hf a) as (r' & w' & errs' & Hfa).
    exists r', (w ++ w'), (errs ++ errs'). intro s.
    rewrite (bind_value _ _ _ _ _ _ (Hm s)). rewrite Hfa. simpl.
    unfold report_all. now rewrite fold_left_app.
  - exists (Stopped why), w, errs. intro s. now apply bind_fatal.
Qed.

Lemma uniform_fail_with_error err : uniform (fail_with_error err).
Proof. now exists (Value tt), [], [err]. Qed.

(** Breaks a goal [silent m] down along the structure of [m]. *)
Ltac silent_step :=
  match goal with
  | |- silent (ret _) => apply silent_ret
  | |- silent (emit _) => apply silent_emit
  | |- silent fatal => apply silent_fatal
  | |- silent undefined => apply silent_undefined
  | |- silent (lift _) => apply silent_lift
  | |- silent (bind _ _) => apply silent_bind; [|intro]
  | |- silent (for_each _ _ _) => apply silent_for_each; intros
  | |- silent (match ?x with _ => _ end) => destruct x
  end.

Ltac silent_tac := repeat silent_step.

Section WriterProperties.

Variable E : Externals.
Variable target_ : Target.

Lemma silent_WriteCompilerVars mdi : silent (WriteCompilerVars E target_ mdi).
Proof.
  unfold WriteCompilerVars, WriteModuleDepsSubstitution. silent_tac.
Qed.

Lemma silent_WritePCHCommands id ood files :
  silent (WritePCHCommands E target_ id ood files).
Proof.
  unfold WritePCHCommands, pch_block, WritePCHCommand,
    WriteWindowsPCHCommand, WriteGCCPCHCommand.
  silent_tac.
Qed.

Lemma silent_WriteSources pch id ood mdi files :
  silent (WriteSources E target_ pch id ood mdi files).
Proof.
  unfold WriteSources. silent_tac.
  unfold WriteSources_source. silent_tac.
Qed.

Lemma silent_WriteSwiftSources id ood objs :
  silent (WriteSwiftSources E target_ id ood objs).
Proof. unfold WriteSwiftSources. silent_tac. Qed.

Lemma silent_WriteLinkerStuff objs others id :
  silent (WriteLinkerStuff E target_ objs others id).
Proof.
  unfold WriteLinkerStuff, WriteOrderOnlyDependencies,
    WriteOutputSubstitutions, WriteLibsList.
  silent_tac.
Qed.

Lemma silent_Run_compile : silent (Run_compile E target_).
Proof.
  unfold Run_compile, source_block, WriteInputsStampAndGetDep,
    WriteInputDepsStampAndGetDep.
  silent_tac;
    auto using silent_WriteCompilerVars, silent_WritePCHCommands,
      silent_WriteSources, silent_WriteSwiftSources.
Qed.

Lemma uniform_check_files files :
  forall set, uniform (check_files target_ set files).
Proof.
  induction files as [|file rest IH]; intro set; simpl.
  - apply silent_uniform, silent_ret.
  - destruct (existsb (String.eqb file) set).
    + apply uniform_bind; [apply uniform_fail_with_error|].
      intro. apply silent_uniform, silent_ret.
    + apply IH.
Qed.

Lemma uniform_Run_finish c : uniform (Run_finish E target_ c).
Proof.
  unfold Run_finish. apply uniform_bind.
  - apply uniform_check_files.
  - intros [|]; simpl.
    + destruct (output_type target_);
        try (apply silent_uniform, silent_WriteLinkerStuff).
      apply silent_uniform, silent_emit.
    + apply silent_uniform, silent_ret.
Qed.

Lemma uniform_Run : uniform (Run E target_).
Proof.
  unfold Run. apply uniform_bind.
  - apply silent_uniform, silent_Run_compile.
  - apply uniform_Run_finish.
Qed.

End WriterProperties.

(** ** Module dependency records *)

Section ModuleDeps.

Variable E : Externals.

Lemma add_bad_outputs ret_ d is_self_ :
  bad_modulemap_outputs E d -> add E ret_ d is_self_ = Fatal.
Proof.
  intros (m & ok & tt_ & outs & Hm & Ho & Hbad).
  unfold add. rewrite Hm.
  destruct (GetTargetSubstitution E d SubstitutionLabelNoToolchain);
    [|reflexivity].
  rewrite Ho. destruct ok; [|reflexivity].
  destruct Hbad as [Hbad|Hbad]; [discriminate|].
  destruct outs as [|o [|o' outs]]; simpl in Hbad; try reflexivity.
  now contradiction Hbad.
Qed.

Lemma add_stopped ret_ d is_self_ why :
  add E ret_ d is_self_ = Stopped why -> why = Terminated.
Proof.
  unfold add.
  destruct (GetModuleMapFromTargetSources d) as [m|]; [|congruence].
  destruct (GetTargetSubstitution E d SubstitutionLabelNoToolchain);
    [|congruence].
  destruct (GetOutputFilesForSource E d m) as [[ok tool_type] outs].
  destruct ok; [|congruence].
  destruct outs as [|o [|o' outs]]; congruence.
Qed.

Lemma add_linked_bad_outputs d deps :
  In d deps -> exports_modulemap d -> bad_modulemap_outputs E d ->
  forall ret_, add_linked E ret_ deps = Fatal.
Proof.
  intros Hin Hexp Hbad.
  induction deps as [|dep rest IH]; [contradiction|].
  intro ret_. simpl. destruct Hin as [->|Hin].
  - unfold exports_modulemap in Hexp. rewrite Hexp.
    now rewrite add_bad_outputs.
  - destruct (Get (source_types_used dep) SOURCE_MODULEMAP); [|now apply IH].
    destruct (add E ret_ dep false) as [ret'|why] eqn:Hadd;
      [now apply IH|].
    now rewrite (add_stopped _ _ _ _ Hadd).
Qed.

Lemma GetModuleDepsInformation_bad_outputs t d :
  d = t \/ In d (linked_deps t) ->
  exports_modulemap d -> bad_modulemap_outputs E d ->
  GetModuleDepsInformation E t = Fatal.
Proof.
  intros [->|Hin] Hexp Hbad; unfold GetModuleDepsInformation.
  - unfold exports_modulemap in Hexp. rewrite Hexp.
    now rewrite add_bad_outputs.
  - destruct (Get (source_types_used t) SOURCE_MODULEMAP).
    + destruct (add E [] t true) as [ret_|why] eqn:Hadd.
      * now apply add_linked_bad_outputs with (d := d).
      * now rewrite (add_stopped _ _ _ _ Hadd).
    + now apply add_linked_bad_outputs with (d := d).
Qed.

End ModuleDeps.

(** ** Lists and strings *)

Lemma append_assoc (a b c : string) :
  ((a ++ b) ++ c = a ++ (b ++ c))%string.
Proof. induction a as [|ch a IH]; simpl; [reflexivity | now rewrite IH]. Qed.

Lemma existsb_eqb_In (x : string) (l : list string) :
  existsb (String.eqb x) l = true <-> In x l.
Proof.
  rewrite existsb_exists. split.
  - intros (y & Hy & Heq). apply String.eqb_eq in Heq. now subst.
  - intro H. exists x. split; [assumption | apply String.eqb_refl].
Qed.

Lemma twice_not_NoDup {A} (a b c : list A) (o : A) :
  ~ NoDup (a ++ o :: b ++ o :: c).
Proof.
  intro H. apply NoDup_remove_2 in H. apply H.
  apply in_or_app. right. apply in_or_app. right. now left.
Qed.

Lemma nth_error_two_split {A} (l : list A) i j x y :
  i < j -> nth_error l i = Some x -> nth_error l j = Some y ->
  exists a b c, l = a ++ x :: b ++ y :: c.
Proof.
  intros Hij Hi Hj.
  destruct (nth_error_split l i Hi) as (a & rest & -> & Hlen).
  rewrite nth_error_app2 in Hj by lia.
  destruct (j - List.length a) as [|k] eqn:Hk; [lia|].
  simpl in Hj.
  destruct (nth_error_split rest k Hj) as (b & c & -> & _).
  now exists a, b, c.
Qed.

(** ** Inversion of the monad *)

Lemma bind_value_inv {A B} (m : Writer A) (f : A -> Writer B) s b w s' :
  bind m f s = mkOutcome (Value b) w s' ->
  exists a w1 s1 w2,
    m s = mkOutcome (Value a) w1 s1 /\
    f a s1 = mkOutcome (Value b) w2 s' /\
    w = w1 ++ w2.
Proof.
  unfold bind. intro H.
  destruct (m s) as [[a|] w1 s1] eqn:Hm; simpl in H; [|discriminate].
  destruct (f a s1) as [r2 w2 s2] eqn:Hf; simpl in H.
  inversion H; subst. now exists a, w1, s1, w2.
Qed.

Lemma ret_inv {A} (a b : A) s w s' :
  ret a s = mkOutcome (Value b) w s' -> a = b /\ w = [] /\ s' = s.
Proof. unfold ret. intro H. inversion H. auto. Qed.

(** ** The duplicate-object check *)

Section DuplicateCheck.

Variable target_ : Target.

(** The check succeeds on a duplicate-free list, and otherwise stops at the
    first path that was met before. *)
Lemma check_files_spec files :
  forall set s,
    (NoDup files /\ (forall x, In x files -> ~ In x set) /\
     check_files target_ set files s = mkOutcome (Value true) [] s)
    \/
    (exists before file after,
        files = before ++ file :: after /\
        NoDup before /\ (forall x, In x before -> ~ In x set) /\
        (In file before \/ In file set) /\
        check_files target_ set files s
        = mkOutcome (Value false) []
                    (FailWithError (duplicate_object_error target_ file) s)).
Proof.
  induction files as [|file rest IH]; intros set s.
  - left. repeat split; [constructor | intros x []].
  - simpl. destruct (existsb (String.eqb file) set) eqn:Hex.
    + right. exists [], file, rest. repeat split.
      * constructor.
      * intros x [].
      * right. now apply existsb_eqb_In.
    + assert (Hnin : ~ In file set).
      { intro Hin. apply existsb_eqb_In in Hin. congruence. }
      destruct (IH (file :: set) s)
        as [(Hnd & Hdisj & Heq) | (before & f & after & -> & Hnd & Hdisj
                                   & Hin & Heq)].
      * left. repeat split.
        -- constructor; [|assumption].
           intro Hin. apply (Hdisj file Hin). now left.
        -- intros x [<-|Hx]; [assumption|].
           intro Hset. apply (Hdisj x Hx). now right.
        -- assumption.
      * right. exists (file :: before), f, after. repeat split.
        -- constructor; [|assumption].
           intro Hin'. apply (Hdisj file Hin'). now left.
        -- intros x [<-|Hx]; [assumption|].
           intro Hset. apply (Hdisj x Hx). now right.
        -- destruct Hin as [Hin|[<-|Hin]].
           ++ left. now right.
           ++ left. now left.
           ++ now right.
        -- assumption.
Qed.

Lemma CheckForDuplicateObjectFiles_NoDup files s :
  NoDup files ->
  CheckForDuplicateObjectFiles target_ files s = mkOutcome (Value true) [] s.
Proof.
  intro Hnd. unfold CheckForDuplicateObjectFiles.
  destruct (check_files_spec files [] s)
    as [(_ & _ & H) | (before & f & after & -> & Hnd' & _ & Hin & _)].
  - exact H.
  - exfalso. destruct Hin as [Hin|[]].
    apply in_split in Hin. destruct Hin as (a & b & ->).
    rewrite <- app_assoc in Hnd. simpl in Hnd.
    exact (twice_not_NoDup _ _ _ _ Hnd).
Qed.

Lemma CheckForDuplicateObjectFiles_dup files s :
  ~ NoDup files ->
  exists before file after,
    files = before ++ file :: after /\ NoDup before /\ In file before /\
    CheckForDuplicateObjectFiles target_ files s
    = mkOutcome (Value false) []
                (FailWithError (duplicate_object_error target_ file) s).
Proof.
  intro Hdup. unfold CheckForDuplicateObjectFiles.
  destruct (check_files_spec files [] s)
    as [(Hnd & _) | (before & f & after & -> & Hnd' & _ & Hin & H)].
  - contradiction.
  - exists before, f, after. repeat split; try assumption.
    now destruct Hin as [Hin|[]].
Qed.

Lemma duplicate_error_mentions file :
  mentions (err_message (duplicate_object_error target_ file))
           (label target_) /\
  mentions (err_message (duplicate_object_error target_ file)) file.
Proof.
  unfold duplicate_object_error, duplicate_object_message. simpl. split.
  - eexists "The target "%string, _. reflexivity.
  - eexists ("The target " ++ label target_ ++ nl
             ++ "generates two object files with the same name:" ++ nl
             ++ "  ")%string, _.
    rewrite !append_assoc. reflexivity.
Qed.

End DuplicateCheck.

(** ** The C-family source block *)

Section SourceBlock.

Variable E : Externals.
Variable target_ : Target.
Variables pch_deps input_deps order_only_deps : list OutputFile.
Variable module_dep_info : list ModuleDep.

Lemma fold_module_dep_step tool_outputs mdi :
  forall deps deps',
    fold_result (module_dep_step tool_outputs) mdi deps = Value deps' ->
    deps' = deps ++ module_inputs tool_outputs mdi /\
    (mdi <> [] -> tool_outputs <> []).
Proof.
  induction mdi as [|md mdi IH]; intros deps deps' H; simpl in H.
  - inversion H. split; [|congruence].
    destruct tool_outputs; simpl; now rewrite app_nil_r.
  - destruct tool_outputs as [|first rest]; [discriminate|].
    simpl in H. apply IH in H. destruct H as [-> _].
    split; [|discriminate].
    simpl. destruct (String.eqb first (pcm md)); simpl.
    + reflexivity.
    + now rewrite <- app_assoc.
Qed.

Lemma fold_pch_dep_step tool tool_name pchs :
  forall deps deps',
    fold_result (pch_dep_step E tool tool_name) pchs deps = Value deps' ->
    exists part, deps' = deps ++ part /\ incl part pchs.
Proof.
  induction pchs as [|dep pchs IH]; intros deps deps' H; simpl in H.
  - inversion H. exists []. split; [now rewrite app_nil_r | easy].
  - destruct (pch_dep_step E tool tool_name deps dep) as [deps1|] eqn:Hs;
      [|discriminate].
    simpl in H. apply IH in H. destruct H as (part & -> & Hincl).
    assert (Hd : deps1 = deps \/ deps1 = deps ++ [dep]).
    { unfold pch_dep_step in Hs.
      destruct (FindExtensionOffset E dep); [|inversion Hs; auto].
      match type of Hs with
      | rbind ?ext _ = _ => destruct ext as [extension|]
      end; [|discriminate].
      unfold rbind at 1 in Hs.
      destruct (compare_tail dep extension) as [[|]|];
        simpl in Hs; inversion Hs; auto. }
    destruct Hd as [->| ->].
    + exists part. split; [reflexivity|]. now apply incl_tl.
    + exists (dep :: part). split; [now rewrite <- app_assoc|].
      apply incl_cons; [now left | now apply incl_tl].
Qed.

(** One iteration of the loop of [WriteSources]. *)
Lemma WriteSources_source_spec files source s r w s' :
  WriteSources_source E target_ pch_deps input_deps order_only_deps
                      module_dep_info files source s
  = mkOutcome r w s' ->
  s' = s /\
  (w = [] \/
   exists edge,
     source_edge E target_ pch_deps input_deps order_only_deps
                 module_dep_info source edge /\
     w = [edge; Pool]) /\
  (forall objs others,
      r = Value (objs, others) ->
      objs = fst files ++ source_object E target_ source).
Proof.
  unfold WriteSources_source, source_object.
  destruct files as [objs0 others0].
  destruct (GetOutputFilesForSource E target_ source)
    as [[ok tool_name] tool_outputs] eqn:Hout.
  destruct ok; simpl.
  2:{ intro H. inversion H; subst. repeat split; [now left|].
      intros objs others Hv. inversion Hv. now rewrite app_nil_r. }
  destruct (ToolName_eqb tool_name kToolNone) eqn:Hnone; simpl.
  - (* no compile tool *)
    destruct (IsModuleMapType source); simpl.
    + intro H. inversion H; subst. repeat split; [now left|].
      intros objs others Hv. inversion Hv. now rewrite app_nil_r.
    + destruct tool_outputs as [|first rest]; intro H; inversion H; subst;
        (repeat split; [now left|]); intros objs others Hv;
        [discriminate | now inversion Hv].
  - assert (Hne : tool_name <> kToolNone).
    { intro Heq. apply ToolName_eqb_eq in Heq. congruence. }
    destruct (GetToolAsC (toolchain target_) tool_name) as [tool|] eqn:Htool.
    2:{ intro H. inversion H; subst. repeat split; [now left|].
        intros objs others Hv. discriminate. }
    set (pch := if negb (is_none (precompiled_header_type tool))
                then fold_result (pch_dep_step E tool tool_name) pch_deps
                                 input_deps
                else Value input_deps).
    assert (Hpch : forall deps1, pch = Value deps1 ->
                   exists part, deps1 = input_deps ++ part /\
                                incl part pch_deps).
    { subst pch. intros deps1 H.
      destruct (negb (is_none (precompiled_header_type tool))).
      - now apply fold_pch_dep_step in H.
      - inversion H. exists []. split; [now rewrite app_nil_r | easy]. }
    destruct pch as [deps1|].
    2:{ intro H. inversion H; subst. repeat split; [now left|].
        intros objs others Hv. discriminate. }
    destruct (Hpch deps1 eq_refl) as (part & -> & Hincl).
    unfold bind at 1. unfold bind at 1. unfold bind at 1. simpl.
    destruct (fold_result (module_dep_step tool_outputs) module_dep_info
                          (input_deps ++ part)) as [deps2|] eqn:Hmod; simpl.
    2:{ intro H. inversion H; subst. repeat split; [now left|].
        intros objs others Hv. discriminate. }
    apply fold_module_dep_step in Hmod. destruct Hmod as [-> Hnonempty].
    assert (Hedge :
              source_edge E target_ pch_deps input_deps order_only_deps
                module_dep_info source
                (CompilerBuildLine
                   [source]
                   ((input_deps ++ part)
                    ++ module_inputs tool_outputs module_dep_info)
                   order_only_deps tool_name tool_outputs None)).
    { exists tool_name, tool_outputs, tool, part.
      repeat split; try assumption. now rewrite <- app_assoc. }
    destruct (IsModuleMapType source); simpl.
    + intro H. inversion H; subst. repeat split.
      * right. eexists. split; [exact Hedge | reflexivity].
      * intros objs others Hv. inversion Hv. now rewrite app_nil_r.
    + destruct tool_outputs as [|first rest]; intro H; inversion H; subst;
        (repeat split;
         [right; eexists; split; [exact Hedge | reflexivity]|]);
        intros objs others Hv; [discriminate | now inversion Hv].
Qed.

(** The loop of [WriteSources]. *)
Lemma WriteSources_loop_spec srcs :
  forall files s r w s',
    for_each (WriteSources_source E target_ pch_deps input_deps
                                  order_only_deps module_dep_info)
             srcs files s
    = mkOutcome r w s' ->
    s' = s /\
    (forall item,
        In item w ->
        item = Pool \/
        exists source,
          In source srcs /\
          source_edge E target_ pch_deps input_deps order_only_deps
                      module_dep_info source item) /\
    (forall objs others,
        r = Value (objs, others) ->
        objs = fst files ++ flat_map (source_object E target_) srcs).
Proof.
  induction srcs as [|source srcs IH]; intros files s r w s' H; simpl in H.
  - inversion H; subst. repeat split; [intros item []|].
    intros objs others Hv. inversion Hv. now rewrite app_nil_r.
  - unfold bind in H.
    destruct (WriteSources_source E target_ pch_deps input_deps
                order_only_deps module_dep_info files source s)
      as [r1 w1 s1] eqn:Hstep.
    apply WriteSources_source_spec in Hstep.
    destruct Hstep as (-> & Hw1 & Hobjs1).
    assert (Hitems1 : forall item, In item w1 ->
              item = Pool \/
              source_edge E target_ pch_deps input_deps order_only_deps
                          module_dep_info source item).
    { intros item Hin. destruct Hw1 as [->|(edge & Hedge & ->)].
      - destruct Hin.
      - destruct Hin as [<-|[<-|[]]]; auto. }
    simpl in H. destruct r1 as [[objs1 others1]|].
    + destruct (for_each _ srcs (objs1, others1) s) as [r2 w2 s2] eqn:Hrest.
      apply IH in Hrest. destruct Hrest as (-> & Hitems2 & Hobjs2).
      simpl in H. inversion H; subst. repeat split.
      * intros item Hin. apply in_app_or in Hin. destruct Hin as [Hin|Hin].
        -- destruct (Hitems1 item Hin) as [->|Hedge]; [now left|].
           right. exists source. split; [now left | assumption].
        -- destruct (Hitems2 item Hin) as [->|(src & Hsrc & Hedge)];
             [now left|].
           right. exists src. split; [now right | assumption].
      * intros objs others Hv. apply Hobjs2 in Hv. simpl in Hv.
        rewrite (Hobjs1 objs1 others1 eq_refl) in Hv.
        simpl. now rewrite app_assoc.
    + inversion H; subst. repeat split.
      * intros item Hin. destruct (Hitems1 item Hin) as [->|Hedge];
          [now left|].
        right. exists source. split; [now left | assumption].
      * intros objs others Hv. discriminate.
Qed.

Lemma WriteSources_spec files s r w s' :
  WriteSources E target_ pch_deps input_deps order_only_deps
               module_dep_info files s
  = mkOutcome r w s' ->
  s' = s /\
  (forall item,
      In item w ->
      item = Pool \/ item = Endl \/
      exists source,
        In source (sources target_) /\
        source_edge E target_ pch_deps input_deps order_only_deps
                    module_dep_info source item) /\
  (forall objs others,
      r = Value (objs, others) ->
      objs = fst files ++ flat_map (source_object E target_)
                                   (sources target_)).
Proof.
  unfold WriteSources, bind.
  destruct (for_each _ (sources target_) files s) as [r1 w1 s1] eqn:Hloop.
  apply WriteSources_loop_spec in Hloop.
  destruct Hloop as (-> & Hitems & Hobjs).
  simpl. destruct r1 as [[objs1 others1]|]; simpl; intro H;
    inversion H; subst.
  - repeat split.
    + intros item Hin. apply in_app_or in Hin.
      destruct Hin as [Hin|[<-|[]]]; [|auto].
      destruct (Hitems item Hin) as [->|Hedge]; auto.
    + intros objs others Hv. inversion Hv; subst.
      now apply (Hobjs objs others).
  - repeat split.
    + intros item Hin. destruct (Hitems item Hin) as [->|Hedge]; auto.
    + intros objs others Hv. discriminate.
Qed.

End SourceBlock.

(** ** The PCH block *)

Lemma edges_with_rule_app tool_name a b :
  edges_with_rule tool_name (a ++ b)
  = edges_with_rule tool_name a ++ edges_with_rule tool_name b.
Proof. apply filter_app. Qed.

Lemma edges_gcc_pch_flags tool_name tool_name' :
  edges_with_rule tool_name' (gcc_pch_flags tool_name) = [].
Proof. now destruct tool_name. Qed.

Section PCHBlock.

Variable E : Externals.
Variable target_ : Target.
Variables input_deps order_only_deps : list OutputFile.

(** One block of [WritePCHCommands]: it always returns; MSVC outputs join
    the object files, GCC outputs the other files; its only build line is
    the PCH edge, written unless the dialect of the block is none. *)
Lemma pch_block_spec flag_type tool_name accepts source_type obj other s :
  accepts PCH_NONE = false ->
  let dialect := block_dialect E target_ tool_name accepts source_type in
  let outs := GetPCHOutputFiles E target_ tool_name in
  exists w,
    pch_block E target_ flag_type tool_name accepts source_type
              input_deps order_only_deps (obj, other) s
    = mkOutcome (Value (obj ++ (if is_msvc dialect then outs else []),
                        other ++ (if is_gcc dialect then outs else [])))
                w s /\
    forall tool_name',
      edges_with_rule tool_name' w
      = if negb (is_none dialect) && ToolName_eqb tool_name tool_name'
        then [pch_edge E target_ input_deps order_only_deps tool_name]
        else [].
Proof.
  intros Hnone dialect outs. subst dialect outs.
  unfold pch_block, block_dialect, pch_edge.
  destruct (GetToolAsC (toolchain target_) tool_name) as [tool|].
  2:{ exists []. split; [|reflexivity]. simpl. now rewrite !app_nil_r. }
  destruct (precompiled_header_type tool) eqn:Htype.
  - rewrite Hnone. simpl. exists []. split; [|reflexivity].
    now rewrite !app_nil_r.
  - destruct (accepts PCH_GCC); simpl;
      [|exists []; split; [now rewrite !app_nil_r | reflexivity]].
    destruct (Get (source_types_used target_) source_type); simpl;
      [|exists []; split; [now rewrite !app_nil_r | reflexivity]].
    unfold WriteGCCPCHCommand, bind, emit, ret.
    destruct (GetPCHOutputFiles E target_ tool_name) as [|o outs] eqn:Ho;
      simpl.
    + exists []. split; [now rewrite !app_nil_r | reflexivity].
    + eexists. split; [now rewrite !app_nil_r|].
      intro tool_name'. simpl.
      change (filter (has_rule tool_name')) with (edges_with_rule tool_name').
      rewrite edges_with_rule_app, edges_gcc_pch_flags. simpl.
      now destruct (ToolName_eqb tool_name tool_name').
  - destruct (accepts PCH_MSVC); simpl;
      [|exists []; split; [now rewrite !app_nil_r | reflexivity]].
    destruct (Get (source_types_used target_) source_type); simpl;
      [|exists []; split; [now rewrite !app_nil_r | reflexivity]].
    unfold WriteWindowsPCHCommand, bind, emit, ret.
    destruct (GetPCHOutputFiles E target_ tool_name) as [|o outs] eqn:Ho;
      simpl.
    + exists []. split; [now rewrite !app_nil_r | reflexivity].
    + eexists. split; [now rewrite !app_nil_r|].
      intro tool_name'. simpl.
      now destruct (ToolName_eqb tool_name tool_name').
Qed.

Lemma WritePCHCommands_spec s :
  exists w,
    WritePCHCommands E target_ input_deps order_only_deps ([], []) s
    = mkOutcome (Value (pch_outputs_of E target_ is_msvc,
                        pch_outputs_of E target_ is_gcc)) w s /\
    (forall l,
        edges_with_rule (pch_tool_name l) w
        = if negb (is_none (pch_dialect E target_ l))
          then [pch_edge E target_ input_deps order_only_deps
                         (pch_tool_name l)]
          else []) /\
    (forall tool_name,
        pch_or_stamp_rule tool_name = false ->
        edges_with_rule tool_name w = []).
Proof.
  unfold WritePCHCommands, pch_outputs_of, pch_dialect.
  destruct (has_precompiled_headers (config_values target_)); simpl.
  2:{ exists []. split; [reflexivity|]. split; [now intros [] | easy]. }
  destruct (pch_block_spec CSubstitutionCFlagsC kCToolCc
              (fun t => negb (is_none t)) SOURCE_C [] [] s eq_refl)
    as (w1 & H1 & E1).
  cbv zeta in H1, E1. simpl app in H1.
  rewrite (bind_value _ _ _ _ _ _ H1).
  match type of H1 with
  | _ = mkOutcome (Value (?o1, ?g1)) _ _ =>
      destruct (pch_block_spec CSubstitutionCFlagsCc kCToolCxx
                  (fun t => negb (is_none t)) SOURCE_CPP o1 g1 s eq_refl)
        as (w2 & H2 & E2)
  end.
  cbv zeta in H2, E2.
  rewrite (bind_value _ _ _ _ _ _ H2). cbn [result written sched].
  match type of H2 with
  | _ = mkOutcome (Value (?o2, ?g2)) _ _ =>
      destruct (pch_block_spec CSubstitutionCFlagsObjC kCToolObjC
                  is_gcc SOURCE_M o2 g2 s eq_refl)
        as (w3 & H3 & E3)
  end.
  cbv zeta in H3, E3.
  rewrite (bind_value _ _ _ _ _ _ H3). cbn [result written sched].
  match type of H3 with
  | _ = mkOutcome (Value (?o3, ?g3)) _ _ =>
      destruct (pch_block_spec CSubstitutionCFlagsObjCc kCToolObjCxx
                  is_gcc SOURCE_MM o3 g3 s eq_refl)
        as (w4 & H4 & E4)
  end.
  cbv zeta in H4, E4.
  rewrite H4. cbn [result written sched].
  exists (w1 ++ w2 ++ w3 ++ w4). split; [|split].
  - f_equal. f_equal. now rewrite !app_nil_r, <- !app_assoc.
  - intro l. rewrite !edges_with_rule_app, E1, E2, E3, E4.
    destruct l; simpl; rewrite ?andb_false_r, ?andb_true_r; simpl;
      rewrite ?app_nil_r; reflexivity.
  - intros tool_name Hrule.
    rewrite !edges_with_rule_app, E1, E2, E3, E4.
    destruct tool_name; try discriminate; simpl;
      rewrite ?andb_false_r; reflexivity.
Qed.

End PCHBlock.

(** ** The link line *)

Lemma written_bind_emit {B} items (f : unit -> Writer B) s :
  written (bind (emit items) f s) = items ++ written (f tt s).
Proof. reflexivity. Qed.

Lemma linkable_deps_fold deps :
  forall out implicit_deps solibs,
    fold_left linkable_dep_step deps (out, implicit_deps, solibs)
    = (out ++ flat_map (fun cur => if is_direct cur
                                   then [Text " "; File (link_output_file cur)]
                                   else []) deps,
       implicit_deps ++ map dependency_output_file (filter is_shared deps),
       solibs ++ map link_output_file (filter is_shared deps)).
Proof.
  induction deps as [|cur deps IH]; intros out implicit_deps solibs; simpl.
  - now rewrite !app_nil_r.
  - unfold is_direct, is_shared, is_skipped.
    destruct (is_rust_library cur || is_rust_proc_macro cur); simpl.
    + apply IH.
    + destruct (String.eqb (dependency_output_file cur)
                           (link_output_file cur)); simpl; rewrite IH.
      * now rewrite <- !app_assoc.
      * now rewrite <- !app_assoc.
Qed.

Lemma linkable_deps_loop_spec deps :
  linkable_deps_loop deps
  = (flat_map (fun cur => if is_direct cur
                          then [Text " "; File (link_output_file cur)]
                          else []) deps,
     map dependency_output_file (filter is_shared deps),
     map link_output_file (filter is_shared deps)).
Proof. unfold linkable_deps_loop. now rewrite linkable_deps_fold. Qed.

Section LinkLine.

Variable E : Externals.
Variable target_ : Target.

Lemma link_direct_inputs_spec :
  link_direct_inputs E target_
  = flat_map (fun cur => if is_direct cur
                         then [Text " "; File (link_output_file cur)]
                         else [])
             (linkable_deps (GetClassifiedDeps E target_)).
Proof.
  unfold link_direct_inputs. now rewrite linkable_deps_loop_spec.
Qed.

Lemma link_direct_inputs_are_inputs :
  forallb is_input_item (link_direct_inputs E target_) = true.
Proof.
  rewrite link_direct_inputs_spec.
  induction (linkable_deps (GetClassifiedDeps E target_)) as [|cur l IH];
    [reflexivity|].
  simpl. rewrite forallb_app, IH.
  now destruct (is_direct cur).
Qed.

Lemma link_solibs_spec :
  link_solibs E target_
  = map link_output_file
        (filter is_shared (linkable_deps (GetClassifiedDeps E target_))).
Proof. unfold link_solibs. now rewrite linkable_deps_loop_spec. Qed.

Lemma link_implicit_deps_spec others id :
  exists rest,
    link_implicit_deps E target_ others id
    = map dependency_output_file
          (filter is_shared (linkable_deps (GetClassifiedDeps E target_)))
      ++ rest.
Proof.
  unfold link_implicit_deps. rewrite linkable_deps_loop_spec.
  eexists. reflexivity.
Qed.

(** The shape of the link line and of its tail variables. *)
Lemma WriteLinkerStuff_written objs others id s tool_ :
  GetToolForTargetFinalOutputAsC E target_ = Some tool_ ->
  written (WriteLinkerStuff E target_ objs others id s)
  = link_line_start E target_ tool_ objs
    ++ link_direct_inputs E target_
    ++ implicit_section (link_implicit_deps E target_ others id)
    ++ order_only_section (non_linkable_deps (GetClassifiedDeps E target_))
    ++ [Endl]
    ++ link_tail_vars E target_ tool_ others
    ++ libs_list "solibs" (link_solibs E target_)
    ++ libs_list "rlibs"
         (if IsFinal target_
          then rust_libraries (inherited_libraries target_) else [])
    ++ [Pool].
Proof.
  intro Htool. unfold WriteLinkerStuff. rewrite Htool.
  unfold WriteOrderOnlyDependencies, WriteOutputSubstitutions,
    WriteLibsList, link_line_start, implicit_section, libs_list,
    order_only_section, link_tail_vars.
  rewrite !written_bind_emit.
  destruct (link_implicit_deps E target_ others id) as [|i0 il];
    destruct (non_linkable_deps (GetClassifiedDeps E target_)) as [|n0 nl];
    destruct (link_solibs E target_) as [|s0 sl];
    destruct (if IsFinal target_
              then rust_libraries (inherited_libraries target_)
              else []) as [|r0 rl];
    destruct (output_type target_);
    cbn [written bind emit ret result sched app];
    rewrite <- ?app_assoc; cbn [app]; rewrite ?app_nil_r; reflexivity.
Qed.

End LinkLine.

(** ** The orchestrator *)

Lemma silent_sched {A} (m : Writer A) s r w s' :
  silent m -> m s = mkOutcome r w s' -> s' = s.
Proof. intros (r0 & w0 & H) Hm. rewrite H in Hm. now inversion Hm. Qed.

Lemma flat_map_twice_not_NoDup {A B} (f : A -> list B) (l : list A)
    (tail : list B) i j x y o :
  i <> j -> nth_error l i = Some x -> nth_error l j = Some y ->
  f x = [o] -> f y = [o] ->
  ~ NoDup (flat_map f l ++ tail).
Proof.
  intros Hij Hi Hj Hx Hy.
  assert (H : exists a b c u v,
             l = a ++ u :: b ++ v :: c /\ f u = [o] /\ f v = [o]).
  { destruct (Nat.lt_ge_cases i j) as [Hlt|Hge].
    - destruct (nth_error_two_split l i j x y Hlt Hi Hj) as (a & b & c & ->).
      now exists a, b, c, x, y.
    - assert (Hlt : j < i) by lia.
      destruct (nth_error_two_split l j i y x Hlt Hj Hi) as (a & b & c & ->).
      now exists a, b, c, y, x. }
  destruct H as (a & b & c & u & v & -> & Hu & Hv).
  rewrite flat_map_app. simpl. rewrite flat_map_app. simpl.
  rewrite Hu, Hv. simpl. rewrite <- !app_assoc. simpl.
  rewrite <- !app_assoc. simpl.
  apply twice_not_NoDup.
Qed.

Section Orchestrator.

Variable E : Externals.
Variable target_ : Target.

(** What [Run] has done when it reaches the duplicate check. *)
Lemma Run_compile_inv s c w s1 :
  Run_compile E target_ s = mkOutcome (Value c) w s1 ->
  exists mdi wp objs wsrc,
    let n := List.length (sources target_) in
    let id := InputsStampDep E target_ n in
    let ood := InputDepsStampDep E target_ [] n in
    GetModuleDepsInformation E target_ = Value mdi /\
    WritePCHCommands E target_ id ood ([], []) s
    = mkOutcome (Value (pch_obj_files c, pch_other_files c)) wp s /\
    source_block E target_
                 (match pch_obj_files c with
                  | _ :: _ => pch_obj_files c
                  | [] => pch_other_files c
                  end) id ood mdi s
    = mkOutcome (Value (objs, other_files c)) wsrc s /\
    obj_files c = objs ++ pch_obj_files c /\
    input_deps c = id /\
    w = written (WriteCompilerVars E target_ mdi s)
        ++ [InputsStamp n; InputDepsStamp n] ++ wp ++ wsrc /\
    s1 = s.
Proof.
  intro H.
  assert (Hs : s1 = s) by exact (silent_sched _ _ _ _ _
                                   (silent_Run_compile E target_) H).
  subst s1. unfold Run_compile in H.
  apply bind_value_inv in H.
  destruct H as (mdi & w1 & sa & w2 & Hm & H & ->).
  unfold lift in Hm. injection Hm as Hmdi Hw1 Hsa. subst w1 sa.
  apply bind_value_inv in H.
  destruct H as ([] & w3 & sb & w4 & Hvars & H & ->).
  assert (sb = s) by exact (silent_sched _ _ _ _ _
                              (silent_WriteCompilerVars E target_ mdi) Hvars).
  subst sb.
  apply bind_value_inv in H.
  destruct H as (id & w5 & sc & w6 & Hid & H & ->).
  unfold WriteInputsStampAndGetDep, bind, emit, ret in Hid. simpl in Hid.
  injection Hid as Hid Hw5 Hsc. subst id w5 sc.
  apply bind_value_inv in H.
  destruct H as (ood & w7 & sd & w8 & Hood & H & ->).
  unfold WriteInputDepsStampAndGetDep, bind, emit, ret in Hood.
  simpl in Hood. injection Hood as Hood Hw7 Hsd. subst ood w7 sd.
  apply bind_value_inv in H.
  destruct H as ([po pt] & wp & se & w9 & Hpch & H & ->).
  assert (se = s) by exact (silent_sched _ _ _ _ _
                              (silent_WritePCHCommands E target_ _ _ _) Hpch).
  subst se.
  apply bind_value_inv in H.
  destruct H as ([objs others] & wsrc & sf & w10 & Hsrc & H & ->).
  apply ret_inv in H. destruct H as (<- & -> & Hsf). subst sf.
  exists mdi, wp, objs, wsrc. cbv zeta. rewrite Hvars.
  cbn [written obj_files other_files input_deps pch_obj_files
       pch_other_files].
  repeat split; try assumption.
  cbn [app]. now rewrite app_nil_r.
Qed.

Lemma result_WriteLinkerStuff objs others id s tool_ :
  GetToolForTargetFinalOutputAsC E target_ = Some tool_ ->
  result (WriteLinkerStuff E target_ objs others id s) = Value tt.
Proof.
  intro Htool. unfold WriteLinkerStuff. rewrite Htool.
  unfold WriteOrderOnlyDependencies, WriteOutputSubstitutions, WriteLibsList.
  destruct (link_implicit_deps E target_ others id);
    destruct (non_linkable_deps (GetClassifiedDeps E target_));
    destruct (output_type target_);
    destruct (link_solibs E target_);
    destruct (if IsFinal target_
              then rust_libraries (inherited_libraries target_)
              else []);
    reflexivity.
Qed.

End Orchestrator.

(** ** Rendering *)

Lemma render_app (R : Renderer) (a b : list Item) :
  render R (a ++ b) = (render R a ++ render R b)%string.
Proof.
  induction a as [|i a IH]; simpl; [reflexivity|].
  now rewrite IH, append_assoc.
Qed.

Lemma filter_selected_all (l : list ModuleDep) :
  filter (selected true) l = l.
Proof.
  induction l as [|r l IH]; simpl; [reflexivity|].
  unfold selected at 1. rewrite orb_true_r. now rewrite IH.
Qed.

Lemma filter_selected_not_self (l : list ModuleDep) :
  filter (selected false) l = filter not_self l.
Proof.
  apply filter_ext. intro r. unfold selected, not_self.
  now rewrite orb_false_r.
Qed.

Lemma render_cons (R : Renderer) (i : Item) (l : list Item) :
  render R (i :: l) = (render_item R i ++ render R l)%string.
Proof. reflexivity. Qed.

Lemma render_module_arguments (R : Renderer) (records : list ModuleDep) :
  EscapeString R "-fmodule-file=" = "-fmodule-file=" ->
  render R (flat_map (fun r => [Text " "; Escaped "-fmodule-file=";
                                File (pcm r)]) records
            ++ [Endl])
  = fold_right (fun r rest =>
                  (" -fmodule-file=" ++ WriteFile R (pcm r) ++ rest)%string)
               nl records.
Proof.
  intro Hfile. induction records as [|r records IH].
  - reflexivity.
  - cbn [flat_map app fold_right].
    rewrite !render_cons. cbn [render_item].
    rewrite Hfile, IH. reflexivity.
Qed.

(** ** Build lines of the blocks of [Run] *)

Lemma filter_none {A} (f : A -> bool) (l : list A) :
  (forall x, In x l -> f x = false) -> filter f l = [].
Proof.
  induction l as [|x l IH]; intro H; simpl; [reflexivity|].
  rewrite (H x (or_introl eq_refl)). apply IH.
  intros y Hy. apply H. now right.
Qed.

Lemma input_items_are_not_edges tool_name items :
  forallb is_input_item items = true ->
  edges_with_rule tool_name items = [].
Proof.
  intro H. apply filter_none. intros i Hi.
  rewrite forallb_forall in H. specialize (H i Hi).
  now destruct i.
Qed.

Section BuildLines.

Variable E : Externals.
Variable target_ : Target.

Lemma no_edge_in_WriteCompilerVars mdi s tool_name :
  edges_with_rule tool_name (written (WriteCompilerVars E target_ mdi s))
  = [].
Proof.
  assert (Hargs : forall records,
             edges_with_rule tool_name
               (flat_map (fun module_dep : ModuleDep =>
                            [Text " "; Escaped "-fmodule-file=";
                             File (pcm module_dep)]) records) = []).
  { intro records. apply filter_none. intros i Hi.
    apply in_flat_map in Hi. destruct Hi as (r & _ & [<-|[<-|[<-|[]]]]);
      reflexivity. }
  unfold WriteCompilerVars, WriteModuleDepsSubstitution.
  destruct mdi as [|r0 rest]; [reflexivity|].
  destruct (Get (source_types_used target_) SOURCE_CPP
            || Get (source_types_used target_) SOURCE_MODULEMAP);
    [|reflexivity].
  destruct (used (toolchain target_) CSubstitutionModuleDeps);
    destruct (used (toolchain target_) CSubstitutionModuleDepsNoSelf);
    cbn [written bind emit ret result sched];
    rewrite !edges_with_rule_app, ?Hargs; reflexivity.
Qed.

Lemma no_edge_in_WriteLinkerStuff objs others id s tool_name :
  edges_with_rule tool_name
    (written (WriteLinkerStuff E target_ objs others id s)) = [].
Proof.
  destruct (GetToolForTargetFinalOutputAsC E target_) as [tool_|] eqn:Htool.
  - rewrite (WriteLinkerStuff_written E target_ _ _ _ _ tool_ Htool).
    rewrite !edges_with_rule_app.
    rewrite (input_items_are_not_edges _ _
               (link_direct_inputs_are_inputs E target_)).
    assert (Hoo : edges_with_rule tool_name
                    (order_only_section
                       (non_linkable_deps (GetClassifiedDeps E target_)))
                  = []).
    { apply filter_none. intros i Hi. unfold order_only_section in Hi.
      destruct (non_linkable_deps (GetClassifiedDeps E target_));
        [destruct Hi|].
      destruct Hi as [<-|Hi]; [reflexivity|].
      apply in_flat_map in Hi.
      destruct Hi as (d & _ & [<-|[<-|[]]]); reflexivity. }
    rewrite Hoo.
    unfold implicit_section, libs_list, link_tail_vars.
    destruct (link_implicit_deps E target_ others id);
      destruct (link_solibs E target_);
      destruct (if IsFinal target_
                then rust_libraries (inherited_libraries target_)
                else []);
      destruct (output_type target_); reflexivity.
  - unfold WriteLinkerStuff. now rewrite Htool.
Qed.

Lemma no_edge_in_Run_finish c s tool_name :
  edges_with_rule tool_name (written (Run_finish E target_ c s)) = [].
Proof.
  unfold Run_finish, bind.
  destruct (check_files_spec target_ (obj_files c) [] s)
    as [(_ & _ & H) | (before & f & after & _ & _ & _ & _ & H)];
    unfold CheckForDuplicateObjectFiles; rewrite H;
    cbn [result written sched negb app].
  - destruct (output_type target_);
      try apply no_edge_in_WriteLinkerStuff. reflexivity.
  - reflexivity.
Qed.

(** The Swift source block writes the Swift compile edge, then at most one
    stamp edge. *)
Lemma WriteSwiftSources_written id ood objs s r w s' :
  SwiftSourceUsed (source_types_used target_) = true ->
  WriteSwiftSources E target_ id ood objs s = mkOutcome (Value r) w s' ->
  exists tool swift_order_only_deps stamp,
    GetToolForSourceType (toolchain target_) SOURCE_SWIFT = Some tool /\
    w = CompilerBuildLine (sources target_) id swift_order_only_deps
                          (name tool) [module_output_file target_]
                          (Some false)
        :: stamp /\
    forall tool_name,
      tool_name <> kGeneralToolStamp ->
      edges_with_rule tool_name stamp = [].
Proof.
  intros Hswift. unfold WriteSwiftSources. rewrite Hswift.
  destruct (GetToolForSourceType (toolchain target_) SOURCE_SWIFT)
    as [tool|]; [|discriminate].
  cbv zeta.
  match goal with
  | |- context [match ?a with [] => ret tt | _ :: _ => _ end] =>
      destruct a as [|a0 al]
  end; unfold bind, emit, ret; simpl; intro H; inversion H; subst;
    eexists tool, _, _; (split; [reflexivity|]);
    (split; [reflexivity|]); intros tool_name Hne; simpl;
    try reflexivity.
  destruct tool_name; try reflexivity. congruence.
Qed.

(** The C-family source block writes no edge with a rule that none of the
    sources has. *)
Lemma WriteSources_no_foreign_rule pch id ood mdi files s tool_name :
  (forall source, In source (sources target_) ->
                  source_rule E target_ source <> tool_name) ->
  edges_with_rule tool_name
    (written (WriteSources E target_ pch id ood mdi files s)) = [].
Proof.
  intro Hrule.
  destruct (WriteSources E target_ pch id ood mdi files s) as [r w s']
    eqn:Hw.
  apply WriteSources_spec in Hw. destruct Hw as (_ & Hitems & _).
  cbn [written]. apply filter_none. intros i Hi.
  destruct (Hitems i Hi) as [->|[->|(source & Hsrc & Hedge)]];
    try reflexivity.
  destruct Hedge as (tn & touts & tool & pch_part & Hout & _ & _ & _ & _
                     & ->).
  simpl. destruct (ToolName_eqb tn tool_name) eqn:Heq; [|reflexivity].
  apply ToolName_eqb_eq in Heq. exfalso.
  apply (Hrule source Hsrc). unfold source_rule. now rewrite Hout.
Qed.

End BuildLines.

Lemma written_Run (E : Externals) (t : Target) (s : Scheduler)
    (c : Compiled) (w : list Item) (s1 : Scheduler) :
  Run_compile E t s = mkOutcome (Value c) w s1 ->
  written (Run E t s) = w ++ written (Run_finish E t c s1).
Proof. intro Hc. unfold Run. now rewrite (bind_value _ _ _ _ _ _ Hc). Qed.

(** ** The object files of the source block *)

Lemma object_outputs_app (E : Externals) (a b : list OutputFile) :
  object_outputs E (a ++ b) = object_outputs E a ++ object_outputs E b.
Proof. unfold object_outputs. apply filter_app. Qed.

(** What the Swift source block returns and writes. *)
Lemma WriteSwiftSources_exact (E : Externals) (t : Target)
    (id ood objs : list OutputFile) (s : Scheduler)
    (r : list OutputFile) (w : list Item) (s' : Scheduler) :
  SwiftSourceUsed (source_types_used t) = true ->
  WriteSwiftSources E t id ood objs s = mkOutcome (Value r) w s' ->
  exists tool,
    GetToolForSourceType (toolchain t) SOURCE_SWIFT = Some tool /\
    r = objs ++ object_outputs E (swift_additional_outputs E t tool) /\
    let swift_order_only_deps :=
      fold_left push_back_unique (map dependency_output_file (modules t))
                (Append [] ood) in
    w = CompilerBuildLine (sources t) id swift_order_only_deps (name tool)
                          [module_output_file t] (Some false)
        :: match swift_additional_outputs E t tool with
           | [] => []
           | _ :: _ =>
               [Endl;
                CompilerBuildLine [AsSourceFile E (module_output_file t)]
                                  id swift_order_only_deps
                                  kGeneralToolStamp
                                  (swift_additional_outputs E t tool)
                                  (Some false)]
           end
        ++ [Endl].
Proof.
  intros Hswift. unfold WriteSwiftSources. rewrite Hswift.
  destruct (GetToolForSourceType (toolchain t) SOURCE_SWIFT) as [tool|];
    [|discriminate].
  cbv zeta. intro H. exists tool. split; [reflexivity|].
  rewrite <- app_assoc, <- object_outputs_app in H.
  match type of H with
  | context [match ?a ++ ?p with [] => ret tt | _ :: _ => _ end] =>
      assert (Heq : swift_additional_outputs E t tool = a ++ p)
        by reflexivity;
      rewrite Heq; clear Heq;
      destruct (a ++ p) as [|o0 ol] eqn:Houts
  end.
  all: unfold bind, emit, ret in H; simpl in H; injection H as Hr Hw _.
  all: subst w; split; [|reflexivity].
  all: rewrite <- Hr; f_equal; f_equal; exact Houts.
Qed.


(** The Swift compile edge of [Run].  When emission reaches the duplicate
    check of a target that uses a Swift source, the toolchain has a Swift
    tool and [Run] writes exactly one edge with that tool as its rule: its
    output is the [.swiftmodule] file and its inputs are the list
    [sources] of the target as it stands.  A target that uses no Swift
    source goes through the C-family source block and gets no edge with the
    Swift tool as its rule, as long as no source is reported that tool.
    The Swift tool is told from the tools of the PCH and stamp edges by its
    name. *)
Lemma swift_edge_of_Run
    (E : Externals) (t : Target) (s : Scheduler)
    (c : Compiled) (w : list Item) (s1 : Scheduler) :
  Run_compile E t s = mkOutcome (Value c) w s1 ->
  (SwiftSourceUsed (source_types_used t) = true ->
   exists tool swift_order_only_deps,
     GetToolForSourceType (toolchain t) SOURCE_SWIFT = Some tool /\
     (pch_or_stamp_rule (name tool) = false ->
      edges_with_rule (name tool) (written (Run E t s))
      = [CompilerBuildLine (sources t) (input_deps c)
                           swift_order_only_deps (name tool)
                           [module_output_file t] (Some false)])) /\
  (SwiftSourceUsed (source_types_used t) = false ->
   (forall pch_files input_deps order_only_deps module_dep_info,
       source_block E t pch_files input_deps order_only_deps
                    module_dep_info
       = WriteSources E t pch_files input_deps order_only_deps
                      module_dep_info ([], [])) /\
   forall tool,
     GetToolForSourceType (toolchain t) SOURCE_SWIFT = Some tool ->
     pch_or_stamp_rule (name tool) = false ->
     (forall source, In source (sources t) ->
                     source_rule E t source <> name tool) ->
     edges_with_rule (name tool) (written (Run E t s)) = []).
Proof.
  intro Hc. rewrite (written_Run E t s c w s1 Hc).
  destruct (Run_compile_inv E t s c w s1 Hc)
    as (mdi & wp & objs & wsrc & _ & Hpch & Hsrc & _ & Hid & Hw & _).
  cbv zeta in Hpch, Hsrc, Hid, Hw.
  destruct (WritePCHCommands_spec E t
              (InputsStampDep E t (List.length (sources t)))
              (InputDepsStampDep E t [] (List.length (sources t))) s)
    as (wp' & Hpch' & _ & Hnopch).
  rewrite Hpch in Hpch'. injection Hpch' as _ _ Hwp. subst wp'.
  split.
  - intro Hswift. unfold source_block in Hsrc. rewrite Hswift in Hsrc.
    simpl in Hsrc. apply bind_value_inv in Hsrc.
    destruct Hsrc as (objs' & w1 & sa & w2 & Hsw & Hret & ->).
    apply ret_inv in Hret. destruct Hret as (_ & -> & _).
    apply (WriteSwiftSources_written E t _ _ _ _ _ _ _ Hswift) in Hsw.
    destruct Hsw as (tool & oo & stamp & Htool & -> & Hstamp).
    exists tool, oo. split; [exact Htool|]. intro Hrule.
    rewrite Hw, !edges_with_rule_app.
    rewrite no_edge_in_WriteCompilerVars, (Hnopch _ Hrule),
      no_edge_in_Run_finish.
    cbn [edges_with_rule filter has_rule app].
    rewrite ToolName_eqb_refl.
    change (filter (has_rule (name tool)) stamp)
      with (edges_with_rule (name tool) stamp).
    rewrite Hstamp.
    + rewrite Hid. reflexivity.
    + intro Heq. rewrite Heq in Hrule. discriminate.
  - intro Hswift. split.
    + intros. unfold source_block. now rewrite Hswift.
    + intros tool Htool Hrule Hsources.
      unfold source_block in Hsrc. rewrite Hswift in Hsrc. simpl in Hsrc.
      assert (Hnosrc : edges_with_rule (name tool) wsrc = []).
      { match type of Hsrc with
        | WriteSources _ _ ?p ?i ?o _ _ _ = _ =>
            pose proof (WriteSources_no_foreign_rule
                          E t p i o mdi ([], []) s (name tool) Hsources)
              as Hno
        end.
        now rewrite Hsrc in Hno. }
      rewrite Hw, !edges_with_rule_app.
      rewrite no_edge_in_WriteCompilerVars, (Hnopch _ Hrule), Hnosrc,
        no_edge_in_Run_finish.
      reflexivity.
Qed.


(** ** Scenarios

    The model run on the end-to-end scenarios of the specification. *)

(** Scenario 1: a static library with two C++ sources gets two compile
    edges and one archive edge with [arflags]. *)
Example static_library_scenario :
  written (Run StaticLibraries.plain StaticLibraries.bar Examples.idle)
  = [CCompilerVars; SharedVars; InputsStamp 2; InputDepsStamp 2;
     CompilerBuildLine [Examples.cc "a.cc"] [] [] kCToolCxx ["a.o"] None;
     Pool;
     CompilerBuildLine [Examples.cc "b.cc"] [] [] kCToolCxx ["b.o"] None;
     Pool; Endl;
     Text "build"; Files ["libbar.a"]; Text ": "; Text "";
     ToolText (kOtherTool "alink"); Files ["a.o"; "b.o"]; Files []; Endl;
     Text "  arflags ="; ConfigStrings arflags; Endl;
     Text "  output_extension = "; Text ""; Endl;
     Text "  output_dir = "; Text ""; Endl; Pool]%string.
Proof. vm_compute. reflexivity. Qed.

(** Scenario 2: the shared library is an implicit dep through its table of
    contents and is named in [solibs]; it is not an explicit input. *)
Example shared_library_scenario :
  written (WriteLinkerStuff SharedLibrary.linking SharedLibrary.app
                            ["main.o"] [] [] Examples.idle)
  = [Text "build"; Files ["x"]; Text ": "; Text "";
     ToolText (kOtherTool "link"); Files ["main.o"]; Files [];
     Text " |"; Files ["libs.so.TOC"]; Endl;
     Text "  ldflags ="; LinkerFlags None; Endl;
     Text "  libs ="; Libs; Endl;
     Text "  frameworks ="; Frameworks; Endl;
     Text "  swiftmodules ="; SwiftModules []; Endl;
     Text "  output_extension = "; Text ""; Endl;
     Text "  output_dir = "; Text ""; Endl;
     Text "  "; Text "solibs"; Text " ="; CommandFiles ["./libs.so"]; Endl;
     Pool]%string.
Proof. vm_compute. reflexivity. Qed.

(** Scenario 3: the GCC PCH edge, and the [.gch] as an implicit input of
    the C++ compile edges. *)
Example gcc_pch_scenario :
  edges_with_rule kCToolCxx
    (written (Run GccPch.gcc GccPch.app Examples.idle))
  = [CompilerBuildLine [mkSourceFile "pch.cc" SOURCE_CPP] [] [] kCToolCxx
                       ["pch.h-cc.gch"] None;
     CompilerBuildLine [Examples.cc "a.cc"] ["pch.h-cc.gch"] [] kCToolCxx
                       ["a.o"] None;
     CompilerBuildLine [Examples.cc "b.cc"] ["pch.h-cc.gch"] [] kCToolCxx
                       ["b.o"] None]%string.
Proof. vm_compute. reflexivity. Qed.

(** Scenario 4: the module variables of a target with [a.modulemap] and
    [a.cc], as bytes. *)
Example clang_modules_scenario :
  render Rendering.ninja
         (written (WriteCompilerVars StaticLibraries.plain ModuleMaps.modular
                                     [ModuleEdges.self_record]
                                     Examples.idle))
  = ("module_deps = -Xclang -fmodules-embed-all-files -fmodule-file=a.pcm"
     ++ nl ++ "module_deps_no_self = -Xclang -fmodules-embed-all-files"
     ++ nl)%string.
Proof. vm_compute. reflexivity. Qed.

(** Scenario 5: one Swift compile edge, then one stamp edge for the
    partial outputs. *)
Example swift_scenario :
  filter is_build_edge
         (written (Run_compile StaticLibraries.plain Swift.two_swift
                               Examples.idle))
  = [CompilerBuildLine [Swift.swift "a.swift"; Swift.swift "b.swift"] [] []
                       (kOtherTool "swift") ["Mod.swiftmodule"]
                       (Some false);
     CompilerBuildLine [mkSourceFile "Mod.swiftmodule" SOURCE_UNKNOWN] [] []
                       kGeneralToolStamp ["a.o"; "b.o"] (Some false)]%string.
Proof. vm_compute. reflexivity. Qed.

(** ** Claims *)

(** C1, as amended.  When emission reaches the duplicate check:
    - if two sources of a target compiled by the C-family source block
      yield the same object-file path, the final object-file list has a
      duplicate;
    - if the final object-file list has a duplicate, [Run] reports a
      duplicate-object error that names the target and the first repeated
      path, and returns without writing the terminal block: what was
      written before the check (variables, PCH and compile edges) stays in
      the output, no stamp or link edge follows;
    - if the final object-file list (per-source outputs, then MSVC PCH
      outputs) has no duplicate, nothing is reported and [Run] goes on
      with the terminal block, which completes for a source set and
      whenever the final tool exists. *)
Theorem C1_duplicate_object_check
    (E : Externals) (t : Target) (s : Scheduler)
    (c : Compiled) (w : list Item) (s1 : Scheduler) :
  Run_compile E t s = mkOutcome (Value c) w s1 ->
  (SwiftSourceUsed (source_types_used t) = false ->
   two_sources_same_object E t -> ~ NoDup (obj_files c)) /\
  (~ NoDup (obj_files c) ->
   exists before file after,
     obj_files c = before ++ file :: after /\
     NoDup before /\ In file before /\
     Run E t s
     = mkOutcome (Value tt) w
                 (FailWithError (duplicate_object_error t file) s) /\
     mentions (err_message (duplicate_object_error t file)) (label t) /\
     mentions (err_message (duplicate_object_error t file)) file) /\
  (NoDup (obj_files c) ->
   Run E t s
   = mkOutcome (result (terminal_block E t c s))
               (w ++ written (terminal_block E t c s)) s /\
   (output_type t = SOURCE_SET \/
    GetToolForTargetFinalOutputAsC E t <> None ->
    result (Run E t s) = Value tt)).
Proof.
  intro Hc.
  assert (Hs : s1 = s)
    by exact (silent_sched _ _ _ _ _ (silent_Run_compile E t) Hc).
  subst s1. split; [|split].
  - intros Hswift (i & j & x & y & o & Hij & Hi & Hj & Hx & Hy).
    destruct (Run_compile_inv E t s c w s Hc)
      as (mdi & wp & objs & wsrc & _ & _ & Hsrc & Hobj & _).
    unfold source_block in Hsrc. rewrite Hswift in Hsrc. simpl in Hsrc.
    apply WriteSources_spec in Hsrc. destruct Hsrc as (_ & _ & Hobjs).
    rewrite Hobj, (Hobjs objs (other_files c) eq_refl). simpl.
    now apply flat_map_twice_not_NoDup with (i := i) (j := j) (x := x)
                                            (y := y) (o := o).
  - intro Hdup.
    destruct (CheckForDuplicateObjectFiles_dup t (obj_files c) s Hdup)
      as (before & file & after & Hsplit & Hnd & Hin & Hcheck).
    exists before, file, after. repeat split; try assumption.
    + unfold Run. rewrite (bind_value _ _ _ _ _ _ Hc).
      unfold Run_finish.
      rewrite (bind_value _ _ _ _ _ _ Hcheck). simpl.
      now rewrite app_nil_r.
    + apply duplicate_error_mentions.
    + apply duplicate_error_mentions.
  - intro Hnd.
    assert (Hrun : Run E t s
                   = mkOutcome (result (terminal_block E t c s))
                       (w ++ written (terminal_block E t c s)) s).
    { unfold Run. rewrite (bind_value _ _ _ _ _ _ Hc).
      unfold Run_finish.
      rewrite (bind_value _ _ _ _ _ _
                 (CheckForDuplicateObjectFiles_NoDup t (obj_files c) s Hnd)).
      cbn [negb app]. fold (terminal_block E t c).
      assert (Hsil : silent (terminal_block E t c)).
      { unfold terminal_block, WriteSourceSetStamp.
        destruct (output_type t);
          try apply silent_WriteLinkerStuff. apply silent_emit. }
      destruct (terminal_block E t c s) as [r2 w2 s2] eqn:Hterm.
      rewrite (silent_sched _ _ _ _ _ Hsil Hterm). reflexivity. }
    split; [exact Hrun|].
    intro Hdone. rewrite Hrun. cbn [result]. unfold terminal_block.
    destruct Hdone as [Hset|Htool].
    + now rewrite Hset.
    + destruct (GetToolForTargetFinalOutputAsC E t) as [tool_|] eqn:Ht;
        [|congruence].
      destruct (output_type t);
        try (now apply result_WriteLinkerStuff with (tool_ := tool_)).
      reflexivity.
Qed.

Lemma C1_witness :
  Run_compile StaticLibraries.plain StaticLibraries.dup Examples.idle
  = mkOutcome (Value Duplicates.dup_compiled) Duplicates.dup_written
              Examples.idle /\
  ~ NoDup (obj_files Duplicates.dup_compiled) /\
  exists file,
    Run StaticLibraries.plain StaticLibraries.dup Examples.idle
    = mkOutcome (Value tt) Duplicates.dup_written
        (FailWithError (duplicate_object_error StaticLibraries.dup file)
                       Examples.idle).
Proof.
  assert (Hc : Run_compile StaticLibraries.plain StaticLibraries.dup
                           Examples.idle
               = mkOutcome (Value Duplicates.dup_compiled)
                           Duplicates.dup_written Examples.idle)
    by (vm_compute; reflexivity).
  assert (Hdup : ~ NoDup (obj_files Duplicates.dup_compiled)).
  { apply (twice_not_NoDup [] [] [] "x.o"%string). }
  split; [exact Hc | split; [exact Hdup|]].
  destruct (C1_duplicate_object_check _ _ _ _ _ _ Hc) as (_ & H & _).
  destruct (H Hdup) as (before & file & after & _ & _ & _ & Hrun & _).
  now exists file.
Defined.

(** C1 as stated fails: the two compile edges are already written when the
    duplicate is found. *)
Lemma C1_counterexample :
  ~ duplicate_leaves_no_edge StaticLibraries.plain StaticLibraries.dup
      Examples.idle.
Proof.
  intro H. destruct H as [_ H].
  - exists 0, 1, (Examples.cc "a/x.cc"), (Examples.cc "b/x.cc"),
      "x.o"%string.
    repeat split; (discriminate || reflexivity).
  - vm_compute in H. discriminate.
Qed.

(** C2.  The link line is made of its start (outputs, rule, object files),
    the link outputs written directly, the [|] section holding the
    implicit deps, the [||] section, and the tail variables with [solibs].
    For every linkable dep D that is not a Rust library or proc-macro: if
    D's dependency output differs from its link output, both the [|]
    section and [solibs] are written, and D's dependency output among the
    implicit deps and D's link output in [solibs] sit at the same index;
    otherwise D's link output is written directly among the explicit
    inputs of the edge. *)
Theorem C2_linkable_deps_on_link_edge
    (E : Externals) (t : Target) (tool_ : Tool)
    (object_files : list OutputFile) (other_files : list SourceFile)
    (input_deps : list OutputFile) (s : Scheduler) (D : Target) :
  GetToolForTargetFinalOutputAsC E t = Some tool_ ->
  In D (linkable_deps (GetClassifiedDeps E t)) ->
  is_skipped D = false ->
  let implicit_deps := link_implicit_deps E t other_files input_deps in
  let solibs := link_solibs E t in
  written (WriteLinkerStuff E t object_files other_files input_deps s)
  = link_line_start E t tool_ object_files
    ++ link_direct_inputs E t
    ++ implicit_section implicit_deps
    ++ order_only_section (non_linkable_deps (GetClassifiedDeps E t))
    ++ [Endl]
    ++ link_tail_vars E t tool_ other_files
    ++ libs_list "solibs" solibs
    ++ libs_list "rlibs"
         (if IsFinal t then rust_libraries (inherited_libraries t) else [])
    ++ [Pool] /\
  (dependency_output_file D <> link_output_file D ->
   implicit_section implicit_deps = [Text " |"; Files implicit_deps] /\
   libs_list "solibs" solibs
   = [Text "  "; Text "solibs"; Text " ="; CommandFiles solibs; Endl] /\
   exists i,
     nth_error implicit_deps i = Some (dependency_output_file D) /\
     nth_error solibs i = Some (link_output_file D)) /\
  (dependency_output_file D = link_output_file D ->
   forallb is_input_item (link_direct_inputs E t) = true /\
   exists before after,
     link_direct_inputs E t
     = before ++ [Text " "; File (link_output_file D)] ++ after).
Proof.
  intros Htool HD Hskip implicit_deps solibs.
  split; [now apply WriteLinkerStuff_written|]. split.
  - intro Hneq.
    assert (Hshared : In D (filter is_shared
                              (linkable_deps (GetClassifiedDeps E t)))).
    { apply filter_In. split; [assumption|].
      unfold is_shared. rewrite Hskip. simpl.
      destruct (String.eqb (dependency_output_file D) (link_output_file D))
        eqn:Heqb; [|reflexivity].
      apply String.eqb_eq in Heqb. contradiction. }
    destruct (In_nth_error _ _ Hshared) as (i & Hi).
    assert (Himp : nth_error implicit_deps i
                   = Some (dependency_output_file D)).
    { subst implicit_deps.
      destruct (link_implicit_deps_spec E t other_files input_deps)
        as (rest & ->).
      rewrite nth_error_app1.
      - now apply map_nth_error.
      - rewrite length_map. apply nth_error_Some. congruence. }
    assert (Hso : nth_error solibs i = Some (link_output_file D)).
    { subst solibs. rewrite link_solibs_spec. now apply map_nth_error. }
    repeat split.
    + destruct implicit_deps; [now destruct i | reflexivity].
    + destruct solibs; [now destruct i | reflexivity].
    + now exists i.
  - intro Heq. split.
    + apply link_direct_inputs_are_inputs.
    + rewrite link_direct_inputs_spec.
      apply in_split in HD. destruct HD as (l1 & l2 & ->).
      rewrite flat_map_app. simpl.
      unfold is_direct at 2. rewrite Hskip, Heq, String.eqb_refl. simpl.
      eexists _, _. reflexivity.
Qed.

Lemma C2_witness :
  In SharedLibrary.lib_s
     (linkable_deps (GetClassifiedDeps SharedLibrary.linking
                                       SharedLibrary.app)) /\
  is_skipped SharedLibrary.lib_s = false /\
  dependency_output_file SharedLibrary.lib_s
  <> link_output_file SharedLibrary.lib_s /\
  exists i,
    nth_error (link_implicit_deps SharedLibrary.linking SharedLibrary.app
                                  [] []) i
    = Some "libs.so.TOC"%string /\
    nth_error (link_solibs SharedLibrary.linking SharedLibrary.app) i
    = Some "./libs.so"%string.
Proof.
  assert (HD : In SharedLibrary.lib_s
                  (linkable_deps (GetClassifiedDeps SharedLibrary.linking
                                                    SharedLibrary.app)))
    by (left; reflexivity).
  assert (Hneq : dependency_output_file SharedLibrary.lib_s
                 <> link_output_file SharedLibrary.lib_s)
    by discriminate.
  split; [exact HD | split; [reflexivity | split; [exact Hneq|]]].
  destruct (C2_linkable_deps_on_link_edge
              SharedLibrary.linking SharedLibrary.app
              (mkTool (kOtherTool "link") ["{{target_output_name}}"%string]
                      [] PCH_NONE)
              ["main.o"%string] [] [] Examples.idle SharedLibrary.lib_s
              eq_refl HD eq_refl)
    as (_ & Hshared & _).
  destruct (Hshared Hneq) as (_ & _ & i & Hi).
  exists i. exact Hi.
Defined.

(** C3, as amended.  The PCH writer goes through the four tool kinds C,
    C++, ObjC, ObjC++.  For each of them it writes exactly one PCH build
    edge -- the target's precompiled-header source compiled with that
    tool, to the tool's PCH outputs -- when the target has precompiled
    headers, the tool exists, the target uses sources of that language,
    the PCH output list of the tool is not empty, and the tool's dialect is
    other than none for C and C++, GCC for ObjC and ObjC++; it writes no
    edge for that tool otherwise. *)
Theorem C3_one_pch_edge_per_language
    (E : Externals) (t : Target) (input_deps order_only_deps : list OutputFile)
    (s : Scheduler) (l : PCHLanguage) :
  edges_with_rule (pch_tool_name l)
    (written (WritePCHCommands E t input_deps order_only_deps ([], []) s))
  = if negb (is_none (pch_dialect E t l))
    then [CompilerBuildLine [precompiled_source (config_values t)]
                            input_deps order_only_deps (pch_tool_name l)
                            (GetPCHOutputFiles E t (pch_tool_name l)) None]
    else [].
Proof.
  destruct (WritePCHCommands_spec E t input_deps order_only_deps s)
    as (w & Hrun & Hedges & _).
  rewrite Hrun. cbn [written]. apply Hedges.
Qed.

(** C3 as stated fails: an ObjC tool with the MSVC dialect gets no PCH
    edge. *)
Lemma C3_counterexample :
  ~ one_pch_edge_per_dialect MsvcObjC.msvc MsvcObjC.objc LangObjC [] []
      Examples.idle.
Proof.
  intro H. unfold one_pch_edge_per_dialect in H.
  assert (Htool : exists tool,
             GetToolAsC (toolchain MsvcObjC.objc) (pch_tool_name LangObjC)
             = Some tool /\
             precompiled_header_type tool <> PCH_NONE).
  { eexists. split; [reflexivity | discriminate]. }
  specialize (H Htool eq_refl). vm_compute in H. discriminate.
Qed.



(** C5.  For every compile edge written by the C-family source block and
    every module-dep record R: the edge has a single source S of the
    target and a first output; its implicit inputs are the input deps, then
    some of the pch deps, then the module inputs; R's [.pcm] is among the
    module inputs if and only if it is not the first output of S; and,
    when R's [.pcm] is not also one of the input deps or pch deps, it is
    among the implicit inputs of the edge if and only if it is not the
    first output of S. *)
Theorem C5_pcm_in_implicit_inputs
    (E : Externals) (t : Target)
    (pch_deps input_deps order_only_deps : list OutputFile)
    (module_dep_info : list ModuleDep)
    (files : list OutputFile * list SourceFile) (s : Scheduler)
    (R : ModuleDep)
    (srcs : list SourceFile) (deps order_only : list OutputFile)
    (tool_name : ToolName) (outs : list OutputFile) (info : option bool) :
  In (CompilerBuildLine srcs deps order_only tool_name outs info)
     (written (WriteSources E t pch_deps input_deps order_only_deps
                            module_dep_info files s)) ->
  In R module_dep_info ->
  exists S first rest pch_part,
    srcs = [S] /\ In S (sources t) /\
    GetOutputFilesForSource E t S = (true, tool_name, outs) /\
    outs = first :: rest /\
    incl pch_part pch_deps /\
    deps = input_deps ++ pch_part ++ module_inputs outs module_dep_info /\
    (In (pcm R) (module_inputs outs module_dep_info) <-> pcm R <> first) /\
    (~ In (pcm R) input_deps -> ~ In (pcm R) pch_deps ->
     (In (pcm R) deps <-> pcm R <> first)).
Proof.
  intros Hin HR.
  destruct (WriteSources E t pch_deps input_deps order_only_deps
              module_dep_info files s) as [r w s'] eqn:Hrun.
  apply WriteSources_spec in Hrun. destruct Hrun as (_ & Hitems & _).
  cbn [written] in Hin.
  destruct (Hitems _ Hin) as [Hp|[Hp|(S & HS & Hedge)]]; try discriminate.
  destruct Hedge as (tn & touts & tool & pch_part & Hout & _ & _ & Hincl
                     & Hne & Heq).
  injection Heq as Hsrcs Hdeps Hoo Htn Houts Hinfo.
  subst srcs deps tn touts.
  destruct outs as [|first rest].
  { exfalso. apply Hne; [|reflexivity]. intros ->. destruct HR. }
  assert (Hmod : In (pcm R) (module_inputs (first :: rest) module_dep_info)
                 <-> pcm R <> first).
  { unfold module_inputs. rewrite filter_In. split.
    - intros (_ & Hneq) Heq. rewrite Heq, String.eqb_refl in Hneq.
      discriminate.
    - intro Hneq. split; [now apply in_map|].
      destruct (String.eqb first (pcm R)) eqn:Heqb; [|reflexivity].
      apply String.eqb_eq in Heqb. congruence. }
  exists S, first, rest, pch_part.
  repeat split; try assumption; try reflexivity; try apply Hmod.
  - intros Hdeps. apply in_app_or in Hdeps. destruct Hdeps as [Hd|Hd];
      [contradiction|].
    apply in_app_or in Hd. destruct Hd as [Hd|Hd].
    + exfalso. auto.
    + now apply Hmod.
  - intro Hneq. apply in_or_app. right. apply in_or_app. right.
    now apply Hmod.
Qed.

Lemma C5_witness :
  In ModuleEdges.cc_edge
     (written (WriteSources StaticLibraries.plain ModuleMaps.modular [] [] []
                            [ModuleEdges.self_record] ([], [])
                            Examples.idle)) /\
  (In "a.pcm"%string ["a.pcm"%string] <-> "a.pcm"%string <> "a.o"%string).
Proof.
  assert (Hin : In ModuleEdges.cc_edge
                   (written (WriteSources StaticLibraries.plain
                               ModuleMaps.modular [] [] []
                               [ModuleEdges.self_record] ([], [])
                               Examples.idle))).
  { vm_compute. right. right. left. reflexivity. }
  split; [exact Hin|].
  destruct (C5_pcm_in_implicit_inputs _ _ _ _ _ _ _ _
              ModuleEdges.self_record _ _ _ _ _ _ Hin (or_introl eq_refl))
    as (S & first & rest & pch_part & _ & _ & _ & Houts & _ & _ & _ & Hiff).
  injection Houts as <- <-.
  apply Hiff; intros [].
Defined.

(** C6, as amended.  If any module dependency records exist and the target
    has C++ or module-map sources, the variable block writes, between the
    compiler variables and the shared variables, each of the two
    module-file substitution variables that the toolchain uses: the first
    built from all the records (the target's own included), the second
    from the records that are not the target's own.  The value of each
    begins with [-Xclang -fmodules-embed-all-files] and goes on with one
    [-fmodule-file=<path>] argument per selected record, for an escaping
    that leaves these two flags alone. *)
Theorem C6_module_file_variables
    (E : Externals) (t : Target) (module_dep_info : list ModuleDep)
    (s : Scheduler) (R : Renderer) :
  module_dep_info <> [] ->
  Get (source_types_used t) SOURCE_CPP
  || Get (source_types_used t) SOURCE_MODULEMAP = true ->
  EscapeString R "-fmodules-embed-all-files" = "-fmodules-embed-all-files" ->
  EscapeString R "-fmodule-file=" = "-fmodule-file=" ->
  written (WriteCompilerVars E t module_dep_info s)
  = [CCompilerVars]
    ++ (if used (toolchain t) CSubstitutionModuleDeps
        then module_variable E CSubstitutionModuleDeps module_dep_info
        else [])
    ++ (if used (toolchain t) CSubstitutionModuleDepsNoSelf
        then module_variable E CSubstitutionModuleDepsNoSelf
                             (filter not_self module_dep_info)
        else [])
    ++ [SharedVars] /\
  forall substitution records,
    render R (module_variable E substitution records)
    = (ninja_name E substitution
       ++ " = -Xclang -fmodules-embed-all-files"
       ++ fold_right (fun r rest =>
                        " -fmodule-file=" ++ WriteFile R (pcm r) ++ rest)
                     nl records)%string.
Proof.
  intros Hne Hsrc Hembed Hfile. split.
  - unfold WriteCompilerVars, WriteModuleDepsSubstitution, module_variable.
    destruct module_dep_info as [|r0 rest]; [congruence|].
    rewrite Hsrc, filter_selected_all, filter_selected_not_self.
    destruct (used (toolchain t) CSubstitutionModuleDeps);
      destruct (used (toolchain t) CSubstitutionModuleDepsNoSelf);
      cbn [written bind emit ret result sched app];
      repeat first [rewrite <- app_assoc | rewrite app_nil_r
                   | progress cbn [app]];
      reflexivity.
  - intros substitution records. unfold module_variable.
    rewrite render_app, (render_module_arguments R records Hfile).
    cbn [render fold_right render_item]. rewrite Hembed.
    rewrite !append_assoc. reflexivity.
Qed.

Lemma C6_witness :
  written (WriteCompilerVars StaticLibraries.plain ModuleMaps.modular
                             [ModuleEdges.self_record] Examples.idle)
  = [CCompilerVars]
    ++ module_variable StaticLibraries.plain CSubstitutionModuleDeps
                       [ModuleEdges.self_record]
    ++ module_variable StaticLibraries.plain CSubstitutionModuleDepsNoSelf []
    ++ [SharedVars] /\
  render Rendering.ninja
         (module_variable StaticLibraries.plain CSubstitutionModuleDeps
                          [ModuleEdges.self_record])
  = ("module_deps = -Xclang -fmodules-embed-all-files -fmodule-file=a.pcm"
     ++ nl)%string.
Proof.
  assert (Hne : [ModuleEdges.self_record] <> []) by discriminate.
  destruct (C6_module_file_variables
              StaticLibraries.plain ModuleMaps.modular [ModuleEdges.self_record]
              Examples.idle Rendering.ninja Hne eq_refl eq_refl eq_refl)
    as (Hw & Hr).
  split; [exact Hw|].
  exact (Hr CSubstitutionModuleDeps [ModuleEdges.self_record]).
Defined.

(** C6 as stated fails: a toolchain that does not use the module
    substitutions gets neither variable. *)
Lemma C6_counterexample :
  ~ both_module_variables_written StaticLibraries.plain Rendering.unused
      [ModuleEdges.self_record] Examples.idle.
Proof.
  intro H. unfold both_module_variables_written in H.
  assert (Hne : [ModuleEdges.self_record] <> []) by discriminate.
  specialize (H Hne eq_refl). vm_compute in H. discriminate.
Qed.


(** C8, as amended.  When a target that exports a module map -- the target
    being written or one of its linked dependencies -- yields zero or more
    than one output for its module-map source, the [CHECK] of
    [GetModuleDepsInformation] is fatal: the process is terminated before
    anything is written and nothing is reported to the scheduler. *)
Theorem C8_bad_modulemap_outputs_are_fatal
    (E : Externals) (t d : Target) (s : Scheduler) :
  d = t \/ In d (linked_deps t) ->
  exports_modulemap d -> bad_modulemap_outputs E d ->
  Run E t s = mkOutcome Fatal [] s.
Proof.
  intros Hd Hexp Hbad.
  unfold Run, Run_compile.
  rewrite (GetModuleDepsInformation_bad_outputs E t d Hd Hexp Hbad).
  reflexivity.
Qed.

Lemma C8_witness :
  exports_modulemap ModuleMaps.modular /\
  bad_modulemap_outputs ModuleMaps.two_pcm ModuleMaps.modular /\
  Run ModuleMaps.two_pcm ModuleMaps.modular Examples.idle
  = mkOutcome Fatal [] Examples.idle.
Proof.
  assert (Hexp : exports_modulemap ModuleMaps.modular) by reflexivity.
  assert (Hbad : bad_modulemap_outputs ModuleMaps.two_pcm ModuleMaps.modular).
  { exists (mkSourceFile "a.modulemap" SOURCE_MODULEMAP), true,
      (kOtherTool "cxx_module"), ["a.pcm"; "a.pcm.d"]%string.
    repeat split; try reflexivity. right. simpl. lia. }
  split; [exact Hexp | split; [exact Hbad|]].
  apply (C8_bad_modulemap_outputs_are_fatal
           ModuleMaps.two_pcm ModuleMaps.modular ModuleMaps.modular
           Examples.idle (or_introl eq_refl) Hexp Hbad).
Defined.

(** C8 as stated fails: with two outputs for the module map the emitter
    does not return and reports nothing. *)
Lemma C8_counterexample :
  ~ modulemap_error_is_reported ModuleMaps.two_pcm ModuleMaps.modular
      Examples.idle.
Proof.
  intro H.
  destruct H as [H _].
  - reflexivity.
  - exists (mkSourceFile "a.modulemap" SOURCE_MODULEMAP), true,
      (kOtherTool "cxx_module"), ["a.pcm"; "a.pcm.d"]%string.
    repeat split; try reflexivity. right. simpl. lia.
  - vm_compute in H. discriminate.
Qed.

(** C9.  Emission is deterministic: from any two states of the scheduler --
    in particular the state a first run leaves behind -- the emitter
    returns the same result and appends the same items, hence the same
    bytes, to its output buffer. *)
Theorem C9_emission_is_deterministic
    (E : Externals) (t : Target) (R : Renderer) (s1 s2 : Scheduler) :
  result (Run E t s1) = result (Run E t s2) /\
  written (Run E t s1) = written (Run E t s2) /\
  render R (written (Run E t s1)) = render R (written (Run E t s2)) /\
  written (Run E t (sched (Run E t s1))) = written (Run E t s1).
Proof.
  destruct (uniform_Run E t) as (r & w & errs & H).
  rewrite !H. simpl. repeat split; reflexivity.
Qed.

(** C10.  In a target compiled by the C-family source block, take a source
    for which the target reports output files but the none tool, and which
    is not a module map.  The source block writes no build edge for it.
    When emission reaches the duplicate check, its first output is in the
    final object-file list; that list is the one the duplicate check runs
    on, and when it has no duplicate, the target is not a source set and
    the final tool exists, it is written as the object files of the link
    edge. *)
Theorem C10_sources_without_tool_are_linked
    (E : Externals) (t : Target) (s : Scheduler)
    (c : Compiled) (w : list Item) (s1 : Scheduler)
    (source : SourceFile) (first : OutputFile) (rest : list OutputFile) :
  Run_compile E t s = mkOutcome (Value c) w s1 ->
  SwiftSourceUsed (source_types_used t) = false ->
  In source (sources t) ->
  GetOutputFilesForSource E t source = (true, kToolNone, first :: rest) ->
  IsModuleMapType source = false ->
  (forall pch_deps input_deps order_only_deps module_dep_info files s'
          deps order_only tool_name outs info,
      ~ In (CompilerBuildLine [source] deps order_only tool_name outs info)
           (written (WriteSources E t pch_deps input_deps order_only_deps
                                  module_dep_info files s'))) /\
  In first (obj_files c) /\
  Run E t s
  = mkOutcome (result (Run_finish E t c s))
              (w ++ written (Run_finish E t c s))
              (sched (Run_finish E t c s)) /\
  (NoDup (obj_files c) -> output_type t <> SOURCE_SET ->
   forall tool_,
     GetToolForTargetFinalOutputAsC E t = Some tool_ ->
     exists after,
       written (Run E t s)
       = w ++ link_line_start E t tool_ (obj_files c) ++ after).
Proof.
  intros Hc Hswift Hin Hout Hmm.
  assert (Hs : s1 = s)
    by exact (silent_sched _ _ _ _ _ (silent_Run_compile E t) Hc).
  subst s1.
  assert (Hrun : Run E t s
                 = mkOutcome (result (Run_finish E t c s))
                             (w ++ written (Run_finish E t c s))
                             (sched (Run_finish E t c s))).
  { unfold Run. now rewrite (bind_value _ _ _ _ _ _ Hc). }
  split; [|split; [|split; [exact Hrun|]]].
  - intros pch_deps id ood mdi files s' deps order_only tool_name outs info
           Hedge.
    destruct (WriteSources E t pch_deps id ood mdi files s')
      as [r' w' s''] eqn:Hw.
    apply WriteSources_spec in Hw. destruct Hw as (_ & Hitems & _).
    cbn [written] in Hedge.
    destruct (Hitems _ Hedge) as [Hp|[Hp|(S & _ & Hse)]]; try discriminate.
    destruct Hse as (tn & touts & tool & pch_part & Hout' & Hne & _ & _ & _
                     & Heq).
    injection Heq as HS _ _ Htn _. subst S tn.
    rewrite Hout in Hout'. injection Hout' as Htn _. congruence.
  - destruct (Run_compile_inv E t s c w s Hc)
      as (mdi & wp & objs & wsrc & _ & _ & Hsrc & Hobj & _).
    unfold source_block in Hsrc. rewrite Hswift in Hsrc. simpl in Hsrc.
    apply WriteSources_spec in Hsrc. destruct Hsrc as (_ & _ & Hobjs).
    rewrite Hobj, (Hobjs objs (other_files c) eq_refl). simpl.
    apply in_or_app. left. apply in_flat_map. exists source.
    split; [assumption|].
    unfold source_object. rewrite Hout, Hmm. simpl. now left.
  - intros Hnd Hset tool_ Htool.
    rewrite Hrun. cbn [written]. unfold Run_finish.
    rewrite (bind_value _ _ _ _ _ _
               (CheckForDuplicateObjectFiles_NoDup t (obj_files c) s Hnd)).
    cbn [negb app written].
    assert (Hlink :
              written (match output_type t with
                       | SOURCE_SET => WriteSourceSetStamp (obj_files c)
                       | _ => WriteLinkerStuff E t (obj_files c)
                                               (other_files c) (input_deps c)
                       end s)
              = written (WriteLinkerStuff E t (obj_files c) (other_files c)
                                          (input_deps c) s)).
    { destruct (output_type t); congruence. }
    rewrite Hlink, (WriteLinkerStuff_written E t _ _ _ _ tool_ Htool).
    eexists. reflexivity.
Qed.

Lemma C10_witness :
  Run_compile StaticLibraries.plain PrebuiltObject.with_object Examples.idle
  = mkOutcome (Value PrebuiltObject.with_object_compiled)
              PrebuiltObject.with_object_written Examples.idle /\
  In "pre/built.o"%string (obj_files PrebuiltObject.with_object_compiled).
Proof.
  assert (Hc : Run_compile StaticLibraries.plain PrebuiltObject.with_object
                           Examples.idle
               = mkOutcome (Value PrebuiltObject.with_object_compiled)
                           PrebuiltObject.with_object_written Examples.idle)
    by (vm_compute; reflexivity).
  split; [exact Hc|].
  destruct (C10_sources_without_tool_are_linked
              StaticLibraries.plain PrebuiltObject.with_object Examples.idle
              _ _ _ PrebuiltObject.prebuilt "pre/built.o"%string []
              Hc eq_refl (or_intror (or_introl eq_refl)) eq_refl eq_refl)
    as (_ & Hin & _).
  exact Hin.
Defined.


(** * Further properties *)

(** ** Module dependency records *)

Section ModuleRecords.

Variable E : Externals.

Lemma add_value ret_ d self recs :
  add E ret_ d self = Value recs ->
  exists r, recs = ret_ ++ [r] /\ record_of E d self r.
Proof.
  unfold add.
  destruct (GetModuleMapFromTargetSources d) as [m|] eqn:Hm; [|discriminate].
  destruct (GetTargetSubstitution E d SubstitutionLabelNoToolchain)
    as [lbl|] eqn:Hl; [|discriminate].
  destruct (GetOutputFilesForSource E d m) as [[ok tool_type] outs] eqn:Ho.
  destruct ok; [|discriminate].
  destruct outs as [|out [|out' outs]]; try discriminate.
  intro H. injection H as <-.
  exists (mkModuleDep m lbl out self). split; [reflexivity|].
  unfold record_of. simpl. repeat split; try assumption.
  now exists tool_type.
Qed.

Lemma add_linked_value deps :
  forall ret_ recs,
    add_linked E ret_ deps = Value recs ->
    exists dep_recs,
      recs = ret_ ++ dep_recs /\
      Forall2 (fun d r => record_of E d false r)
              (filter uses_modulemap deps) dep_recs.
Proof.
  induction deps as [|dep rest IH]; intros ret_ recs H; simpl in H.
  - injection H as <-. exists []. split; [now rewrite app_nil_r|].
    constructor.
  - simpl. unfold uses_modulemap at 1.
    destruct (Get (source_types_used dep) SOURCE_MODULEMAP).
    + destruct (add E ret_ dep false) as [ret'|] eqn:Hadd; [|discriminate].
      apply add_value in Hadd. destruct Hadd as (r & -> & Hr).
      apply IH in H. destruct H as (dep_recs & -> & Hall).
      exists (r :: dep_recs). split; [now rewrite <- app_assoc|].
      now constructor.
    + now apply IH.
Qed.

Lemma not_self_dep_records deps dep_recs :
  Forall2 (fun d r => record_of E d false r) deps dep_recs ->
  filter (selected false) dep_recs = dep_recs.
Proof.
  induction 1 as [|d r deps' recs' Hr _ IH]; [reflexivity|].
  simpl. destruct Hr as (Hself & _). unfold selected at 1.
  rewrite Hself. simpl. now rewrite IH.
Qed.

End ModuleRecords.

(** X1.  When [GetModuleDepsInformation] returns, its records are: first
    the record of the target itself, marked as self, if the target has a
    module map; then, in the order of the linked deps, one record not
    marked as self for every linked dep that has a module map.  Each
    record holds the first module-map source of its target, the label of
    that target and the single output reported for that source.  The
    records selected without self are exactly those of the deps. *)
Theorem X1_module_records_shape
    (E : Externals) (t : Target) (recs : list ModuleDep) :
  GetModuleDepsInformation E t = Value recs ->
  exists self_recs dep_recs,
    recs = self_recs ++ dep_recs /\
    (if uses_modulemap t
     then exists r, self_recs = [r] /\ record_of E t true r
     else self_recs = []) /\
    Forall2 (fun d r => record_of E d false r)
            (filter uses_modulemap (linked_deps t)) dep_recs /\
    filter (selected false) recs = dep_recs.
Proof.
  unfold GetModuleDepsInformation, uses_modulemap at 1.
  destruct (Get (source_types_used t) SOURCE_MODULEMAP).
  - destruct (add E [] t true) as [ret_|] eqn:Hadd; [|discriminate].
    apply add_value in Hadd. destruct Hadd as (r & -> & Hr).
    intro H. apply add_linked_value in H.
    destruct H as (dep_recs & -> & Hall).
    exists [r], dep_recs. split; [reflexivity|].
    split; [now exists r|]. split; [exact Hall|].
    simpl. destruct Hr as (Hself & _). unfold selected at 1.
    rewrite Hself. simpl. exact (not_self_dep_records E _ _ Hall).
  - intro H. apply add_linked_value in H.
    destruct H as (dep_recs & -> & Hall).
    exists [], dep_recs. split; [reflexivity|]. split; [reflexivity|].
    split; [exact Hall|].
    simpl. exact (not_self_dep_records E _ _ Hall).
Qed.

Lemma X1_witness :
  GetModuleDepsInformation StaticLibraries.plain ModuleMaps.modular
  = Value [ModuleEdges.self_record] /\
  exists dep_recs,
    filter (selected false) [ModuleEdges.self_record] = dep_recs /\
    Forall2 (fun d r => record_of StaticLibraries.plain d false r)
            [] dep_recs.
Proof.
  assert (H : GetModuleDepsInformation StaticLibraries.plain
                                       ModuleMaps.modular
              = Value [ModuleEdges.self_record]) by reflexivity.
  split; [exact H|].
  destruct (X1_module_records_shape _ _ _ H)
    as (self_recs & dep_recs & _ & _ & Hall & Hsel).
  exists dep_recs. split; [exact Hsel | exact Hall].
Defined.

(** X2.  [GetModuleDepsInformation] returns the empty list exactly when
    neither the target nor any of its linked deps has a module map; in that
    case no [CHECK] is reached, whatever the toolchain reports. *)
Theorem X2_no_module_records_iff_no_modulemap
    (E : Externals) (t : Target) :
  GetModuleDepsInformation E t = Value []
  <-> uses_modulemap t = false /\
      forall d, In d (linked_deps t) -> uses_modulemap d = false.
Proof.
  split.
  - intro H. destruct (X1_module_records_shape E t [] H)
      as (self_recs & dep_recs & Hsplit & Hself & Hall & _).
    symmetry in Hsplit. apply app_eq_nil in Hsplit.
    destruct Hsplit as (-> & ->).
    split.
    + destruct (uses_modulemap t); [|reflexivity].
      destruct Hself as (r & Hr & _). discriminate.
    + intros d Hd. inversion Hall as [Hnil|]; subst.
      destruct (uses_modulemap d) eqn:Hu; [|reflexivity].
      assert (Hin : In d (filter uses_modulemap (linked_deps t)))
        by (apply filter_In; auto).
      rewrite <- Hnil in Hin. destruct Hin.
  - intros (Hself & Hdeps).
    unfold GetModuleDepsInformation. unfold uses_modulemap in Hself.
    rewrite Hself.
    induction (linked_deps t) as [|dep rest IH]; [reflexivity|].
    simpl. specialize (Hdeps dep (or_introl eq_refl)) as Hdep.
    unfold uses_modulemap in Hdep. rewrite Hdep.
    apply IH. intros d Hd. apply Hdeps. now right.
Qed.

(** ** Strings *)

Lemma length_append (a b : string) :
  String.length (a ++ b) = String.length a + String.length b.
Proof. induction a as [|c a IH]; simpl; [reflexivity | now rewrite IH]. Qed.

Lemma substring_all (s : string) : substring 0 (String.length s) s = s.
Proof. induction s as [|c s IH]; simpl; [reflexivity | now rewrite IH]. Qed.

Lemma substring_skip (p s : string) (n : nat) :
  substring (String.length p) n (p ++ s) = substring 0 n s.
Proof. induction p as [|c p IH]; simpl; [reflexivity | exact IH]. Qed.

Lemma substring_split (n : nat) :
  forall s, n <= String.length s ->
            s = (substring 0 n s
                 ++ substring n (String.length s - n) s)%string.
Proof.
  induction n as [|n IH]; intros s Hn.
  - rewrite Nat.sub_0_r, substring_all. now destruct s.
  - destruct s as [|c s]; simpl in Hn; [lia|].
    simpl. f_equal. apply IH. lia.
Qed.

(** The comparison at the end of the pch loop is a suffix test. *)
Lemma compare_tail_true (output_value output_extension : string) :
  compare_tail output_value output_extension = Value true
  <-> ends_with output_value output_extension.
Proof.
  unfold compare_tail, ends_with. split.
  - destruct (Nat.leb (String.length output_extension)
                      (String.length output_value)) eqn:Hle;
      [|discriminate].
    apply Nat.leb_le in Hle. intro H. injection H as H.
    apply String.eqb_eq in H.
    set (n := String.length output_value
              - String.length output_extension) in *.
    assert (Hn : n <= String.length output_value) by (subst n; lia).
    pose proof (substring_split n output_value Hn) as Hs.
    replace (String.length output_value - n)
      with (String.length output_extension) in Hs by (subst n; lia).
    rewrite H in Hs. now exists (substring 0 n output_value).
  - intros (before & ->).
    rewrite length_append.
    replace (Nat.leb (String.length output_extension)
                     (String.length before
                      + String.length output_extension))
      with true by (symmetry; apply Nat.leb_le; lia).
    replace (String.length before + String.length output_extension
             - String.length output_extension)
      with (String.length before) by lia.
    now rewrite substring_skip, substring_all, String.eqb_refl.
Qed.

(** ** The C-family source block, exactly *)

Section ExactSourceBlock.

Variable E : Externals.
Variable target_ : Target.
Variables pch_deps input_deps order_only_deps : list OutputFile.
Variable module_dep_info : list ModuleDep.

Lemma pch_dep_step_matches tool tool_name deps dep :
  pch_dep_step E tool tool_name deps dep
  = rbind (pch_dep_matches E tool tool_name dep)
          (fun same => Value (if same then deps ++ [dep] else deps)).
Proof.
  unfold pch_dep_step, pch_dep_matches.
  destruct (FindExtensionOffset E dep) as [offset|]; [|reflexivity].
  destruct (precompiled_header_type tool); simpl.
  - now destruct (compare_tail dep EmptyString).
  - now destruct (compare_tail dep (GetGCCPCHOutputExtension E tool_name)).
  - destruct (substr_before dep offset); [|reflexivity]. simpl.
    now destruct (compare_tail dep _).
Qed.

Lemma fold_pch_dep_step_exact tool tool_name pchs :
  forall deps deps',
    fold_result (pch_dep_step E tool tool_name) pchs deps = Value deps' ->
    deps' = deps ++ filter (pch_dep_kept E tool tool_name) pchs.
Proof.
  induction pchs as [|dep pchs IH]; intros deps deps' H; simpl in H.
  - injection H as <-. simpl. now rewrite app_nil_r.
  - rewrite pch_dep_step_matches in H. simpl. unfold pch_dep_kept at 1.
    destruct (pch_dep_matches E tool tool_name dep) as [[|]|];
      simpl in H; try discriminate; apply IH in H; subst deps'.
    + now rewrite <- app_assoc.
    + reflexivity.
Qed.

(** One iteration of the loop of [WriteSources], with the edge and the
    other files spelled out. *)
Lemma WriteSources_source_exact files source s r w s' :
  WriteSources_source E target_ pch_deps input_deps order_only_deps
                      module_dep_info files source s
  = mkOutcome r w s' ->
  (w = [] \/
   exists edge,
     exact_source_edge E target_ pch_deps input_deps order_only_deps
                       module_dep_info source edge /\
     w = [edge; Pool]) /\
  (forall objs others,
      r = Value (objs, others) ->
      others = snd files
               ++ (if def_without_output E target_ source
                   then [source] else []) /\
      flat_map edge_summary w
      = if has_compile_tool E target_ source
        then [([source], source_rule E target_ source,
               source_outputs E target_ source)]
        else []).
Proof.
  unfold WriteSources_source, def_without_output, has_compile_tool,
    source_rule, source_outputs.
  destruct files as [objs0 others0].
  destruct (GetOutputFilesForSource E target_ source)
    as [[ok tool_name] tool_outputs] eqn:Hout.
  destruct ok; simpl.
  2:{ intro H. inversion H; subst. split; [now left|].
      intros objs others Hv. inversion Hv; subst. split; [|reflexivity].
      destruct (IsDefType source); [reflexivity | now rewrite app_nil_r]. }
  destruct (ToolName_eqb tool_name kToolNone) eqn:Hnone; simpl.
  - destruct (IsModuleMapType source); simpl.
    + intro H. inversion H; subst. split; [now left|].
      intros objs others Hv. inversion Hv. now rewrite app_nil_r.
    + destruct tool_outputs as [|first rest]; intro H; inversion H; subst;
        (split; [now left|]); intros objs others Hv;
        [discriminate | inversion Hv; now rewrite app_nil_r].
  - assert (Hne : tool_name <> kToolNone).
    { intro Heq. apply ToolName_eqb_eq in Heq. congruence. }
    destruct (GetToolAsC (toolchain target_) tool_name) as [tool|] eqn:Htool.
    2:{ intro H. inversion H; subst. split; [now left|].
        intros objs others Hv. discriminate. }
    set (pch := if negb (is_none (precompiled_header_type tool))
                then fold_result (pch_dep_step E tool tool_name) pch_deps
                                 input_deps
                else Value input_deps).
    assert (Hpch : forall deps1, pch = Value deps1 ->
                   deps1 = input_deps
                           ++ pch_inputs E tool tool_name pch_deps).
    { subst pch. intros deps1 H. unfold pch_inputs.
      destruct (is_none (precompiled_header_type tool)); simpl in H.
      - injection H as <-. now rewrite app_nil_r.
      - now apply fold_pch_dep_step_exact in H. }
    destruct pch as [deps1|].
    2:{ intro H. inversion H; subst. split; [now left|].
        intros objs others Hv. discriminate. }
    rewrite (Hpch deps1 eq_refl).
    unfold bind at 1. unfold bind at 1. unfold bind at 1. simpl.
    destruct (fold_result (module_dep_step tool_outputs) module_dep_info
                          (input_deps
                           ++ pch_inputs E tool tool_name pch_deps))
      as [deps2|] eqn:Hmod; simpl.
    2:{ intro H. inversion H; subst. split; [now left|].
        intros objs others Hv. discriminate. }
    apply fold_module_dep_step in Hmod. destruct Hmod as [-> _].
    assert (Hedge :
              exact_source_edge E target_ pch_deps input_deps
                order_only_deps module_dep_info source
                (CompilerBuildLine
                   [source]
                   ((input_deps ++ pch_inputs E tool tool_name pch_deps)
                    ++ module_inputs tool_outputs module_dep_info)
                   order_only_deps tool_name tool_outputs None)).
    { exists tool_name, tool_outputs, tool.
      repeat split; try assumption. now rewrite <- app_assoc. }
    destruct (IsModuleMapType source); simpl.
    + intro H. inversion H; subst. split.
      * right. eexists. split; [exact Hedge | reflexivity].
      * intros objs others Hv. inversion Hv. now rewrite app_nil_r.
    + destruct tool_outputs as [|first rest]; intro H; inversion H; subst;
        (split; [right; eexists; split; [exact Hedge | reflexivity]|]);
        intros objs others Hv;
        [discriminate | inversion Hv; now rewrite app_nil_r].
Qed.

Lemma WriteSources_loop_exact srcs :
  forall files s r w s',
    for_each (WriteSources_source E target_ pch_deps input_deps
                                  order_only_deps module_dep_info)
             srcs files s
    = mkOutcome r w s' ->
    (forall item,
        In item w ->
        item = Pool \/
        exists source,
          In source srcs /\
          exact_source_edge E target_ pch_deps input_deps order_only_deps
                            module_dep_info source item) /\
    (forall objs others,
        r = Value (objs, others) ->
        others = snd files ++ filter (def_without_output E target_) srcs /\
        flat_map edge_summary w
        = map (fun source => ([source], source_rule E target_ source,
                              source_outputs E target_ source))
              (filter (has_compile_tool E target_) srcs)).
Proof.
  induction srcs as [|source srcs IH]; intros files s r w s' H; simpl in H.
  - inversion H; subst. split; [intros item []|].
    intros objs others Hv. inversion Hv. simpl. now rewrite app_nil_r.
  - unfold bind in H.
    destruct (WriteSources_source E target_ pch_deps input_deps
                order_only_deps module_dep_info files source s)
      as [r1 w1 s1] eqn:Hstep.
    apply WriteSources_source_exact in Hstep.
    destruct Hstep as (Hw1 & Hval1).
    assert (Hitems1 : forall item, In item w1 ->
              item = Pool \/
              exact_source_edge E target_ pch_deps input_deps
                order_only_deps module_dep_info source item).
    { intros item Hin. destruct Hw1 as [->|(edge & Hedge & ->)].
      - destruct Hin.
      - destruct Hin as [<-|[<-|[]]]; auto. }
    simpl in H. destruct r1 as [[objs1 others1]|].
    + destruct (for_each _ srcs (objs1, others1) s1) as [r2 w2 s2]
        eqn:Hrest.
      apply IH in Hrest. destruct Hrest as (Hitems2 & Hval2).
      simpl in H. inversion H; subst. split.
      * intros item Hin. apply in_app_or in Hin. destruct Hin as [Hin|Hin].
        -- destruct (Hitems1 item Hin) as [->|Hedge]; [now left|].
           right. exists source. split; [now left | assumption].
        -- destruct (Hitems2 item Hin) as [->|(src & Hsrc & Hedge)];
             [now left|].
           right. exists src. split; [now right | assumption].
      * intros objs others Hv.
        destruct (Hval1 objs1 others1 eq_refl) as (Ho1 & Hs1).
        destruct (Hval2 objs others Hv) as (Ho2 & Hs2).
        simpl in Ho2. split.
        -- rewrite Ho2, Ho1. simpl.
           destruct (def_without_output E target_ source); simpl;
             now rewrite <- app_assoc.
        -- rewrite flat_map_app, Hs1, Hs2. simpl.
           now destruct (has_compile_tool E target_ source).
    + inversion H; subst. split.
      * intros item Hin. destruct (Hitems1 item Hin) as [->|Hedge];
          [now left|].
        right. exists source. split; [now left | assumption].
      * intros objs others Hv. discriminate.
Qed.

Lemma WriteSources_exact files s r w s' :
  WriteSources E target_ pch_deps input_deps order_only_deps
               module_dep_info files s
  = mkOutcome r w s' ->
  (forall item,
      In item w ->
      item = Pool \/ item = Endl \/
      exists source,
        In source (sources target_) /\
        exact_source_edge E target_ pch_deps input_deps order_only_deps
                          module_dep_info source item) /\
  (forall objs others,
      r = Value (objs, others) ->
      others = snd files
               ++ filter (def_without_output E target_) (sources target_) /\
      flat_map edge_summary w
      = map (fun source => ([source], source_rule E target_ source,
                            source_outputs E target_ source))
            (filter (has_compile_tool E target_) (sources target_))).
Proof.
  unfold WriteSources, bind.
  destruct (for_each _ (sources target_) files s) as [r1 w1 s1] eqn:Hloop.
  apply WriteSources_loop_exact in Hloop.
  destruct Hloop as (Hitems & Hval).
  simpl. destruct r1 as [[objs1 others1]|]; simpl; intro H;
    inversion H; subst.
  - split.
    + intros item Hin. apply in_app_or in Hin.
      destruct Hin as [Hin|[<-|[]]]; [|auto].
      destruct (Hitems item Hin) as [->|Hedge]; auto.
    + intros objs others Hv. inversion Hv; subst.
      destruct (Hval objs others eq_refl) as (Ho & Hs).
      split; [exact Ho|].
      rewrite flat_map_app, Hs. simpl. now rewrite app_nil_r.
  - split.
    + intros item Hin. destruct (Hitems item Hin) as [->|Hedge]; auto.
    + intros objs others Hv. discriminate.
Qed.

End ExactSourceBlock.

Lemma find_filter_implies {A} (p q : A -> bool) (l : list A) :
  (forall x, q x = true -> p x = true) ->
  find p (filter q l) = find q l.
Proof.
  intro Hqp. induction l as [|x l IH]; [reflexivity|].
  simpl. destruct (q x) eqn:Hq; [|exact IH].
  simpl. now rewrite (Hqp x Hq).
Qed.

(** The implicit inputs of the link edge, part by part. *)
Lemma link_implicit_deps_parts (E : Externals) (t : Target)
    (others : list SourceFile) (id : list OutputFile) :
  link_implicit_deps E t others id
  = map dependency_output_file
        (filter is_shared (linkable_deps (GetClassifiedDeps E t)))
    ++ match find IsDefType others with
       | Some def => [OutputFileOfSource E def]
       | None => []
       end
    ++ implicit_after_def E t id.
Proof.
  unfold link_implicit_deps, implicit_after_def, link_rlibs.
  now rewrite linkable_deps_loop_spec.
Qed.

(** X3.  When emission reaches the duplicate check for a target without
    Swift sources, the other files handed to the linker are exactly the
    def-type sources for which the target reports no output, in source
    order; for a target with Swift sources the list is empty.  On the link
    edge, the def file is the first such source and later ones are
    ignored: its path is the implicit input written right after the
    dependency outputs of the shared-library deps, before the library
    files, and it is the def file handed to the linker flags of an
    executable, shared library or loadable module.  A target with Swift
    sources has no def file on its link edge. *)
Theorem X3_def_files_of_the_link_edge
    (E : Externals) (t : Target) (s : Scheduler)
    (c : Compiled) (w : list Item) (s1 : Scheduler) :
  Run_compile E t s = mkOutcome (Value c) w s1 ->
  (SwiftSourceUsed (source_types_used t) = false ->
   other_files c = filter (def_without_output E t) (sources t) /\
   find IsDefType (other_files c)
   = find (def_without_output E t) (sources t)) /\
  (SwiftSourceUsed (source_types_used t) = true -> other_files c = []) /\
  forall tool_,
    GetToolForTargetFinalOutputAsC E t = Some tool_ ->
    let link := written (WriteLinkerStuff E t (obj_files c) (other_files c)
                                          (input_deps c) s) in
    let implicit_deps :=
      map dependency_output_file
          (filter is_shared (linkable_deps (GetClassifiedDeps E t)))
      ++ match link_def_file E t with
         | Some def => [OutputFileOfSource E def]
         | None => []
         end
      ++ implicit_after_def E t (input_deps c) in
    (exists after,
        link = link_line_start E t tool_ (obj_files c)
               ++ link_direct_inputs E t
               ++ implicit_section implicit_deps
               ++ after) /\
    (forall def,
        link_def_file E t = Some def ->
        implicit_section implicit_deps = [Text " |"; Files implicit_deps]) /\
    (output_type t = EXECUTABLE \/ output_type t = SHARED_LIBRARY
     \/ output_type t = LOADABLE_MODULE ->
     exists before after,
       link = before
              ++ [Text "  ldflags ="; LinkerFlags (link_def_file E t); Endl]
              ++ after).
Proof.
  intro Hc.
  destruct (Run_compile_inv E t s c w s1 Hc)
    as (mdi & wp & objs & wsrc & _ & _ & Hsrc & _).
  cbv zeta in Hsrc. unfold source_block in Hsrc.
  assert (Hothers :
            (SwiftSourceUsed (source_types_used t) = false ->
             other_files c = filter (def_without_output E t) (sources t) /\
             find IsDefType (other_files c)
             = find (def_without_output E t) (sources t)) /\
            (SwiftSourceUsed (source_types_used t) = true ->
             other_files c = [])).
  { split.
    - intro Hswift. rewrite Hswift in Hsrc. simpl in Hsrc.
      apply WriteSources_exact in Hsrc. destruct Hsrc as (_ & Hval).
      destruct (Hval objs (other_files c) eq_refl) as (Hothers & _).
      simpl in Hothers. rewrite Hothers. split; [reflexivity|].
      apply find_filter_implies. intros x Hx.
      unfold def_without_output in Hx.
      destruct (GetOutputFilesForSource E t x) as [[ok tn] outs].
      now apply andb_prop in Hx.
    - intro Hswift. rewrite Hswift in Hsrc. simpl in Hsrc.
      apply bind_value_inv in Hsrc.
      destruct Hsrc as (objs' & w1 & sa & w2 & _ & Hret & _).
      apply ret_inv in Hret. destruct Hret as (Heq & _).
      now injection Heq. }
  destruct Hothers as (Hc_family & Hswift_block).
  split; [exact Hc_family|]. split; [exact Hswift_block|].
  assert (Hdef : find IsDefType (other_files c) = link_def_file E t).
  { unfold link_def_file.
    destruct (SwiftSourceUsed (source_types_used t)).
    - now rewrite (Hswift_block eq_refl).
    - exact (proj2 (Hc_family eq_refl)). }
  intros tool_ Htool link implicit_deps. subst link.
  rewrite (WriteLinkerStuff_written E t _ _ _ _ _ Htool).
  rewrite link_implicit_deps_parts, Hdef. fold implicit_deps.
  split; [eexists; reflexivity|]. split.
  - intros def Hsome. subst implicit_deps. rewrite Hsome.
    destruct (map dependency_output_file _); reflexivity.
  - intro Htype. unfold link_tail_vars. rewrite Hdef.
    exists (link_line_start E t tool_ (obj_files c)
            ++ link_direct_inputs E t
            ++ implicit_section implicit_deps
            ++ order_only_section
                 (non_linkable_deps (GetClassifiedDeps E t))
            ++ [Endl]).
    eexists.
    destruct Htype as [Ht|[Ht|Ht]]; rewrite Ht;
      rewrite <- !app_assoc; cbn [app]; reflexivity.
Qed.

Lemma X3_witness :
  Run_compile StaticLibraries.plain DefFiles.with_defs Examples.idle
  = mkOutcome (Value DefFiles.with_defs_compiled) DefFiles.with_defs_written
              Examples.idle /\
  other_files DefFiles.with_defs_compiled
  = [DefFiles.def "one.def"; DefFiles.def "two.def"] /\
  link_def_file StaticLibraries.plain DefFiles.with_defs
  = Some (DefFiles.def "one.def") /\
  exists before after,
    written (WriteLinkerStuff StaticLibraries.plain DefFiles.with_defs
               (obj_files DefFiles.with_defs_compiled)
               (other_files DefFiles.with_defs_compiled)
               (input_deps DefFiles.with_defs_compiled) Examples.idle)
    = before
      ++ [Text "  ldflags ="; LinkerFlags (Some (DefFiles.def "one.def"));
          Endl]
      ++ after.
Proof.
  assert (Hc : Run_compile StaticLibraries.plain DefFiles.with_defs
                           Examples.idle
               = mkOutcome (Value DefFiles.with_defs_compiled)
                           DefFiles.with_defs_written Examples.idle)
    by (vm_compute; reflexivity).
  split; [exact Hc|].
  destruct (X3_def_files_of_the_link_edge _ _ _ _ _ _ Hc)
    as (H & _ & Hlink).
  destruct (H eq_refl) as (Hothers & _).
  split; [exact Hothers|]. split; [reflexivity|].
  assert (Htool : exists tool_,
             GetToolForTargetFinalOutputAsC StaticLibraries.plain
                                            DefFiles.with_defs
             = Some tool_) by (eexists; reflexivity).
  destruct Htool as (tool_ & Htool).
  destruct (Hlink tool_ Htool) as (_ & _ & Hflags).
  exact (Hflags (or_intror (or_introl eq_refl))).
Defined.

(** X4.  When the C-family source block completes, the build lines it
    wrote are, in source order, one per source for which the target
    reports outputs and a tool other than the none tool: the line has that
    source as its only input, the reported tool as its rule and the
    reported outputs as its outputs. *)
Theorem X4_one_compile_edge_per_compiled_source
    (E : Externals) (t : Target)
    (pch_deps input_deps order_only_deps : list OutputFile)
    (module_dep_info : list ModuleDep)
    (files : list OutputFile * list SourceFile) (s : Scheduler)
    (r : list OutputFile * list SourceFile) (w : list Item)
    (s' : Scheduler) :
  WriteSources E t pch_deps input_deps order_only_deps module_dep_info
               files s
  = mkOutcome (Value r) w s' ->
  flat_map edge_summary w
  = map (fun source => ([source], source_rule E t source,
                        source_outputs E t source))
        (filter (has_compile_tool E t) (sources t)).
Proof.
  intro H. apply WriteSources_exact in H. destruct H as (_ & Hval).
  destruct r as [objs others].
  now destruct (Hval objs others eq_refl).
Qed.

Lemma X4_witness :
  flat_map edge_summary
    (written (WriteSources StaticLibraries.plain PrebuiltObject.with_object
                           [] [] [] [] ([], []) Examples.idle))
  = [([Examples.cc "a.cc"], kCToolCxx, ["a.o"%string])].
Proof.
  destruct (WriteSources StaticLibraries.plain PrebuiltObject.with_object
                         [] [] [] [] ([], []) Examples.idle)
    as [r w s'] eqn:Hrun.
  assert (Hr : r = Value (["a.o"; "pre/built.o"]%string, [])).
  { apply (f_equal result) in Hrun. vm_compute in Hrun. now symmetry. }
  subst r. cbn [written].
  rewrite (X4_one_compile_edge_per_compiled_source _ _ _ _ _ _ _ _ _ _ _
             Hrun).
  reflexivity.
Defined.

(** ** The pch deps of a compile edge *)

Lemma edge_pch_inputs
    (E : Externals) (t : Target)
    (pch_deps input_deps order_only_deps : list OutputFile)
    (module_dep_info : list ModuleDep)
    (files : list OutputFile * list SourceFile) (s : Scheduler)
    (tool : Tool)
    (srcs : list SourceFile) (deps order_only : list OutputFile)
    (tool_name : ToolName) (outs : list OutputFile) (info : option bool) :
  In (CompilerBuildLine srcs deps order_only tool_name outs info)
     (written (WriteSources E t pch_deps input_deps order_only_deps
                            module_dep_info files s)) ->
  GetToolAsC (toolchain t) tool_name = Some tool ->
  deps = input_deps ++ pch_inputs E tool tool_name pch_deps
         ++ module_inputs outs module_dep_info.
Proof.
  intros Hin Htool.
  destruct (WriteSources E t pch_deps input_deps order_only_deps
              module_dep_info files s) as [r w s'] eqn:Hrun.
  apply WriteSources_exact in Hrun. destruct Hrun as (Hitems & _).
  cbn [written] in Hin.
  destruct (Hitems _ Hin) as [Hp|[Hp|(S & _ & Hedge)]]; try discriminate.
  destruct Hedge as (tn & touts & tool' & _ & _ & Htool' & Heq).
  injection Heq as _ Hdeps _ Htn Houts _. subst tn touts.
  rewrite Htool in Htool'. injection Htool' as <-. exact Hdeps.
Qed.

(** X5.  On a compile edge whose tool has the GCC dialect, the pch deps
    among the implicit inputs -- between the input deps and the module
    inputs -- are, in order, the offered pch files that have an extension
    and whose path ends with the GCC pch extension of that tool. *)
Theorem X5_gcc_pch_deps_are_filtered_by_suffix
    (E : Externals) (t : Target)
    (pch_deps input_deps order_only_deps : list OutputFile)
    (module_dep_info : list ModuleDep)
    (files : list OutputFile * list SourceFile) (s : Scheduler)
    (tool : Tool)
    (srcs : list SourceFile) (deps order_only : list OutputFile)
    (tool_name : ToolName) (outs : list OutputFile) (info : option bool) :
  In (CompilerBuildLine srcs deps order_only tool_name outs info)
     (written (WriteSources E t pch_deps input_deps order_only_deps
                            module_dep_info files s)) ->
  GetToolAsC (toolchain t) tool_name = Some tool ->
  precompiled_header_type tool = PCH_GCC ->
  exists pch_part,
    deps = input_deps ++ pch_part ++ module_inputs outs module_dep_info /\
    pch_part = filter (pch_dep_kept E tool tool_name) pch_deps /\
    forall dep,
      In dep pch_part
      <-> In dep pch_deps /\
          FindExtensionOffset E dep <> None /\
          ends_with dep (GetGCCPCHOutputExtension E tool_name).
Proof.
  intros Hin Htool Hgcc.
  exists (filter (pch_dep_kept E tool tool_name) pch_deps).
  split; [|split; [reflexivity|]].
  - rewrite (edge_pch_inputs _ _ _ _ _ _ _ _ _ _ _ _ _ _ _ Hin Htool).
    unfold pch_inputs. now rewrite Hgcc.
  - intro dep. rewrite filter_In.
    unfold pch_dep_kept, pch_dep_matches. rewrite Hgcc.
    destruct (FindExtensionOffset E dep) as [offset|]; simpl.
    + rewrite <- compare_tail_true.
      destruct (compare_tail dep (GetGCCPCHOutputExtension E tool_name))
        as [[|]|]; intuition congruence.
    + intuition congruence.
Qed.

Lemma X5_witness :
  In PchFilter.gcc_edge
     (written (WriteSources GccPch.gcc GccPch.app PchFilter.offered [] [] []
                            ([], []) Examples.idle)) /\
  exists pch_part,
    ["pch.h-cc.gch"%string] = [] ++ pch_part ++ [] /\
    (In "pch.h-c.gch"%string pch_part
     <-> In "pch.h-c.gch"%string PchFilter.offered /\
         FindExtensionOffset GccPch.gcc "pch.h-c.gch" <> None /\
         ends_with "pch.h-c.gch" ".h-cc.gch").
Proof.
  assert (Hin : In PchFilter.gcc_edge
                   (written (WriteSources GccPch.gcc GccPch.app
                               PchFilter.offered [] [] [] ([], [])
                               Examples.idle))).
  { vm_compute. left. reflexivity. }
  split; [exact Hin|].
  destruct (X5_gcc_pch_deps_are_filtered_by_suffix
              _ _ _ _ _ _ _ _ (PchFilter.cxx_tool PCH_GCC)
              _ _ _ _ _ _ Hin eq_refl eq_refl)
    as (pch_part & Hdeps & _ & Hiff).
  exists pch_part. split; [exact Hdeps | exact (Hiff _)].
Defined.

(** X6.  On a compile edge whose tool declares no precompiled header
    dialect, no pch file is an implicit input, whatever pch files are
    offered: the implicit inputs are the input deps followed by the module
    inputs. *)
Theorem X6_no_pch_deps_without_dialect
    (E : Externals) (t : Target)
    (pch_deps input_deps order_only_deps : list OutputFile)
    (module_dep_info : list ModuleDep)
    (files : list OutputFile * list SourceFile) (s : Scheduler)
    (tool : Tool)
    (srcs : list SourceFile) (deps order_only : list OutputFile)
    (tool_name : ToolName) (outs : list OutputFile) (info : option bool) :
  In (CompilerBuildLine srcs deps order_only tool_name outs info)
     (written (WriteSources E t pch_deps input_deps order_only_deps
                            module_dep_info files s)) ->
  GetToolAsC (toolchain t) tool_name = Some tool ->
  precompiled_header_type tool = PCH_NONE ->
  deps = input_deps ++ module_inputs outs module_dep_info.
Proof.
  intros Hin Htool Hnone.
  rewrite (edge_pch_inputs _ _ _ _ _ _ _ _ _ _ _ _ _ _ _ Hin Htool).
  unfold pch_inputs. now rewrite Hnone.
Qed.

Lemma X6_witness :
  In PchFilter.plain_edge
     (written (WriteSources GccPch.gcc PchFilter.app_none PchFilter.offered
                            [] [] [] ([], []) Examples.idle)) /\
  @nil OutputFile = [] ++ module_inputs ["a.o"%string] [].
Proof.
  assert (Hin : In PchFilter.plain_edge
                   (written (WriteSources GccPch.gcc PchFilter.app_none
                               PchFilter.offered [] [] [] ([], [])
                               Examples.idle))).
  { vm_compute. left. reflexivity. }
  split; [exact Hin|].
  exact (X6_no_pch_deps_without_dialect
           _ _ _ _ _ _ _ _ (PchFilter.cxx_tool PCH_NONE)
           _ _ _ _ _ _ Hin eq_refl eq_refl).
Defined.

(** X7.  On a compile edge whose tool has the MSVC dialect, the pch deps
    among the implicit inputs are, in order, the offered pch files whose
    extension starts at a position [pos + 1] within the path and whose
    path ends with the pch object extension the tool derives from the
    text at [pos] (the dot and the extension). *)
Theorem X7_msvc_pch_deps_are_filtered_by_suffix
    (E : Externals) (t : Target)
    (pch_deps input_deps order_only_deps : list OutputFile)
    (module_dep_info : list ModuleDep)
    (files : list OutputFile * list SourceFile) (s : Scheduler)
    (tool : Tool)
    (srcs : list SourceFile) (deps order_only : list OutputFile)
    (tool_name : ToolName) (outs : list OutputFile) (info : option bool) :
  In (CompilerBuildLine srcs deps order_only tool_name outs info)
     (written (WriteSources E t pch_deps input_deps order_only_deps
                            module_dep_info files s)) ->
  GetToolAsC (toolchain t) tool_name = Some tool ->
  precompiled_header_type tool = PCH_MSVC ->
  exists pch_part,
    deps = input_deps ++ pch_part ++ module_inputs outs module_dep_info /\
    pch_part = filter (pch_dep_kept E tool tool_name) pch_deps /\
    forall dep,
      In dep pch_part
      <-> In dep pch_deps /\
          exists pos,
            FindExtensionOffset E dep = Some (S pos) /\
            pos <= String.length dep /\
            ends_with dep
              (GetWindowsPCHObjectExtension
                 E tool_name
                 (substring pos (String.length dep - pos) dep)).
Proof.
  intros Hin Htool Hmsvc.
  exists (filter (pch_dep_kept E tool tool_name) pch_deps).
  split; [|split; [reflexivity|]].
  - rewrite (edge_pch_inputs _ _ _ _ _ _ _ _ _ _ _ _ _ _ _ Hin Htool).
    unfold pch_inputs. now rewrite Hmsvc.
  - intro dep. rewrite filter_In.
    unfold pch_dep_kept, pch_dep_matches. rewrite Hmsvc.
    destruct (FindExtensionOffset E dep) as [[|pos]|]; simpl.
    + split; [intuition discriminate|].
      intros (_ & pos & Hpos & _). discriminate.
    + destruct (Nat.leb pos (String.length dep)) eqn:Hle; simpl.
      * apply Nat.leb_le in Hle. split.
        -- intros (Hdep & Hkept). split; [assumption|].
           exists pos. repeat split; try assumption.
           apply compare_tail_true.
           destruct (compare_tail dep _) as [[|]|];
             [reflexivity | discriminate | discriminate].
        -- intros (Hdep & pos' & Hpos & _ & Hends).
           injection Hpos as <-. split; [assumption|].
           apply compare_tail_true in Hends. now rewrite Hends.
      * split; [intuition discriminate|].
        intros (_ & pos' & Hpos & Hle' & _). injection Hpos as <-.
        apply Nat.leb_le in Hle'. congruence.
    + split; [intuition discriminate|].
      intros (_ & pos & Hpos & _). discriminate.
Qed.

Lemma X7_witness :
  In PchFilter.msvc_edge
     (written (WriteSources MsvcObjC.msvc PchFilter.app_msvc
                            PchFilter.offered_msvc [] [] [] ([], [])
                            Examples.idle)) /\
  exists pch_part,
    ["pch.cc.obj"%string] = [] ++ pch_part ++ [] /\
    pch_part
    = filter (pch_dep_kept MsvcObjC.msvc (PchFilter.cxx_tool PCH_MSVC)
                           kCToolCxx)
             PchFilter.offered_msvc.
Proof.
  assert (Hin : In PchFilter.msvc_edge
                   (written (WriteSources MsvcObjC.msvc PchFilter.app_msvc
                               PchFilter.offered_msvc [] [] [] ([], [])
                               Examples.idle))).
  { vm_compute. left. reflexivity. }
  split; [exact Hin|].
  destruct (X7_msvc_pch_deps_are_filtered_by_suffix
              _ _ _ _ _ _ _ _ (PchFilter.cxx_tool PCH_MSVC)
              _ _ _ _ _ _ Hin eq_refl eq_refl)
    as (pch_part & Hdeps & Hpart & _).
  exists pch_part. split; [exact Hdeps | exact Hpart].
Defined.

(** ** The Swift source block *)

Lemma flat_map_if_filter {A B} (p : A -> bool) (f : A -> list B)
    (l : list A) :
  flat_map (fun x => if p x then f x else []) l = flat_map f (filter p l).
Proof.
  induction l as [|x l IH]; [reflexivity|].
  simpl. destruct (p x); simpl; now rewrite IH.
Qed.

(** X8.  The Swift source block writes the Swift compile edge and, exactly
    when the additional outputs are not empty, one stamp edge from the
    [.swiftmodule] to them, with the implicit and order-only inputs of the
    compile edge.  The additional outputs are the outputs of the Swift
    tool other than the [.swiftmodule], followed, when the tool has
    partial outputs, by the partial outputs of each Swift source, in
    source order; sources that are not Swift contribute none.  The object
    files handed to the link edge are those it was given followed by the
    object-type additional outputs, in order.  Without partial outputs the
    [.swiftmodule] is never an output of the stamp edge. *)
Theorem X8_swift_objects_are_the_stamp_outputs
    (E : Externals) (t : Target) (input_deps order_only_deps : list OutputFile)
    (object_files : list OutputFile) (s : Scheduler)
    (r : list OutputFile) (w : list Item) (s' : Scheduler) :
  SwiftSourceUsed (source_types_used t) = true ->
  WriteSwiftSources E t input_deps order_only_deps object_files s
  = mkOutcome (Value r) w s' ->
  exists tool,
    GetToolForSourceType (toolchain t) SOURCE_SWIFT = Some tool /\
    let additional_outputs :=
      filter (fun output => negb (String.eqb output (module_output_file t)))
             (ApplyListToLinkerAsOutputFile E t tool (outputs tool))
      ++ match partial_outputs tool with
         | [] => []
         | _ :: _ =>
             flat_map
               (fun source =>
                  ApplyListToCompilerAsOutputFile E t source
                                                  (partial_outputs tool))
               (filter IsSwiftType (sources t))
         end in
    let swift_order_only_deps :=
      fold_left push_back_unique (map dependency_output_file (modules t))
                (Append [] order_only_deps) in
    r = object_files ++ object_outputs E additional_outputs /\
    w = CompilerBuildLine (sources t) input_deps swift_order_only_deps
                          (name tool) [module_output_file t] (Some false)
        :: match additional_outputs with
           | [] => []
           | _ :: _ =>
               [Endl;
                CompilerBuildLine [AsSourceFile E (module_output_file t)]
                                  input_deps swift_order_only_deps
                                  kGeneralToolStamp additional_outputs
                                  (Some false)]
           end
        ++ [Endl] /\
    (partial_outputs tool = [] ->
     ~ In (module_output_file t) additional_outputs).
Proof.
  intros Hswift H.
  destruct (WriteSwiftSources_exact E t _ _ _ _ _ _ _ Hswift H)
    as (tool & Htool & Hr & Hw).
  exists tool. split; [exact Htool|].
  assert (Hadd : swift_additional_outputs E t tool
                 = filter (fun output =>
                             negb (String.eqb output (module_output_file t)))
                          (ApplyListToLinkerAsOutputFile E t tool
                                                         (outputs tool))
                   ++ match partial_outputs tool with
                      | [] => []
                      | _ :: _ =>
                          flat_map
                            (fun source =>
                               ApplyListToCompilerAsOutputFile
                                 E t source (partial_outputs tool))
                            (filter IsSwiftType (sources t))
                      end).
  { unfold swift_additional_outputs. f_equal.
    destruct (partial_outputs tool) as [|p0 pl]; [reflexivity|].
    apply flat_map_if_filter. }
  cbv zeta in Hw |- *. rewrite Hadd in Hr, Hw.
  split; [exact Hr|]. split; [exact Hw|].
  intro Hnone. rewrite Hnone, app_nil_r.
  intro Hin. apply filter_In in Hin. destruct Hin as (_ & Hne).
  now rewrite String.eqb_refl in Hne.
Qed.

Lemma X8_witness :
  exists tool,
    GetToolForSourceType (toolchain Swift.mixed) SOURCE_SWIFT = Some tool /\
    result (WriteSwiftSources SwiftOutputs.whole_module Swift.mixed
                              [] [] [] Examples.idle)
    = Value ["Mod.o"; "a.o"]%string /\
    written (WriteSwiftSources SwiftOutputs.whole_module Swift.mixed
                               [] [] [] Examples.idle)
    = [CompilerBuildLine (sources Swift.mixed) [] [] (name tool)
                         [module_output_file Swift.mixed] (Some false);
       Endl;
       CompilerBuildLine
         [AsSourceFile SwiftOutputs.whole_module
                       (module_output_file Swift.mixed)]
         [] [] kGeneralToolStamp ["Mod.o"; "Mod-Swift.h"; "a.o"]%string
         (Some false);
       Endl].
Proof.
  destruct (X8_swift_objects_are_the_stamp_outputs
              SwiftOutputs.whole_module Swift.mixed [] [] [] Examples.idle
              _ _ _ eq_refl (outcome_eta _))
    as (tool & Htool & Hr & Hw & _).
  exists tool. split; [exact Htool|].
  injection Htool as <-.
  split; [reflexivity | exact Hw].
Defined.

(** ** Rust libraries and the link edge *)

Lemma linkable_deps_loop_without_rust (deps : list Target) :
  linkable_deps_loop (filter (fun d => negb (is_skipped d)) deps)
  = linkable_deps_loop deps.
Proof.
  rewrite !linkable_deps_loop_spec.
  induction deps as [|d deps IH]; [reflexivity|].
  injection IH as IH1 IH2 IH3.
  assert (Hd : is_skipped d = true -> is_direct d = false)
    by (intro H; unfold is_direct; now rewrite H).
  assert (Hs : is_skipped d = true -> is_shared d = false)
    by (intro H; unfold is_shared; now rewrite H).
  cbn [filter flat_map].
  destruct (is_skipped d) eqn:Hskip; cbn [negb].
  - rewrite (Hd eq_refl), (Hs eq_refl). cbn [app].
    now rewrite IH1, IH2, IH3.
  - cbn [filter flat_map map].
    destruct (is_direct d), (is_shared d); cbn [filter flat_map map app];
      now rewrite IH1, IH2, IH3.
Qed.

(** X9.  A Rust library or Rust proc-macro among the linkable deps leaves
    no trace in the terminal block: the link edge, its implicit inputs and
    its variables are those of the same target with these deps taken out
    of the linkable deps. *)
Theorem X9_rust_linkable_deps_are_ignored
    (E : Externals) (t : Target)
    (object_files : list OutputFile) (other_files : list SourceFile)
    (input_deps : list OutputFile) (s : Scheduler) :
  WriteLinkerStuff (without_rust_linkable E) t object_files other_files
                   input_deps s
  = WriteLinkerStuff E t object_files other_files input_deps s.
Proof.
  unfold WriteLinkerStuff, link_direct_inputs, link_solibs,
    link_implicit_deps, WriteOutputSubstitutions, lib_source_files.
  cbn [without_rust_linkable GetToolForTargetFinalOutputAsC
       ApplyListToLinkerAsOutputFile rule_prefix_
       GetToolTypeForTargetFinalOutput GetClassifiedDeps
       extra_object_files linkable_deps non_linkable_deps framework_deps
       swiftmodule_deps OutputFileOfSource GetLinkerSubstitution].
  now rewrite linkable_deps_loop_without_rust.
Qed.

(** X10.  The terminal block ends with the [rlibs] variable and the pool.
    On a final target [rlibs] holds the dependency output of every
    inherited Rust library, in order, and each of them is also an implicit
    input of the link edge, whose [|] section is then written; on a target
    that is not final there is no [rlibs] variable. *)
Theorem X10_rlibs_are_implicit_inputs
    (E : Externals) (t : Target) (tool_ : Tool)
    (object_files : list OutputFile) (other_files : list SourceFile)
    (input_deps : list OutputFile) (s : Scheduler) :
  GetToolForTargetFinalOutputAsC E t = Some tool_ ->
  let implicit_deps := link_implicit_deps E t other_files input_deps in
  let w := written (WriteLinkerStuff E t object_files other_files
                                     input_deps s) in
  (exists before, w = before ++ libs_list "rlibs" (link_rlibs t) ++ [Pool]) /\
  incl (link_rlibs t) implicit_deps /\
  (IsFinal t = true ->
   link_rlibs t
   = map dependency_output_file
         (filter is_rust_library (inherited_libraries t)) /\
   (link_rlibs t <> [] ->
    exists before after,
      w = before ++ [Text " |"; Files implicit_deps] ++ after)) /\
  (IsFinal t = false -> libs_list "rlibs" (link_rlibs t) = []).
Proof.
  intros Htool implicit_deps w. subst w.
  rewrite (WriteLinkerStuff_written E t _ _ _ _ _ Htool).
  fold (link_rlibs t). fold implicit_deps.
  assert (Hincl : incl (link_rlibs t) implicit_deps).
  { subst implicit_deps. unfold link_implicit_deps, link_rlibs.
    destruct (linkable_deps_loop (linkable_deps (GetClassifiedDeps E t)))
      as [[out imp] solibs].
    intros f Hf. rewrite !in_app_iff. tauto. }
  split; [|split; [exact Hincl|split]].
  - exists (link_line_start E t tool_ object_files
            ++ link_direct_inputs E t
            ++ implicit_section implicit_deps
            ++ order_only_section (non_linkable_deps (GetClassifiedDeps E t))
            ++ [Endl]
            ++ link_tail_vars E t tool_ other_files
            ++ libs_list "solibs" (link_solibs E t)).
    now rewrite <- !app_assoc.
  - intro Hfinal. unfold link_rlibs at 1 2. rewrite Hfinal.
    split; [reflexivity|]. intro Hne.
    assert (Himp : implicit_section implicit_deps
                   = [Text " |"; Files implicit_deps]).
    { destruct implicit_deps as [|i0 il]; [|reflexivity].
      exfalso. apply Hne. unfold link_rlibs in Hincl.
      rewrite Hfinal in Hincl.
      destruct (rust_libraries (inherited_libraries t)) as [|r0 rl];
        [reflexivity|].
      destruct (Hincl r0 (or_introl eq_refl)). }
    rewrite Himp.
    exists (link_line_start E t tool_ object_files
            ++ link_direct_inputs E t).
    eexists. rewrite <- app_assoc. reflexivity.
  - intro Hfinal. unfold link_rlibs. now rewrite Hfinal.
Qed.

Lemma X10_witness :
  IsFinal RustLibraries.app = true /\
  link_rlibs RustLibraries.app = ["libr.rlib"%string] /\
  In "libr.rlib"%string
     (link_implicit_deps StaticLibraries.plain RustLibraries.app [] []) /\
  (exists before,
      written (WriteLinkerStuff StaticLibraries.plain RustLibraries.app
                                ["main.o"%string] [] [] Examples.idle)
      = before
        ++ [Text "  "; Text "rlibs"; Text " =";
            CommandFiles ["libr.rlib"%string]; Endl]
        ++ [Pool]) /\
  exists before after,
    written (WriteLinkerStuff StaticLibraries.plain RustLibraries.app
                              ["main.o"%string] [] [] Examples.idle)
    = before
      ++ [Text " |";
          Files (link_implicit_deps StaticLibraries.plain RustLibraries.app
                                    [] [])]
      ++ after.
Proof.
  assert (Htool : exists tool_,
             GetToolForTargetFinalOutputAsC StaticLibraries.plain
                                            RustLibraries.app
             = Some tool_) by (eexists; reflexivity).
  destruct Htool as (tool_ & Htool).
  destruct (X10_rlibs_are_implicit_inputs
              StaticLibraries.plain RustLibraries.app tool_
              ["main.o"%string] [] [] Examples.idle Htool)
    as (Hend & Hincl & Hfinal & _).
  destruct (Hfinal eq_refl) as (Hrlibs & Hsection).
  split; [reflexivity|]. split; [exact Hrlibs|].
  split; [exact (Hincl _ (or_introl eq_refl))|].
  split; [exact Hend|].
  apply Hsection. discriminate.
Defined.

(** ** What [Run] reports *)

(** X11.  [Run] reports at most one error, a duplicate-object error of the
    target, and returns normally when it reports it: a run that is
    terminated, or that reaches undefined behaviour, has reported nothing
    until then. *)
Theorem X11_run_reports_at_most_one_error
    (E : Externals) (t : Target) (s : Scheduler) :
  (sched (Run E t s) = s \/
   exists file,
     sched (Run E t s) = FailWithError (duplicate_object_error t file) s /\
     result (Run E t s) = Value tt) /\
  (forall why, result (Run E t s) = Stopped why -> sched (Run E t s) = s).
Proof.
  assert (H : sched (Run E t s) = s \/
              exists file,
                sched (Run E t s)
                = FailWithError (duplicate_object_error t file) s /\
                result (Run E t s) = Value tt).
  { unfold Run.
    destruct (Run_compile E t s) as [[c|] w s1] eqn:Hc.
    - assert (Hs : s1 = s)
        by exact (silent_sched _ _ _ _ _ (silent_Run_compile E t) Hc).
      subst s1.
      rewrite (bind_value _ _ _ _ _ _ Hc). cbn [sched result].
      unfold Run_finish.
      unfold CheckForDuplicateObjectFiles.
      destruct (check_files_spec t (obj_files c) [] s)
        as [(_ & _ & Hcheck)
           | (before & file & after & _ & _ & _ & _ & Hcheck)].
      + rewrite (bind_value _ _ _ _ _ _ Hcheck).
        cbn [negb sched result]. left.
        destruct (output_type t);
          try exact (silent_sched _ _ _ _ _
                       (silent_WriteLinkerStuff E t _ _ _)
                       (outcome_eta _)).
        reflexivity.
      + rewrite (bind_value _ _ _ _ _ _ Hcheck). cbn [negb sched result].
        right. exists file. split; reflexivity.
    - assert (Hs : s1 = s)
        by exact (silent_sched _ _ _ _ _ (silent_Run_compile E t) Hc).
      subst s1. rewrite (bind_fatal _ _ _ _ _ _ Hc). now left. }
  split; [exact H|].
  intros why Hfatal. destruct H as [H|(file & _ & Hv)]; [exact H|].
  rewrite Hv in Hfatal. discriminate.
Qed.

(** ** Source file types *)

(** X12.  [MixedSourceUsed] holds exactly when at least two of the three
    families of sources -- C, Rust, Go -- are used. *)
Theorem X12_mixed_sources_iff_two_families
    (s : SourceFileTypes.SourceFileTypeSet) :
  SourceFileTypes.MixedSourceUsed s
  = (SourceFileTypes.CSourceUsed s && SourceFileTypes.RustSourceUsed s)
    || (SourceFileTypes.CSourceUsed s && SourceFileTypes.GoSourceUsed s)
    || (SourceFileTypes.RustSourceUsed s && SourceFileTypes.GoSourceUsed s).
Proof.
  unfold SourceFileTypes.MixedSourceUsed.
  destruct (SourceFileTypes.CSourceUsed s),
    (SourceFileTypes.RustSourceUsed s), (SourceFileTypes.GoSourceUsed s);
    reflexivity.
Qed.

(** ** Where the source block stops *)

Lemma stop_of_bind {A B} (m : Writer A) (f : A -> Writer B) s :
  stop_of (result (bind m f s))
  = match result (m s) with
    | Value a => stop_of (result (f a (sched (m s))))
    | Stopped why => Some why
    end.
Proof. unfold bind. now destruct (result (m s)). Qed.

Lemma stop_of_compare_tail (v e : string) :
  stop_of (compare_tail v e)
  = if Nat.ltb (String.length v) (String.length e)
    then Some Terminated else None.
Proof.
  unfold compare_tail.
  destruct (Nat.leb (String.length e) (String.length v)) eqn:Hle; simpl.
  - apply Nat.leb_le in Hle.
    destruct (Nat.ltb (String.length v) (String.length e)) eqn:Hlt;
      [|reflexivity].
    apply Nat.ltb_lt in Hlt. lia.
  - apply Nat.leb_gt in Hle. apply Nat.ltb_lt in Hle. now rewrite Hle.
Qed.

Lemma stop_of_pch_dep_matches (E : Externals) (tool : Tool)
    (tool_name : ToolName) (dep : OutputFile) :
  precompiled_header_type tool <> PCH_NONE ->
  stop_of (pch_dep_matches E tool tool_name dep)
  = if pch_dep_crashes E tool tool_name dep then Some Terminated else None.
Proof.
  intro Hnone. unfold pch_dep_matches, pch_dep_crashes.
  destruct (FindExtensionOffset E dep) as [offset|]; [|reflexivity].
  destruct (precompiled_header_type tool); [congruence| |].
  - simpl. apply stop_of_compare_tail.
  - destruct offset as [|pos]; [reflexivity|]. simpl.
    destruct (Nat.leb pos (String.length dep)) eqn:Hle; simpl.
    + rewrite stop_of_compare_tail.
      apply Nat.leb_le in Hle.
      destruct (Nat.ltb (String.length dep) pos) eqn:Hlt; [|reflexivity].
      apply Nat.ltb_lt in Hlt. lia.
    + apply Nat.leb_gt in Hle.
      apply Nat.ltb_lt in Hle. now rewrite Hle.
Qed.

Lemma stop_of_fold_pch_dep_step (E : Externals) (tool : Tool)
    (tool_name : ToolName) (pchs : list OutputFile) :
  precompiled_header_type tool <> PCH_NONE ->
  forall deps,
    stop_of (fold_result (pch_dep_step E tool tool_name) pchs deps)
    = if existsb (pch_dep_crashes E tool tool_name) pchs
      then Some Terminated else None.
Proof.
  intro Hnone. induction pchs as [|dep pchs IH]; intro deps; [reflexivity|].
  simpl. rewrite pch_dep_step_matches.
  pose proof (stop_of_pch_dep_matches E tool tool_name dep Hnone) as Hdep.
  destruct (pch_dep_matches E tool tool_name dep) as [same|why];
    simpl in Hdep |- *;
    destruct (pch_dep_crashes E tool tool_name dep); try discriminate;
    simpl.
  - apply IH.
  - exact Hdep.
Qed.

Lemma stop_of_fold_module_dep_step (tool_outputs : list OutputFile)
    (mdi : list ModuleDep) :
  forall deps,
    stop_of (fold_result (module_dep_step tool_outputs) mdi deps)
    = if negb (is_empty mdi) && is_empty tool_outputs
      then Some UndefinedBehaviour else None.
Proof.
  induction mdi as [|md mdi IH]; intro deps; [reflexivity|].
  simpl. destruct tool_outputs as [|first rest]; [reflexivity|].
  simpl. rewrite IH. simpl. now rewrite andb_false_r.
Qed.

Lemma stop_of_for_each {A S} (body : S -> A -> Writer S)
    (stop : A -> option Stop) (l : list A) :
  (forall st x s, stop_of (result (body st x s)) = stop x) ->
  forall st s,
    stop_of (result (for_each body l st s)) = first_stop stop l.
Proof.
  intro Hbody. induction l as [|x l IH]; intros st s; [reflexivity|].
  simpl. rewrite stop_of_bind. specialize (Hbody st x s).
  destruct (result (body st x s)) as [st'|why]; simpl in Hbody;
    rewrite <- Hbody; [apply IH | reflexivity].
Qed.

Lemma stop_of_WriteSources_source (E : Externals) (t : Target)
    (pch_deps input_deps order_only_deps : list OutputFile)
    (module_dep_info : list ModuleDep)
    (files : list OutputFile * list SourceFile) (source : SourceFile)
    (s : Scheduler) :
  stop_of (result (WriteSources_source E t pch_deps input_deps
                     order_only_deps module_dep_info files source s))
  = source_stop E t pch_deps module_dep_info source.
Proof.
  unfold WriteSources_source, source_stop.
  destruct files as [object_files other_files].
  destruct (GetOutputFilesForSource E t source)
    as [[ok tool_name] tool_outputs].
  destruct ok; [|reflexivity]. cbn [negb].
  destruct (ToolName_eqb tool_name kToolNone); cbn [negb].
  - destruct (IsModuleMapType source); [reflexivity|].
    now destruct tool_outputs.
  - destruct (GetToolAsC (toolchain t) tool_name) as [tool|];
      [|reflexivity].
    pose proof (stop_of_fold_module_dep_step tool_outputs module_dep_info)
      as Hmod.
    destruct (is_none (precompiled_header_type tool)) eqn:Hnone;
      cbn [negb andb].
    + specialize (Hmod input_deps).
      unfold bind, lift, emit. cbn [result sched written].
      destruct (fold_result (module_dep_step tool_outputs) module_dep_info
                            input_deps) as [deps|why];
        cbn [stop_of result sched written] in *;
        destruct (negb (is_empty module_dep_info) && is_empty tool_outputs);
        try discriminate; [|exact Hmod].
      destruct (IsModuleMapType source); [reflexivity|].
      now destruct tool_outputs.
    + assert (Hne : precompiled_header_type tool <> PCH_NONE).
      { intro Heq. rewrite Heq in Hnone. discriminate. }
      pose proof (stop_of_fold_pch_dep_step E tool tool_name pch_deps Hne
                    input_deps) as Hpch.
      unfold bind, lift, emit. cbn [result sched written].
      destruct (fold_result (pch_dep_step E tool tool_name) pch_deps
                            input_deps) as [deps0|why];
        cbn [stop_of result sched written] in *;
        destruct (existsb (pch_dep_crashes E tool tool_name) pch_deps);
        try discriminate; [|exact Hpch].
      specialize (Hmod deps0).
      destruct (fold_result (module_dep_step tool_outputs) module_dep_info
                            deps0) as [deps|why];
        cbn [stop_of result sched written] in *;
        destruct (negb (is_empty module_dep_info) && is_empty tool_outputs);
        try discriminate; [|exact Hmod].
      destruct (IsModuleMapType source); [reflexivity|].
      now destruct tool_outputs.
Qed.

Lemma stop_of_WriteSources
    (E : Externals) (t : Target)
    (pch_deps input_deps order_only_deps : list OutputFile)
    (module_dep_info : list ModuleDep)
    (files : list OutputFile * list SourceFile) (s : Scheduler) :
  stop_of (result (WriteSources E t pch_deps input_deps order_only_deps
                                module_dep_info files s))
  = first_stop (source_stop E t pch_deps module_dep_info) (sources t).
Proof.
  unfold WriteSources. rewrite stop_of_bind.
  rewrite <- (stop_of_for_each
                (WriteSources_source E t pch_deps input_deps order_only_deps
                                     module_dep_info)
                (source_stop E t pch_deps module_dep_info) (sources t)
                (fun st x s0 => stop_of_WriteSources_source
                                  E t pch_deps input_deps order_only_deps
                                  module_dep_info st x s0)
                files s).
  now destruct (result (for_each _ (sources t) files s)).
Qed.

(** X13.  The C-family source block stops at the first source, in source
    order, for which the target reports outputs and one of these holds, in
    the order of the statements.  The process is terminated when the tool
    named for the source is missing from the toolchain, or when that tool
    has a pch dialect and an offered pch file is shorter than the
    extension it is compared with (or, with the MSVC dialect, has its
    extension at offset 0 or past its end).  The behaviour is undefined
    when the first output of an empty output list is read: against the
    module records of a source with a tool, or as the object file of a
    source that is no module map; nothing is said of what follows.  If no
    source is such, the block returns its two lists. *)
Theorem X13_source_block_termination
    (E : Externals) (t : Target)
    (pch_deps input_deps order_only_deps : list OutputFile)
    (module_dep_info : list ModuleDep)
    (files : list OutputFile * list SourceFile) (s : Scheduler) :
  stop_of (result (WriteSources E t pch_deps input_deps order_only_deps
                                module_dep_info files s))
  = first_stop (source_stop E t pch_deps module_dep_info) (sources t).
Proof.
  unfold WriteSources. rewrite stop_of_bind.
  destruct (result (for_each _ (sources t) files s)) as [r|why] eqn:Hr.
  - apply (f_equal stop_of) in Hr.
    rewrite (stop_of_for_each
               _ (source_stop E t pch_deps module_dep_info)) in Hr.
    + simpl in Hr. now rewrite Hr.
    + intros. apply stop_of_WriteSources_source.
  - apply (f_equal stop_of) in Hr.
    rewrite (stop_of_for_each
               _ (source_stop E t pch_deps module_dep_info)) in Hr.
    + simpl in Hr. now rewrite Hr.
    + intros. apply stop_of_WriteSources_source.
Qed.

(** A pch file shorter than the GCC pch extension terminates the block. *)
Example short_pch_terminates_the_block :
  result (WriteSources GccPch.gcc GccPch.app Stops.short_pch [] [] []
                       ([], []) Examples.idle)
  = Fatal.
Proof. reflexivity. Qed.

(** A source reported with an empty list of outputs: the edge of [a.cc] is
    written, then the first output of the empty list is read. *)
Example empty_outputs_are_undefined :
  WriteSources Stops.hollow Stops.with_empty [] [] [] [] ([], [])
               Examples.idle
  = mkOutcome Undefined
              [CompilerBuildLine [Examples.cc "a.cc"] [] [] kCToolCxx
                                 ["a.o"%string] None;
               Pool;
               CompilerBuildLine [Examples.cc "empty.cc"] [] [] kCToolCxx
                                 [] None;
               Pool]
              Examples.idle.
Proof. reflexivity. Qed.

(** ** Where [Run] stops *)

Section ModuleRecordsFail.

Variable E : Externals.

Lemma stop_of_add ret_ d self :
  stop_of (add E ret_ d self)
  = if record_fails E d then Some Terminated else None.
Proof.
  unfold add, record_fails.
  destruct (GetModuleMapFromTargetSources d) as [m|]; [|reflexivity].
  destruct (GetTargetSubstitution E d SubstitutionLabelNoToolchain)
    as [lbl|]; [|reflexivity].
  destruct (GetOutputFilesForSource E d m) as [[ok tool_type] outs].
  destruct ok; [|reflexivity].
  now destruct outs as [|out [|out' outs]].
Qed.

Lemma stop_of_add_linked deps :
  forall ret_,
    stop_of (add_linked E ret_ deps)
    = if existsb (fun d => uses_modulemap d && record_fails E d) deps
      then Some Terminated else None.
Proof.
  induction deps as [|dep rest IH]; intro ret_; [reflexivity|].
  simpl. unfold uses_modulemap at 1.
  destruct (Get (source_types_used dep) SOURCE_MODULEMAP); simpl.
  - pose proof (stop_of_add ret_ dep false) as Hadd.
    destruct (add E ret_ dep false) as [ret'|why]; simpl in Hadd |- *;
      destruct (record_fails E dep); try discriminate; simpl.
    + apply IH.
    + exact Hadd.
  - apply IH.
Qed.

End ModuleRecordsFail.

(** X14.  [GetModuleDepsInformation] is terminated by a [CHECK] exactly
    when the target, or one of its linked deps, has a module map among its
    source types and either no module-map source, or no label, or no
    outputs reported for the module-map source, or a number of outputs
    other than one; otherwise it returns.  Targets without a module map
    are never looked at. *)
Theorem X14_module_records_termination (E : Externals) (t : Target) :
  stop_of (GetModuleDepsInformation E t)
  = if module_records_fail E t then Some Terminated else None.
Proof.
  unfold GetModuleDepsInformation, module_records_fail, uses_modulemap at 1.
  destruct (Get (source_types_used t) SOURCE_MODULEMAP); simpl.
  - pose proof (stop_of_add E [] t true) as Hadd.
    destruct (add E [] t true) as [ret_|why]; simpl in Hadd |- *;
      destruct (record_fails E t); try discriminate; simpl.
    + apply stop_of_add_linked.
    + exact Hadd.
  - apply stop_of_add_linked.
Qed.

Section RunTermination.

Variable E : Externals.
Variable t : Target.

Lemma WriteCompilerVars_value mdi s :
  exists w, WriteCompilerVars E t mdi s = mkOutcome (Value tt) w s.
Proof.
  unfold WriteCompilerVars, WriteModuleDepsSubstitution.
  destruct mdi as [|m mdi];
    destruct (Get (source_types_used t) SOURCE_CPP
              || Get (source_types_used t) SOURCE_MODULEMAP);
    destruct (used (toolchain t) CSubstitutionModuleDeps);
    destruct (used (toolchain t) CSubstitutionModuleDepsNoSelf);
    eexists; reflexivity.
Qed.

Lemma stop_of_source_block pch_files id ood mdi s :
  stop_of (result (source_block E t pch_files id ood mdi s))
  = if SwiftSourceUsed (source_types_used t) then
      match GetToolForSourceType (toolchain t) SOURCE_SWIFT with
      | None => Some Terminated
      | Some _ => None
      end
    else first_stop (source_stop E t pch_files mdi) (sources t).
Proof.
  unfold source_block.
  destruct (SwiftSourceUsed (source_types_used t)) eqn:Hswift;
    cbn [negb].
  - unfold WriteSwiftSources. rewrite Hswift.
    destruct (GetToolForSourceType (toolchain t) SOURCE_SWIFT) as [tool|];
      [|reflexivity].
    cbv zeta.
    match goal with
    | |- context [match ?a with [] => ret tt | _ :: _ => _ end] =>
        destruct a
    end; reflexivity.
  - apply stop_of_WriteSources.
Qed.

Lemma stop_of_Run_compile s :
  stop_of (result (Run_compile E t s)) = compile_stop E t.
Proof.
  unfold Run_compile, compile_stop.
  destruct (GetModuleDepsInformation E t) as [mdi|why]; [|reflexivity].
  rewrite (bind_value _ _ s mdi [] s eq_refl). cbn [result].
  destruct (WriteCompilerVars_value mdi s) as (wv & Hvars).
  rewrite (bind_value _ _ _ _ _ _ Hvars). cbn [result].
  rewrite (bind_value _ _ s (InputsStampDep E t (List.length (sources t)))
                      [InputsStamp (List.length (sources t))] s eq_refl).
  cbn [result].
  rewrite (bind_value _ _ s
             (InputDepsStampDep E t [] (List.length (sources t)))
             [InputDepsStamp (List.length (sources t))] s eq_refl).
  cbn [result].
  destruct (WritePCHCommands_spec E t
              (InputsStampDep E t (List.length (sources t)))
              (InputDepsStampDep E t [] (List.length (sources t))) s)
    as (wp & Hpch & _).
  rewrite (bind_value _ _ _ _ _ _ Hpch). cbn [result].
  fold (pch_files_of E t).
  rewrite <- (stop_of_source_block
                (pch_files_of E t)
                (InputsStampDep E t (List.length (sources t)))
                (InputDepsStampDep E t [] (List.length (sources t)))
                mdi s).
  unfold bind.
  destruct (result (source_block E t (pch_files_of E t) _ _ mdi s))
    as [[objs others]|why]; reflexivity.
Qed.

End RunTermination.

(** X15.  [Run] stops before it returns in exactly these ways.  Before the
    duplicate check, for the reason found first: a [CHECK] of the module
    records fails (terminated); or the target uses Swift sources and the
    toolchain has no Swift tool (terminated); or it uses none and the
    C-family source block stops on a source, terminated or with undefined
    behaviour, the pch files offered being the outputs of the MSVC-dialect
    PCH edges if any and those of the GCC-dialect PCH edges otherwise.
    After a duplicate check that found nothing: the target is not a source
    set and has no tool for its final output (terminated).  A run that
    reports a duplicate is not stopped. *)
Theorem X15_run_termination (E : Externals) (t : Target) (s : Scheduler)
    (why : Stop) :
  result (Run E t s) = Stopped why
  <-> compile_stop E t = Some why \/
      (why = Terminated /\
       exists c w,
         Run_compile E t s = mkOutcome (Value c) w s /\
         NoDup (obj_files c) /\
         output_type t <> SOURCE_SET /\
         GetToolForTargetFinalOutputAsC E t = None).
Proof.
  pose proof (stop_of_Run_compile E t s) as Hstop.
  unfold Run.
  destruct (Run_compile E t s) as [[c|why'] w s1] eqn:Hc.
  - assert (Hs : s1 = s)
      by exact (silent_sched _ _ _ _ _ (silent_Run_compile E t) Hc).
    subst s1. cbn [result stop_of] in Hstop.
    rewrite (bind_value _ _ _ _ _ _ Hc). cbn [result].
    unfold Run_finish, CheckForDuplicateObjectFiles.
    destruct (check_files_spec t (obj_files c) [] s)
      as [(Hnd & _ & Hcheck)
         | (before & file & after & Hfiles & _ & _ & Hin & Hcheck)].
    + rewrite (bind_value _ _ _ _ _ _ Hcheck). cbn [negb result].
      destruct (GetToolForTargetFinalOutputAsC E t) as [tool_|] eqn:Htool.
      * split.
        -- intro Hfatal. exfalso.
           destruct (output_type t);
             try (rewrite (result_WriteLinkerStuff E t _ _ _ _ _ Htool)
                   in Hfatal);
             discriminate.
        -- intros [Hcr|(_ & c' & w' & _ & _ & _ & Hnone)]; congruence.
      * split.
        -- intro Hfatal. right.
           assert (Hwhy : why = Terminated /\ output_type t <> SOURCE_SET).
           { unfold WriteLinkerStuff in Hfatal. rewrite Htool in Hfatal.
             destruct (output_type t); cbn in Hfatal;
               try discriminate; injection Hfatal as <-;
               (split; [reflexivity | discriminate]). }
           destruct Hwhy as (-> & Hset).
           split; [reflexivity|]. exists c, w. now repeat split.
        -- intros [Hcr|(-> & c' & w' & _ & _ & Hset & _)]; [congruence|].
           unfold WriteLinkerStuff. rewrite Htool.
           destruct (output_type t); try reflexivity. congruence.
    + rewrite (bind_value _ _ _ _ _ _ Hcheck). cbn [negb result].
      split; [discriminate|].
      intros [Hcr|(_ & c' & w' & Hc' & Hnd & _)]; [congruence|].
      injection Hc' as <- _.
      pose proof (CheckForDuplicateObjectFiles_NoDup t _ s Hnd) as Hok.
      unfold CheckForDuplicateObjectFiles in Hok. congruence.
  - rewrite (bind_fatal _ _ _ _ _ _ Hc). cbn [result stop_of] in *.
    split.
    + intro H. injection H as <-. now left.
    + intros [Hcr|(_ & c' & w' & Hc' & _)]; congruence.
Qed.

(** On a source reported with no output, [Run] reaches undefined
    behaviour; it is not terminated. *)
Example run_on_empty_outputs :
  compile_stop Stops.hollow Stops.with_empty = Some UndefinedBehaviour /\
  result (Run Stops.hollow Stops.with_empty Examples.idle) = Undefined.
Proof. split; reflexivity. Qed.

(** ** The object files of the link edge *)

(** X16.  When emission reaches the duplicate check of a target without
    Swift sources, the object files handed to the duplicate check and to
    the terminal block are, in the order of the sources, the first output
    of every source for which the target reports outputs and which is no
    module map, followed by the outputs of the MSVC-dialect PCH edges.  A
    module map and a source without outputs contribute no object file. *)
Theorem X16_object_files_follow_the_sources
    (E : Externals) (t : Target) (s : Scheduler)
    (c : Compiled) (w : list Item) (s1 : Scheduler) :
  Run_compile E t s = mkOutcome (Value c) w s1 ->
  SwiftSourceUsed (source_types_used t) = false ->
  obj_files c
  = flat_map (source_object E t) (sources t) ++ pch_outputs_of E t is_msvc /\
  (forall source,
      In source (sources t) ->
      IsModuleMapType source = true
      \/ fst (fst (GetOutputFilesForSource E t source)) = false ->
      source_object E t source = []) /\
  (forall source first rest tool_name,
      In source (sources t) ->
      IsModuleMapType source = false ->
      GetOutputFilesForSource E t source = (true, tool_name, first :: rest) ->
      In first (obj_files c) /\ source_object E t source = [first]).
Proof.
  intros Hc Hswift.
  destruct (Run_compile_inv E t s c w s1 Hc)
    as (mdi & wp & objs & wsrc & _ & Hpch & Hsrc & Hobj & _).
  cbv zeta in Hpch, Hsrc.
  destruct (WritePCHCommands_spec E t
              (InputsStampDep E t (List.length (sources t)))
              (InputDepsStampDep E t [] (List.length (sources t))) s)
    as (wp' & Hpch' & _).
  rewrite Hpch in Hpch'. injection Hpch' as Hmsvc _ _.
  unfold source_block in Hsrc. rewrite Hswift in Hsrc. cbn [negb] in Hsrc.
  apply WriteSources_spec in Hsrc. destruct Hsrc as (_ & _ & Hobjs).
  specialize (Hobjs _ _ eq_refl). cbn [fst app] in Hobjs.
  assert (Heq : obj_files c
                = flat_map (source_object E t) (sources t)
                  ++ pch_outputs_of E t is_msvc)
    by now rewrite Hobj, Hobjs, Hmsvc.
  split; [exact Heq|]. split.
  - intros source _ Hno. unfold source_object.
    destruct (GetOutputFilesForSource E t source) as [[ok tn] outs].
    destruct Hno as [Hmm|Hok].
    + rewrite Hmm. now rewrite andb_false_r.
    + cbn [fst] in Hok. now rewrite Hok.
  - intros source first rest tool_name Hin Hmm Hout.
    assert (Hso : source_object E t source = [first]).
    { unfold source_object. rewrite Hout, Hmm. reflexivity. }
    split; [|exact Hso].
    rewrite Heq. apply in_or_app. left.
    apply in_flat_map. exists source. split; [exact Hin|].
    rewrite Hso. now left.
Qed.

Lemma X16_witness :
  obj_files GccPch.app_compiled
  = flat_map (source_object GccPch.gcc GccPch.app) (sources GccPch.app)
    ++ pch_outputs_of GccPch.gcc GccPch.app is_msvc.
Proof.
  exact (proj1 (X16_object_files_follow_the_sources
                  GccPch.gcc GccPch.app Examples.idle
                  GccPch.app_compiled GccPch.app_written Examples.idle
                  eq_refl eq_refl)).
Defined.
